(** * The notification service of the trading dashboard back end

    A shallow embedding of [server_fastapi/services/notification_service.py]
    (class [NotificationService]) and the properties of its operations:
    creation, expiry pruning, querying, read marking, deletion, broadcast,
    listener fan-out and statistics. *)

From Stdlib Require Import ZArith QArith List Sorted Permutation Lia.
From stdpp Require Import gmap strings list fin_maps.

Local Open Scope string_scope.
Local Open Scope Z_scope.

Set Default Proof Using "Type".

(** ** Enumerations *)

Inductive NotificationPriority := LOW | MEDIUM | HIGH | URGENT.

Inductive NotificationCategory := TRADE | BOT | MARKET | SYSTEM | PORTFOLIO | RISK.

(** [p.value] *)
Definition priority_value (p : NotificationPriority) : string :=
  match p with
  | LOW => "low" | MEDIUM => "medium" | HIGH => "high" | URGENT => "urgent"
  end.

(** [c.value] *)
Definition category_value (c : NotificationCategory) : string :=
  match c with
  | TRADE => "trade" | BOT => "bot" | MARKET => "market"
  | SYSTEM => "system" | PORTFOLIO => "portfolio" | RISK => "risk"
  end.

(** ** Values *)

(** The values of the open [data] payload ([Dict[str, Any]]). *)
Inductive PyVal :=
| PyNone
| PyBool (b : bool)
| PyInt (z : Z)
| PyStr (s : string).

(** A [datetime]: the wall-clock reading in microseconds since
    1970-01-01T00:00:00 and the UTC offset of its [tzinfo] in microseconds;
    [None] for a naive datetime.  The ISO-8601 text the service stores
    ([isoformat]) is represented by the datetime it denotes, which
    [fromisoformat] gives back. *)
Record datetime := { dt_wall : Z; dt_offset : option Z }.

Inductive exn :=
| TypeError
| CallbackFailure (cb : nat).

(** How a call ends: it returns a value, it raises, or it stays suspended
    for ever on an awaitable that never completes. *)
Inductive Outcome (A : Type) :=
| Ok (a : A)
| Raise (e : exn)
| Pending.
Arguments Ok {A} a.
Arguments Raise {A} e.
Arguments Pending {A}.

(** [d1 > d2] on datetimes: two aware datetimes are compared by their UTC
    instants, two naive ones by their wall clocks, and an aware with a naive
    one is a [TypeError]. *)
Definition datetime_gt (d1 d2 : datetime) : Outcome bool :=
  match dt_offset d1, dt_offset d2 with
  | Some o1, Some o2 => Ok (dt_wall d2 - o2 <? dt_wall d1 - o1)%Z
  | None, None => Ok (dt_wall d2 <? dt_wall d1)%Z
  | _, _ => Raise TypeError
  end.

(** [datetime.now(timezone.utc)] at the clock reading [t]. *)
Definition utc (t : Z) : datetime := {| dt_wall := t; dt_offset := Some 0 |}.

(** A stored notification (the dict built by [create_notification]).
    [timestamp], [created_at] and [read_at] are only ever written by the
    service from [datetime.now(timezone.utc)]: they are kept as the UTC
    instant in microseconds.  [expires_at] comes from the caller. *)
Record Notification := {
  n_id : Z;
  n_user_id : Z;
  n_title : string;
  n_message : string;
  n_level : string;
  n_category : string;
  n_priority : string;
  n_data : gmap string PyVal;
  n_timestamp : Z;
  n_created_at : Z;
  n_read : bool;
  n_read_at : option Z;
  n_expires_at : option datetime
}.

(** A listener callback, identified as Python identifies a function object. *)
Definition Callback := nat.

(** What awaiting the awaitable of a callback comes to: it returns, it
    raises, or it never completes. *)
Inductive Awaited := Completes | RaisesWhenAwaited | NeverCompletes.

(** What a registered callable does when [cb(notification)] is evaluated
    ([add_listener] takes any callable): the call itself raises; or it
    returns a value that cannot be awaited, as a plain function does; or it
    returns an awaitable, as a coroutine function ([async def], what the
    websocket route registers) does.  A callback reads the notification and
    leaves the service alone, as the listener of the websocket route does,
    which sends the notification on its socket. *)
Inductive CallbackBehaviour :=
| RaisesWhenCalled
| ReturnsNoAwaitable
| ReturnsAwaitable (a : Awaited).

(** ** The service and its environment *)

Record NotificationService := {
  notifications : gmap Z (list Notification);
  notification_id_counter : Z;
  listeners : gmap Z (list Callback)
}.

(** The service together with what it touches outside itself: the number
    of clock readings taken so far and the trace of the listeners run on a
    notification, in the order in which the service starts them (a callable
    that is not a coroutine function runs when it is called, a coroutine when
    [asyncio.gather] wraps it in a task). *)
Record World := {
  svc : NotificationService;
  ticks : nat;
  delivered : list (Callback * Notification)
}.

(** [NotificationService.__init__] *)
Definition init_service : NotificationService :=
  {| notifications := ∅; notification_id_counter := 1; listeners := ∅ |}.

Definition init_world : World :=
  {| svc := init_service; ticks := 0; delivered := [] |}.

(** ** State and exception monad

    A raised exception keeps the mutations made before it, as in Python, and
    so does a call that stays suspended. *)

Definition M (A : Type) : Type := World -> Outcome A * World.

Definition ret {A} (a : A) : M A := fun w => (Ok a, w).

Definition raise {A} (e : exn) : M A := fun w => (Raise e, w).

Definition bind {A B} (m : M A) (k : A -> M B) : M B :=
  fun w =>
    match m w with
    | (Ok a, w') => k a w'
    | (Raise e, w') => (Raise e, w')
    | (Pending, w') => (Pending, w')
    end.

Notation "'let*' x ':=' m 'in' k" := (bind m (fun x => k))
  (at level 10, x name, m at level 100, k at level 200).
Notation "m ';;;' k" := (bind m (fun _ => k))
  (at level 100, k at level 200, right associativity).

Definition gets {A} (f : NotificationService -> A) : M A :=
  fun w => (Ok (f (svc w)), w).

Definition modify (f : NotificationService -> NotificationService) : M unit :=
  fun w => (Ok tt, {| svc := f (svc w); ticks := ticks w; delivered := delivered w |}).

(** Lifting of an outcome computed without effects. *)
Definition lift {A} (o : Outcome A) : M A := fun w => (o, w).

Definition set_notifications (user_id : Z) (l : list Notification)
    (s : NotificationService) : NotificationService :=
  {| notifications := <[user_id := l]> (notifications s);
     notification_id_counter := notification_id_counter s;
     listeners := listeners s |}.

Definition set_counter (c : Z) (s : NotificationService) : NotificationService :=
  {| notifications := notifications s;
     notification_id_counter := c;
     listeners := listeners s |}.

Definition set_listeners (user_id : Z) (l : list Callback)
    (s : NotificationService) : NotificationService :=
  {| notifications := notifications s;
     notification_id_counter := notification_id_counter s;
     listeners := <[user_id := l]> (listeners s) |}.

(** [self.notifications.get(user_id, [])] *)
Definition user_list (s : NotificationService) (user_id : Z) : list Notification :=
  default [] (notifications s !! user_id).

(** ** Pure helpers of the operations *)

(** [_generate_title] *)
Definition level_titles (level : string) : option string :=
  if String.eqb level "info" then Some "Information"
  else if String.eqb level "warning" then Some "Warning"
  else if String.eqb level "error" then Some "Error"
  else if String.eqb level "success" then Some "Success"
  else None.

Definition category_titles (c : NotificationCategory) : string :=
  match c with
  | TRADE => "Trade" | BOT => "Bot" | MARKET => "Market"
  | SYSTEM => "System" | PORTFOLIO => "Portfolio" | RISK => "Risk"
  end.

Definition _generate_title (level : string) (category : option NotificationCategory) : string :=
  let category_title :=
    match category with Some c => category_titles c | None => "Notification" end in
  let level_title := default "Notification" (level_titles level) in
  category_title ++ " " ++ level_title.

(** [title or self._generate_title(level, category)]: an absent and an empty
    title are both falsy. *)
Definition title_or (title : option string) (generated : string) : string :=
  match title with
  | Some (String a t) => String a t
  | _ => generated
  end.

(** A list comprehension whose condition may raise: the elements are tested
    in order and the first exception ends the comprehension. *)
Fixpoint filter_outcome {A} (p : A -> Outcome bool) (l : list A) : Outcome (list A) :=
  match l with
  | [] => Ok []
  | x :: l' =>
      match p x with
      | Raise e => Raise e
      | Pending => Pending
      | Ok b =>
          match filter_outcome p l' with
          | Raise e => Raise e
          | Pending => Pending
          | Ok r => Ok (if b then x :: r else r)
          end
      end
  end.

(** The condition of the comprehension in [_cleanup_expired_notifications]. *)
Definition not_expired (current_time : datetime) (n : Notification) : Outcome bool :=
  match n_expires_at n with
  | None => Ok true
  | Some e => datetime_gt e current_time
  end.

(** [priority_order = {p.value: i for i, p in enumerate(NotificationPriority)}]
    and [priority_order.get(v, 1)]. *)
Definition priority_order (v : string) : Z :=
  if String.eqb v "low" then 0
  else if String.eqb v "medium" then 1
  else if String.eqb v "high" then 2
  else if String.eqb v "urgent" then 3
  else 1.

(** The integer nearest to [n / d], for [0 < d]; a tie goes to the even one. *)
Definition round_half_even (n d : Z) : Z :=
  let q := n / d in
  let r := n mod d in
  if 2 * r <? d then q
  else if d <? 2 * r then q + 1
  else if Z.even q then q else q + 1.

(** [n / d] on two Python ints, [0 < d]: the float nearest to the exact
    quotient, a tie going to the even significand.  A float is kept as the
    rational number it is, a significand [m] of 53 bits times a power of two
    [2 ^ e]; the quotients taken here lie in the normal range of the floats. *)
Definition true_divide (n d : Z) : Q :=
  if n =? 0 then 0%Q
  else
    let a := Z.abs n in
    let e0 := Z.log2 a - Z.log2 d - 53 in
    let e :=
      if a * 2 ^ Z.max 0 (- e0) <? d * 2 ^ 53 * 2 ^ Z.max 0 e0 then e0 else e0 + 1 in
    let m := round_half_even (a * 2 ^ Z.max 0 (- e)) (d * 2 ^ Z.max 0 e) in
    Qmake (Z.sgn n * m * 2 ^ Z.max 0 e) (Z.to_pos (2 ^ Z.max 0 (- e))).

(** [datetime.fromisoformat(n['timestamp']).timestamp()]: the POSIX time
    stamp in seconds, the float that the division of the microseconds since
    the epoch by [10**6] gives. *)
Definition posix_timestamp (n : Notification) : Q :=
  true_divide (n_timestamp n) 1000000.

(** [sort_key]: the pair (minus the priority rank, minus the POSIX time stamp). *)
Definition sort_key (n : Notification) : Z * Q :=
  (- priority_order (n_priority n), (- posix_timestamp n)%Q).

(** Tuple comparison [k1 <= k2]. *)
Definition key_leb (k1 k2 : Z * Q) : bool :=
  (k1.1 <? k2.1) || ((k1.1 =? k2.1) && Qle_bool k1.2 k2.2).

(** [sorted(l, key=sort_key)]: a stable sort, here by insertion from the
    right, which places an element before the elements to its right whose
    key is not smaller. *)
Fixpoint insert_by_key (x : Notification) (l : list Notification) : list Notification :=
  match l with
  | [] => [x]
  | y :: l' =>
      if key_leb (sort_key x) (sort_key y) then x :: y :: l'
      else y :: insert_by_key x l'
  end.

Fixpoint sorted_by_key (l : list Notification) : list Notification :=
  match l with
  | [] => []
  | x :: l' => insert_by_key x (sorted_by_key l')
  end.

(** The slice [l[:limit]]: a negative [limit] counts from the end. *)
Definition slice_to {A} (l : list A) (limit : Z) : list A :=
  if 0 <=? limit then firstn (Z.to_nat limit) l
  else firstn (Z.to_nat (Z.of_nat (length l) + limit)) l.

(** [n.get('priority') in priority_values] *)
Definition in_values (v : string) (values : list string) : bool :=
  existsb (String.eqb v) values.

(** ** The operations *)

Section Operations.

(** The clock: [clock k] is the instant, in microseconds, that the [k]-th
    call of [datetime.now(timezone.utc)] reads. *)
Variable clock : nat -> Z.

(** What each callback does on a notification. *)
Variable listener : Callback -> Notification -> CallbackBehaviour.

(** [datetime.now(timezone.utc)] *)
Definition now : M Z :=
  fun w => (Ok (clock (ticks w)),
            {| svc := svc w; ticks := S (ticks w); delivered := delivered w |}).

(** The listener is run on the notification. *)
Definition run_listener (notification : Notification) (cb : Callback) : M unit :=
  fun w => (Ok tt,
            {| svc := svc w; ticks := ticks w;
               delivered := delivered w ++ [(cb, notification)] |}).

Definition pending {A} : M A := fun w => (Pending, w).

(** The task that [asyncio.gather] makes of the awaitable that
    [cb(notification)] returned. *)
Definition await_listener (notification : Notification) (cb : Callback) (a : Awaited)
    : M unit :=
  run_listener notification cb ;;;
  match a with
  | Completes => ret tt
  | RaisesWhenAwaited => raise (CallbackFailure cb)
  | NeverCompletes => pending
  end.

(** [cb(notification)]: the value of the call, an awaitable or not.  A
    callable that is not a coroutine function runs here. *)
Definition call_listener (notification : Notification) (cb : Callback)
    : M (option (M unit)) :=
  match listener cb notification with
  | RaisesWhenCalled =>
      run_listener notification cb ;;; raise (CallbackFailure cb)
  | ReturnsNoAwaitable =>
      run_listener notification cb ;;; ret None
  | ReturnsAwaitable a => ret (Some (await_listener notification cb a))
  end.

(** A list comprehension [[f(x) for x in l]]: the calls are made in order
    and the first one that does not return ends the comprehension. *)
Fixpoint comprehension {A B} (f : A -> M B) (l : list A) : M (list B) :=
  match l with
  | [] => ret []
  | x :: l' =>
      let* y := f x in
      let* ys := comprehension f l' in
      ret (y :: ys)
  end.

(** [asyncio.gather]: every awaitable is wrapped in a task, the tasks are
    started in the order of the list, and none is cancelled when another
    one raises; the outcome of each is collected.  A creation suspends only
    once, after its append, to wait for its listeners, and neither a listener
    nor a suspended creation touches the service: running the tasks one after
    the other, each as a whole, gives the service and the outcomes of their
    interleaving, and the trace of each creation; across gathered creations
    the trace lists the listeners creation by creation. *)
Fixpoint gather {A} (tasks : list (M A)) : M (list (Outcome A)) :=
  match tasks with
  | [] => ret []
  | t :: tasks' =>
      fun w =>
        let (o, w1) := t w in
        match gather tasks' w1 with
        | (Ok os, w2) => (Ok (o :: os), w2)
        | (Raise e, w2) => (Raise e, w2)
        | (Pending, w2) => (Pending, w2)
        end
  end.

(** The first exception among the outcomes; without one, all the results,
    which never come when a task never completes. *)
Fixpoint all_results {A} (os : list (Outcome A)) : Outcome (list A) :=
  match os with
  | [] => Ok []
  | o :: os' =>
      match o, all_results os' with
      | Raise e, _ => Raise e
      | _, Raise e => Raise e
      | Pending, _ => Pending
      | Ok _, Pending => Pending
      | Ok a, Ok r => Ok (a :: r)
      end
  end.

(** The arguments of [asyncio.gather] up to the first one that is not
    awaitable. *)
Fixpoint awaitables {A} (args : list (option (M A))) : list (M A) :=
  match args with
  | Some t :: args' => t :: awaitables args'
  | _ => []
  end.

(** [asyncio.gather] on values of which some may not be awaitable: the
    arguments are wrapped in tasks in order and the first one that is not
    awaitable makes [gather] raise [TypeError]; the tasks made before it run
    all the same, the arguments after it are never run. *)
Definition gather_values {A} (args : list (option (M A))) : M (list (Outcome A)) :=
  let* os := gather (awaitables args) in
  if (length (awaitables args) <? length args)%nat then raise TypeError else ret os.

Definition is_pending {A} (o : Outcome A) : bool :=
  match o with Pending => true | _ => false end.

(** [await asyncio.gather] of the tasks, with the default
    [return_exceptions=False]: the first exception is propagated to the
    awaiting caller. *)
Definition gather_propagate {A} (tasks : list (M A)) : M (list A) :=
  let* os := gather tasks in lift (all_results os).

(** [await asyncio.gather] of the values with [return_exceptions=True]: the
    exceptions of the tasks are returned among the results, which never come
    when a task never completes. *)
Definition gather_return_exceptions {A} (args : list (option (M A)))
    : M (list (Outcome A)) :=
  let* os := gather_values args in
  if existsb is_pending os then pending else ret os.

(** [_cleanup_expired_notifications] *)
Definition _cleanup_expired_notifications (user_id : Z) : M unit :=
  let* present := gets (fun s => notifications s !! user_id) in
  match present with
  | None => ret tt
  | Some user_notifications =>
      let* current_time := now in
      let* kept := lift (filter_outcome (not_expired (utc current_time)) user_notifications) in
      modify (set_notifications user_id kept)
  end.

(** [_notify_listeners] *)
Definition _notify_listeners (user_id : Z) (notification : Notification) : M unit :=
  let* registered := gets (fun s => listeners s !! user_id) in
  match registered with
  | None => ret tt
  | Some cbs =>
      let* tasks := comprehension (call_listener notification) cbs in
      gather_return_exceptions tasks ;;; ret tt
  end.

(** [create_notification] *)
Definition create_notification
    (user_id : Z) (message : string) (level : string) (title : option string)
    (category : option NotificationCategory) (priority : NotificationPriority)
    (data : option (gmap string PyVal)) (expires_at : option datetime)
    : M Notification :=
  let* notification_id := gets notification_id_counter in
  modify (set_counter (notification_id + 1)) ;;;
  let* timestamp := now in
  let* created_at := now in
  let notification :=
    {| n_id := notification_id;
       n_user_id := user_id;
       n_title := title_or title (_generate_title level category);
       n_message := message;
       n_level := level;
       n_category := match category with Some c => category_value c | None => "system" end;
       n_priority := priority_value priority;
       n_data := default ∅ data;
       n_timestamp := timestamp;
       n_created_at := created_at;
       n_read := false;
       n_read_at := None;
       n_expires_at := expires_at |} in
  let* present := gets (fun s => notifications s !! user_id) in
  (match present with
   | None => modify (set_notifications user_id [])
   | Some _ => ret tt
   end) ;;;
  _cleanup_expired_notifications user_id ;;;
  let* user_notifications := gets (fun s => user_list s user_id) in
  modify (set_notifications user_id (user_notifications ++ [notification])) ;;;
  _notify_listeners user_id notification ;;;
  ret notification.

(** The filters and the ordering of [get_recent_notifications], on the
    user's list. *)
Definition recent_of (user_notifications : list Notification) (limit : Z)
    (category : option NotificationCategory) (unread_only : bool)
    (priority_filter : option (list NotificationPriority)) : list Notification :=
  let filtered := user_notifications in
  let filtered :=
    match category with
    | Some c => List.filter (fun n => String.eqb (n_category n) (category_value c)) filtered
    | None => filtered
    end in
  let filtered :=
    if unread_only then List.filter (fun n => negb (n_read n)) filtered else filtered in
  let filtered :=
    match priority_filter with
    | Some (p :: ps) =>
        let priority_values := map priority_value (p :: ps) in
        List.filter (fun n => in_values (n_priority n) priority_values) filtered
    | _ => filtered
    end in
  slice_to (sorted_by_key filtered) limit.

(** [get_recent_notifications] *)
Definition get_recent_notifications (user_id : Z) (limit : Z)
    (category : option NotificationCategory) (unread_only : bool)
    (priority_filter : option (list NotificationPriority)) : M (list Notification) :=
  let* user_notifications := gets (fun s => user_list s user_id) in
  ret (recent_of user_notifications limit category unread_only priority_filter).

(** The record after [notification['read'] = True] and
    [notification['read_at'] = ...]. *)
Definition set_read (n : Notification) (read_at : Z) : Notification :=
  {| n_id := n_id n;
     n_user_id := n_user_id n;
     n_title := n_title n;
     n_message := n_message n;
     n_level := n_level n;
     n_category := n_category n;
     n_priority := n_priority n;
     n_data := n_data n;
     n_timestamp := n_timestamp n;
     n_created_at := n_created_at n;
     n_read := true;
     n_read_at := Some read_at;
     n_expires_at := n_expires_at n |}.

(** The first notification of the list with the given id, with its index. *)
Fixpoint find_id (notification_id : Z) (l : list Notification) : option (nat * Notification) :=
  match l with
  | [] => None
  | x :: l' =>
      if n_id x =? notification_id then Some (O, x)
      else match find_id notification_id l' with
           | Some (i, y) => Some (S i, y)
           | None => None
           end
  end.

(** [mark_as_read]: the loop stops at the first notification with the id;
    the dict is mutated in place, that is, at its index in the user's list. *)
Definition mark_as_read (user_id : Z) (notification_id : Z) : M bool :=
  let* user_notifications := gets (fun s => user_list s user_id) in
  match find_id notification_id user_notifications with
  | Some (i, notification) =>
      (if negb (n_read notification) then
         let* read_at := now in
         modify (set_notifications user_id
                   (<[i := set_read notification read_at]> user_notifications))
       else ret tt) ;;;
      ret true
  | None => ret false
  end.

(** The loop of [mark_all_as_read] over the user's list: the list after the
    loop and the number of notifications it marked.  Each marked
    notification takes a clock reading of its own. *)
Fixpoint mark_all_loop (category : option NotificationCategory)
    (l : list Notification) : M (list Notification * Z) :=
  match l with
  | [] => ret ([], 0)
  | notification :: l' =>
      let selected :=
        negb (n_read notification) &&
        match category with
        | None => true
        | Some c => String.eqb (n_category notification) (category_value c)
        end in
      if selected then
        let* read_at := now in
        let* r := mark_all_loop category l' in
        ret (set_read notification read_at :: r.1, 1 + r.2)
      else
        let* r := mark_all_loop category l' in
        ret (notification :: r.1, r.2)
  end.

(** [mark_all_as_read]: for an unknown user the loop runs over the default
    empty list and nothing is stored. *)
Definition mark_all_as_read (user_id : Z) (category : option NotificationCategory) : M Z :=
  let* present := gets (fun s => notifications s !! user_id) in
  match present with
  | None => ret 0
  | Some user_notifications =>
      let* r := mark_all_loop category user_notifications in
      modify (set_notifications user_id r.1) ;;;
      ret r.2
  end.

(** [delete_notification] *)
Definition delete_notification (user_id : Z) (notification_id : Z) : M bool :=
  let* present := gets (fun s => notifications s !! user_id) in
  match present with
  | None => ret false
  | Some user_notifications =>
      let original_length := length user_notifications in
      let remaining :=
        List.filter (fun n => negb (n_id n =? notification_id)) user_notifications in
      modify (set_notifications user_id remaining) ;;;
      let deleted := (length remaining <? original_length)%nat in
      ret deleted
  end.

(** The count of [get_unread_count], on the user's list. *)
Definition unread_of (user_notifications : list Notification)
    (category : option NotificationCategory)
    (priority_filter : option (list NotificationPriority)) : Z :=
  let unread := List.filter (fun n => negb (n_read n)) user_notifications in
  let unread :=
    match category with
    | Some c => List.filter (fun n => String.eqb (n_category n) (category_value c)) unread
    | None => unread
    end in
  let unread :=
    match priority_filter with
    | Some (p :: ps) =>
        let priority_values := map priority_value (p :: ps) in
        List.filter (fun n => in_values (n_priority n) priority_values) unread
    | _ => unread
    end in
  Z.of_nat (length unread).

(** [get_unread_count] *)
Definition get_unread_count (user_id : Z) (category : option NotificationCategory)
    (priority_filter : option (list NotificationPriority)) : M Z :=
  let* user_notifications := gets (fun s => user_list s user_id) in
  ret (unread_of user_notifications category priority_filter).

(** [broadcast_notification]: one [create_notification] coroutine per
    element of [user_ids], gathered; [expires_at] keeps its default. *)
Definition broadcast_tasks (user_ids : list Z) (message : string) (level : string)
    (title : option string) (category : option NotificationCategory)
    (priority : NotificationPriority) (data : option (gmap string PyVal))
    : list (M Notification) :=
  map (fun user_id =>
         create_notification user_id message level title category priority data None)
      user_ids.

Definition broadcast_notification (user_ids : list Z) (message : string) (level : string)
    (title : option string) (category : option NotificationCategory)
    (priority : NotificationPriority) (data : option (gmap string PyVal)) : M unit :=
  let tasks := broadcast_tasks user_ids message level title category priority data in
  gather_propagate tasks ;;; ret tt.

(** [add_listener] *)
Definition add_listener (user_id : Z) (callback : Callback) : M unit :=
  let* registered := gets (fun s => listeners s !! user_id) in
  (match registered with
   | None => modify (set_listeners user_id [])
   | Some _ => ret tt
   end) ;;;
  let* cbs := gets (fun s => default [] (listeners s !! user_id)) in
  modify (set_listeners user_id (cbs ++ [callback])).

(** [remove_listener] *)
Definition remove_listener (user_id : Z) (callback : Callback) : M unit :=
  let* registered := gets (fun s => listeners s !! user_id) in
  match registered with
  | Some cbs =>
      modify (set_listeners user_id
                (List.filter (fun cb => negb (Nat.eqb cb callback)) cbs))
  | None => ret tt
  end.

(** The dict returned by [get_notification_stats]. *)
Record Stats := {
  total : Z;
  unread : Z;
  categories : gmap string Z;
  priorities : gmap string Z
}.

(** [counts[k] = counts.get(k, 0) + 1] *)
Definition count_key (counts : gmap string Z) (k : string) : gmap string Z :=
  <[k := default 0 (counts !! k) + 1]> counts.

(** The statistics of [get_notification_stats], on the user's list. *)
Definition stats_of (user_notifications : list Notification) : Stats :=
  {| total := Z.of_nat (length user_notifications);
     unread := Z.of_nat (length (List.filter (fun n => negb (n_read n)) user_notifications));
     categories := fold_left (fun acc n => count_key acc (n_category n)) user_notifications ∅;
     priorities := fold_left (fun acc n => count_key acc (n_priority n)) user_notifications ∅ |}.

(** [get_notification_stats] *)
Definition get_notification_stats (user_id : Z) : M Stats :=
  let* user_notifications := gets (fun s => user_list s user_id) in
  ret (stats_of user_notifications).

(** ** Calls of the service *)

Inductive Op :=
| OpCreate (user_id : Z) (message level : string) (title : option string)
    (category : option NotificationCategory) (priority : NotificationPriority)
    (data : option (gmap string PyVal)) (expires_at : option datetime)
| OpRecent (user_id : Z) (limit : Z) (category : option NotificationCategory)
    (unread_only : bool) (priority_filter : option (list NotificationPriority))
| OpMarkRead (user_id notification_id : Z)
| OpMarkAll (user_id : Z) (category : option NotificationCategory)
| OpDelete (user_id notification_id : Z)
| OpUnread (user_id : Z) (category : option NotificationCategory)
    (priority_filter : option (list NotificationPriority))
| OpBroadcast (user_ids : list Z) (message level : string) (title : option string)
    (category : option NotificationCategory) (priority : NotificationPriority)
    (data : option (gmap string PyVal))
| OpAddListener (user_id : Z) (callback : Callback)
| OpRemoveListener (user_id : Z) (callback : Callback)
| OpStats (user_id : Z).

(** The world after a call, whether it returned or raised. *)
Definition exec (op : Op) (w : World) : World :=
  match op with
  | OpCreate u m l t c p d e => (create_notification u m l t c p d e w).2
  | OpRecent u lim c r pf => (get_recent_notifications u lim c r pf w).2
  | OpMarkRead u i => (mark_as_read u i w).2
  | OpMarkAll u c => (mark_all_as_read u c w).2
  | OpDelete u i => (delete_notification u i w).2
  | OpUnread u c pf => (get_unread_count u c pf w).2
  | OpBroadcast us m l t c p d => (broadcast_notification us m l t c p d w).2
  | OpAddListener u cb => (add_listener u cb w).2
  | OpRemoveListener u cb => (remove_listener u cb w).2
  | OpStats u => (get_notification_stats u w).2
  end.

(** The ids of the notifications that the [create_notification] calls of an
    operation returned. *)
Definition returned_ids (os : list (Outcome Notification)) : list Z :=
  flat_map (fun o => match o with Ok n => [n_id n] | _ => [] end) os.

Definition created_ids (op : Op) (w : World) : list Z :=
  match op with
  | OpCreate u m l t c p d e => returned_ids [(create_notification u m l t c p d e w).1]
  | OpBroadcast us m l t c p d =>
      match (gather (broadcast_tasks us m l t c p d) w).1 with
      | Ok os => returned_ids os
      | _ => []
      end
  | _ => []
  end.

(** A sequence of calls: the final world and the ids returned by its
    creations, in order. *)
Fixpoint run (ops : list Op) (w : World) : list Z * World :=
  match ops with
  | [] => ([], w)
  | op :: ops' =>
      let r := run ops' (exec op w) in
      ((created_ids op w ++ r.1)%list, r.2)
  end.

(** The users an operation is invoked for. *)
Definition op_users (op : Op) : list Z :=
  match op with
  | OpCreate u _ _ _ _ _ _ _ | OpRecent u _ _ _ _ | OpMarkRead u _ | OpMarkAll u _
  | OpDelete u _ | OpUnread u _ _ | OpAddListener u _ | OpRemoveListener u _
  | OpStats u => [u]
  | OpBroadcast us _ _ _ _ _ _ => us
  end.

(** The worlds that the service reaches from its construction. *)
Inductive reachable : World -> Prop :=
| reachable_init : reachable init_world
| reachable_exec w op : reachable w -> reachable (exec op w).

End Operations.

(** * The connection manager

    [ConnectionManager] of [server_fastapi/routes/ws.py]: the list of the
    open websocket connections, which the websocket routes extend on
    connection and shrink on disconnection. *)

(** A websocket object, identified as Python compares such objects. *)
Definition WebSocket := nat.

(** An element of [active_connections]; [subscriptions] is the set that
    [connect] creates empty. *)
Record Connection := {
  conn_websocket : WebSocket;
  conn_user_id : Z;
  conn_subscriptions : list string
}.

(** The manager together with the trace of the [send_json] calls made on
    the websockets, in order. *)
Record ConnectionManager := {
  active_connections : list Connection;
  sends : list (WebSocket * gmap string PyVal)
}.

(** [ConnectionManager.__init__] *)
Definition init_manager : ConnectionManager :=
  {| active_connections := []; sends := [] |}.

(** A call returned, or the exception of the websocket propagated. *)
Inductive Completion := Returned | Propagated.

Section Connections.

(** Whether [websocket.accept()] raises. *)
Variable accept_raises : WebSocket -> bool.

(** Whether [websocket.send_json(message)] raises. *)
Variable send_raises : WebSocket -> gmap string PyVal -> bool.

(** [connect]: the connection is appended once the websocket is accepted. *)
Definition connect (websocket : WebSocket) (user_id : Z) (s : ConnectionManager)
    : Completion * ConnectionManager :=
  if accept_raises websocket then (Propagated, s)
  else
    (Returned,
     {| active_connections :=
          (active_connections s ++
           [{| conn_websocket := websocket;
               conn_user_id := user_id;
               conn_subscriptions := [] |}])%list;
        sends := sends s |}).

(** [disconnect] *)
Definition disconnect (websocket : WebSocket) (s : ConnectionManager) : ConnectionManager :=
  {| active_connections :=
       List.filter (fun conn => negb (Nat.eqb (conn_websocket conn) websocket))
         (active_connections s);
     sends := sends s |}.

(** [get_connection] *)
Fixpoint first_connection (websocket : WebSocket) (conns : list Connection)
    : option Connection :=
  match conns with
  | [] => None
  | conn :: conns' =>
      if Nat.eqb (conn_websocket conn) websocket then Some conn
      else first_connection websocket conns'
  end.

Definition get_connection (websocket : WebSocket) (s : ConnectionManager)
    : option Connection :=
  first_connection websocket (active_connections s).

(** The loop of [send_to_user] and of [broadcast_to_user] over the
    connections: a send is attempted on each connection of the user, an
    exception of a send is caught and the loop goes on; [sent] is set by a
    send that returned. *)
Fixpoint send_loop (user_id : Z) (message : gmap string PyVal)
    (conns : list Connection) (sent : bool) (trace : list (WebSocket * gmap string PyVal))
    : bool * list (WebSocket * gmap string PyVal) :=
  match conns with
  | [] => (sent, trace)
  | conn :: conns' =>
      if conn_user_id conn =? user_id then
        let trace' := (trace ++ [(conn_websocket conn, message)])%list in
        if send_raises (conn_websocket conn) message
        then send_loop user_id message conns' sent trace'
        else send_loop user_id message conns' true trace'
      else send_loop user_id message conns' sent trace
  end.

(** [send_to_user] *)
Definition send_to_user (user_id : Z) (message : gmap string PyVal)
    (s : ConnectionManager) : ConnectionManager :=
  {| active_connections := active_connections s;
     sends := (send_loop user_id message (active_connections s) false (sends s)).2 |}.

(** [broadcast_to_user] *)
Definition broadcast_to_user (user_id : Z) (message : gmap string PyVal)
    (s : ConnectionManager) : bool * ConnectionManager :=
  let r := send_loop user_id message (active_connections s) false (sends s) in
  (r.1, {| active_connections := active_connections s; sends := r.2 |}).

End Connections.

(** * Specification vocabulary *)

(** ** Expiry *)

(** The [expires_at] of the notification, when given, is timezone-aware. *)
Definition aware_expiry (n : Notification) : bool :=
  match n_expires_at n with
  | None => true
  | Some e => match dt_offset e with Some _ => true | None => false end
  end.

(** The notification has no expiry, or an aware one later than the UTC
    instant [t]. *)
Definition live_at (t : Z) (n : Notification) : bool :=
  match n_expires_at n with
  | None => true
  | Some e => match dt_offset e with Some o => t <? dt_wall e - o | None => false end
  end.

(** The expiry of the notification is an aware instant that has passed at
    the UTC instant [t]. *)
Definition expired_at (t : Z) (n : Notification) : Prop :=
  exists e o, n_expires_at n = Some e /\ dt_offset e = Some o /\ dt_wall e - o <= t.

(** Pruning can run on the user's list: no stored expiry is naive. *)
Definition prunable (w : World) (user_id : Z) : bool :=
  forallb aware_expiry (user_list (svc w) user_id).

(** ** Creation *)

(** The dict that [create_notification] builds. *)
Definition notification_of (notification_id timestamp created_at : Z)
    (user_id : Z) (message : string) (level : string) (title : option string)
    (category : option NotificationCategory) (priority : NotificationPriority)
    (data : option (gmap string PyVal)) (expires_at : option datetime) : Notification :=
  {| n_id := notification_id;
     n_user_id := user_id;
     n_title := title_or title (_generate_title level category);
     n_message := message;
     n_level := level;
     n_category := match category with Some c => category_value c | None => "system" end;
     n_priority := priority_value priority;
     n_data := default ∅ data;
     n_timestamp := timestamp;
     n_created_at := created_at;
     n_read := false;
     n_read_at := None;
     n_expires_at := expires_at |}.

(** The notification that a creation in world [w] builds: the id is the
    counter, the two time stamps are the next two clock readings. *)
Definition created (clock : nat -> Z) (w : World)
    (user_id : Z) (message : string) (level : string) (title : option string)
    (category : option NotificationCategory) (priority : NotificationPriority)
    (data : option (gmap string PyVal)) (expires_at : option datetime) : Notification :=
  notification_of (notification_id_counter (svc w)) (clock (ticks w)) (clock (S (ticks w)))
    user_id message level title category priority data expires_at.

(** The instant at which a creation in world [w] prunes: its third clock
    reading. *)
Definition prune_instant (clock : nat -> Z) (w : World) : Z := clock (S (S (ticks w))).

(** The world in which a creation in world [w] notifies the listeners: the
    counter has advanced, three clock readings are taken and the new
    notification is appended to the user's pruned list. *)
Definition appended (clock : nat -> Z) (w : World)
    (user_id : Z) (message : string) (level : string) (title : option string)
    (category : option NotificationCategory) (priority : NotificationPriority)
    (data : option (gmap string PyVal)) (expires_at : option datetime) : World :=
  {| svc :=
       {| notifications :=
            <[user_id :=
                (List.filter (live_at (prune_instant clock w)) (user_list (svc w) user_id)
                   ++ [created clock w user_id message level title category priority
                         data expires_at])%list]>
              (notifications (svc w));
          notification_id_counter := notification_id_counter (svc w) + 1;
          listeners := listeners (svc w) |};
     ticks := S (S (S (ticks w)));
     delivered := delivered w |}.

(** The outcome of a call that returns [b] once the call it awaits, of
    outcome [o], has returned. *)
Definition returning {A B} (b : B) (o : Outcome A) : Outcome B :=
  match o with
  | Ok _ => Ok b
  | Raise e => Raise e
  | Pending => Pending
  end.

(** The callback is a coroutine function on the notification: calling it
    returns an awaitable. *)
Definition returns_awaitable (listener : Callback -> Notification -> CallbackBehaviour)
    (n : Notification) (cb : Callback) : bool :=
  match listener cb n with
  | ReturnsAwaitable _ => true
  | _ => false
  end.

(** The callback returns an awaitable that finishes, by returning or by
    raising. *)
Definition finishes (listener : Callback -> Notification -> CallbackBehaviour)
    (n : Notification) (cb : Callback) : bool :=
  match listener cb n with
  | ReturnsAwaitable Completes | ReturnsAwaitable RaisesWhenAwaited => true
  | _ => false
  end.

(** What comes of a listener: the outcome of its awaitable when it returns
    one; its own exception when the call raises; the [TypeError] of
    [asyncio.gather] on a value that cannot be awaited. *)
Definition listener_outcome (listener : Callback -> Notification -> CallbackBehaviour)
    (n : Notification) (cb : Callback) : Outcome unit :=
  match listener cb n with
  | ReturnsAwaitable Completes => Ok tt
  | ReturnsAwaitable RaisesWhenAwaited => Raise (CallbackFailure cb)
  | ReturnsAwaitable NeverCompletes => Pending
  | RaisesWhenCalled => Raise (CallbackFailure cb)
  | ReturnsNoAwaitable => Raise TypeError
  end.

(** The listeners registered for a user. *)
Definition registered (w : World) (user_id : Z) : list Callback :=
  default [] (listeners (svc w) !! user_id).

(** ** Listing *)

(** [a] may stand before [b] in a listing: higher priority rank, or the
    same rank and a float time stamp that is not smaller. *)
Definition listed_before (a b : Notification) : Prop :=
  priority_order (n_priority b) < priority_order (n_priority a) \/
  (priority_order (n_priority a) = priority_order (n_priority b) /\
   (posix_timestamp b <= posix_timestamp a)%Q).

(** [a] stands before [b] by priority rank descending, then by creation
    instant descending. *)
Definition newest_first (a b : Notification) : Prop :=
  priority_order (n_priority b) < priority_order (n_priority a) \/
  (priority_order (n_priority a) = priority_order (n_priority b) /\
   n_timestamp b <= n_timestamp a).

(** The first instant, in microseconds since the epoch, from which two
    instants one microsecond apart can have the same float time stamp:
    [2 ** 33] seconds, in the year 2242. *)
Definition float_horizon : Z := 2 ^ 33 * 1000000.

(** The notification is created at or after the epoch and before the
    horizon. *)
Definition before_horizon (n : Notification) : Prop :=
  0 <= n_timestamp n < float_horizon.

(** The conjunction of the filters given to a query: the category when
    given, the read flag when [unread_only], membership in the priority
    list when given. *)
Definition satisfies_filters (category : option NotificationCategory)
    (unread_only : bool) (priority_filter : option (list NotificationPriority))
    (n : Notification) : bool :=
  match category with
  | Some c => String.eqb (n_category n) (category_value c)
  | None => true
  end
  && (if unread_only then negb (n_read n) else true)
  && match priority_filter with
     | Some ps => in_values (n_priority n) (map priority_value ps)
     | None => true
     end.

(** The priority filter that takes effect: [if priority_filter:] holds an
    empty list for absent. *)
Definition effective_priority_filter (priority_filter : option (list NotificationPriority))
    : option (list NotificationPriority) :=
  match priority_filter with
  | Some [] => None
  | _ => priority_filter
  end.

(** ** Identifiers *)

(** The ids stored for a user, in the order of the list. *)
Definition stored_ids (w : World) (user_id : Z) : list Z :=
  map n_id (user_list (svc w) user_id).

(** Every stored id is below the counter, and no id is stored for two users. *)
Definition ids_consistent (w : World) : Prop :=
  (forall u i, In i (stored_ids w u) -> i < notification_id_counter (svc w)) /\
  (forall u1 u2 i, In i (stored_ids w u1) -> In i (stored_ids w u2) -> u1 = u2).

(** The notification that [mark_as_read] finds for an id: the first one of
    the user's list with that id. *)
Definition stored (w : World) (user_id notification_id : Z) : option Notification :=
  snd <$> find_id notification_id (user_list (svc w) user_id).

(** ** Bulk marking *)

(** The notification is one that [mark_all_as_read] marks: unread, and of
    the category when one is given. *)
Definition selected (category : option NotificationCategory) (n : Notification) : bool :=
  negb (n_read n) &&
  match category with
  | None => true
  | Some c => String.eqb (n_category n) (category_value c)
  end.

(** [x'] is [x] after a bulk marking that started at the clock reading
    number [t0] and ended before the reading number [t1]. *)
Definition bulk_marked (clock : nat -> Z) (category : option NotificationCategory)
    (t0 t1 : nat) (x x' : Notification) : Prop :=
  if selected category x
  then exists k, (t0 <= k < t1)%nat /\ x' = set_read x (clock k)
  else x' = x.

(** ** Statistics *)

(** The number of notifications of the list whose field [f] is [k]. *)
Definition occurrences (f : Notification -> string) (k : string)
    (l : list Notification) : Z :=
  Z.of_nat (length (List.filter (fun n => String.eqb (f n) k) l)).

(** The entry of a counting dict for a key that occurs [c] times: absent
    when the key never occurs. *)
Definition count_entry (c : Z) : option Z := if c =? 0 then None else Some c.

(** ** Well-kept collections *)

(** What the service keeps true of every stored notification: its id is
    positive and below the counter, it is stored under its own user,
    [read_at] is set exactly when [read] is, its category and priority are
    values of the enumerations, and its title is not empty. *)
Definition well_kept_notification (counter user_id : Z) (n : Notification) : Prop :=
  1 <= n_id n < counter /\
  n_user_id n = user_id /\
  (n_read_at n = None <-> n_read n = false) /\
  (exists c, n_category n = category_value c) /\
  (exists p, n_priority n = priority_value p) /\
  n_title n <> "".

(** A user's list is well kept: its ids increase strictly along the list and
    each of its notifications is well kept. *)
Definition well_kept (counter user_id : Z) (l : list Notification) : Prop :=
  StronglySorted Z.lt (map n_id l) /\
  Forall (well_kept_notification counter user_id) l.

Definition well_formed (w : World) : Prop :=
  1 <= notification_id_counter (svc w) /\
  forall u, well_kept (notification_id_counter (svc w)) u (user_list (svc w) u).

(** ** Ties of the listing order *)

(** Two notifications tie in the listing order: same priority rank and same
    float time stamp, as two notifications created at the same instant
    have. *)
Definition ties_with (a b : Notification) : bool :=
  (priority_order (n_priority b) =? priority_order (n_priority a)) &&
  Qeq_bool (posix_timestamp b) (posix_timestamp a).

(** ** Fan-out *)

(** The world after the listeners [cbs] have been run on [n], in that
    order. *)
Definition recorded (w : World) (n : Notification) (cbs : list Callback) : World :=
  {| svc := svc w; ticks := ticks w;
     delivered := (delivered w ++ map (fun cb => (cb, n)) cbs)%list |}.

(** The value that the fan-out gets from the call of a coroutine function. *)
Definition listener_task (listener : Callback -> Notification -> CallbackBehaviour)
    (n : Notification) (cb : Callback) : option (M unit) :=
  match listener cb n with
  | ReturnsAwaitable a => Some (await_listener n cb a)
  | _ => None
  end.

(** The computation touches nothing but the trace, to which it adds runs on
    [n] of callbacks among [cbs]. *)
Definition runs_listeners_only {A} (n : Notification) (cbs : list Callback) (m : M A) : Prop :=
  forall w, exists run, (m w).2 = recorded w n run /\ incl run cbs.

(** ** Sample environments and worlds *)

Definition clock0 (k : nat) : Z := 1000 + Z.of_nat k.

(** A clock of the year 2242: the readings advance by one microsecond
    every third reading, from [8600000000000001] microseconds on. *)
Definition clock_far (k : nat) : Z := 8600000000000001 + Z.of_nat (k / 3).

(** Every listener is a coroutine function that returns. *)
Definition quiet (cb : Callback) (n : Notification) : CallbackBehaviour :=
  ReturnsAwaitable Completes.

(** Listener 1 is a coroutine function that raises, the others return. *)
Definition first_raises (cb : Callback) (n : Notification) : CallbackBehaviour :=
  if Nat.eqb cb 1 then ReturnsAwaitable RaisesWhenAwaited else ReturnsAwaitable Completes.

(** Listener 1 is a plain function that raises when it is called, the
    others are coroutine functions that return. *)
Definition first_raises_on_call (cb : Callback) (n : Notification) : CallbackBehaviour :=
  if Nat.eqb cb 1 then RaisesWhenCalled else ReturnsAwaitable Completes.

(** Listener 1 is a plain function that returns [None], the others are
    coroutine functions that return. *)
Definition first_is_plain (cb : Callback) (n : Notification) : CallbackBehaviour :=
  if Nat.eqb cb 1 then ReturnsNoAwaitable else ReturnsAwaitable Completes.

(** One notification for user 1. *)
Definition world_one : World :=
  exec clock0 quiet (OpCreate 1 "filled" "info" None None MEDIUM None None) init_world.

(** Two notifications for user 1. *)
Definition world_pair : World :=
  exec clock0 quiet (OpCreate 1 "second" "info" None None MEDIUM None None) world_one.

(** A notification for user 1 whose expiry, the UTC instant 5, has passed
    when it is created. *)
Definition world_expired : World :=
  exec clock0 quiet
    (OpCreate 1 "old" "info" None None MEDIUM None (Some (utc 5))) init_world.

(** Listeners 1 and 2 registered for user 1. *)
Definition world_listeners : World :=
  exec clock0 first_raises (OpAddListener 1 2%nat)
    (exec clock0 first_raises (OpAddListener 1 1%nat) init_world).

(** User 1 has the unread notification 1; listener 1 raises. *)
Definition world_unread : World :=
  exec clock0 first_raises (OpCreate 1 "x" "info" None None MEDIUM None None) world_listeners.

(** Users 1 and 2 hold one notification each, with the ids 1 and 2. *)
Definition world_two : World :=
  exec clock0 first_raises (OpCreate 2 "y" "warning" None (Some RISK) HIGH None None)
    world_unread.

(** User 1 holds a notification whose expiry is a naive datetime. *)
Definition world_naive : World :=
  exec clock0 quiet
    (OpCreate 1 "n" "info" None None MEDIUM None
       (Some {| dt_wall := 5000; dt_offset := None |}))
    init_world.

(** Three unread notifications for user 1, with the ids 1, 2 and 3: one
    without category, one of the category risk, one of the category trade. *)
Definition world_mixed : World :=
  (run clock0 quiet
     [OpCreate 1 "a" "info" None None MEDIUM None None;
      OpCreate 1 "b" "error" None (Some RISK) HIGH None None;
      OpCreate 1 "c" "info" None (Some TRADE) LOW None None] init_world).2.

(** Listeners 1 and 2 are registered for user 1, who holds a notification
    whose expiry is a naive datetime. *)
Definition world_blocked : World :=
  exec clock0 quiet
    (OpCreate 1 "n" "info" None None MEDIUM None
       (Some {| dt_wall := 5000; dt_offset := None |}))
    (exec clock0 quiet (OpAddListener 1 2%nat)
       (exec clock0 quiet (OpAddListener 1 1%nat) init_world)).

(** Two notifications of medium priority for user 1, created one
    microsecond apart in the year 2242, with the ids 1 and 2. *)
Definition world_far : World :=
  (run clock_far quiet
     [OpCreate 1 "older" "info" None None MEDIUM None None;
      OpCreate 1 "newer" "info" None None MEDIUM None None] init_world).2.

(** Every accept returns. *)
Definition accept_all (ws : WebSocket) : bool := false.

(** The sends on websocket 2 raise. *)
Definition second_send_raises (ws : WebSocket) (message : gmap string PyVal) : bool :=
  Nat.eqb ws 2.

(** Websockets 1 and 2 connected for user 5, websocket 3 for user 7. *)
Definition manager_three : ConnectionManager :=
  (connect accept_all 3%nat 7
     (connect accept_all 2%nat 5 (connect accept_all 1%nat 5 init_manager).2).2).2.

(** * Properties *)

Ltac run_m := unfold bind, gets, modify, ret, lift, raise, now; simpl.

(** ** Expiry and pruning *)

Lemma filter_outcome_aware t l :
  forallb aware_expiry l = true ->
  filter_outcome (not_expired (utc t)) l = Ok (List.filter (live_at t) l).
Proof.
  induction l as [|x l IH]; simpl; [reflexivity|].
  intros H. apply andb_prop in H as [Hx Hl]. rewrite (IH Hl).
  unfold not_expired, live_at, aware_expiry, datetime_gt in *.
  destruct (n_expires_at x) as [e|]; simpl; [|reflexivity].
  destruct (dt_offset e) as [o|]; [|discriminate].
  rewrite Z.sub_0_r. reflexivity.
Qed.

Lemma filter_outcome_naive t l :
  forallb aware_expiry l = false ->
  filter_outcome (not_expired (utc t)) l = Raise TypeError.
Proof.
  induction l as [|x l IH]; simpl; [discriminate|].
  intros H. apply andb_false_iff in H.
  unfold not_expired at 1, datetime_gt.
  destruct (n_expires_at x) as [e|] eqn:He; simpl.
  - destruct (dt_offset e) as [o|] eqn:Ho; [|reflexivity].
    destruct H as [H|H].
    + unfold aware_expiry in H. rewrite He, Ho in H. discriminate.
    + rewrite (IH H). reflexivity.
  - destruct H as [H|H].
    + unfold aware_expiry in H. rewrite He in H. discriminate.
    + rewrite (IH H). reflexivity.
Qed.


(** ** The float time stamp *)

Lemma round_half_even_spec n d :
  0 < d -> - d <= 2 * (round_half_even n d * d - n) <= d.
Proof.
  intros Hd. unfold round_half_even.
  pose proof (Z.div_mod n d ltac:(lia)) as Hdiv.
  pose proof (Z.mod_pos_bound n d Hd) as Hmod.
  set (q := n / d) in *. set (r := n mod d) in *.
  destruct (2 * r <? d) eqn:H1; [apply Z.ltb_lt in H1; lia|].
  apply Z.ltb_ge in H1.
  destruct (d <? 2 * r) eqn:H2; [apply Z.ltb_lt in H2; lia|].
  apply Z.ltb_ge in H2.
  destruct (Z.even q); lia.
Qed.

(** Below the horizon the float of an instant is a significand over a power
    of two of at least [2 ^ 20], half a unit away from the exact quotient at
    most. *)
Lemma true_divide_micro n :
  0 < n < float_horizon ->
  exists k m,
    2 ^ 20 <= 2 ^ k /\
    true_divide n 1000000 = Qmake m (Z.to_pos (2 ^ k)) /\
    - 1000000 <= 2 * (m * 1000000 - n * 2 ^ k) <= 1000000.
Proof.
  unfold float_horizon. intros Hn. unfold true_divide.
  destruct (n =? 0) eqn:H0; [apply Z.eqb_eq in H0; lia|].
  rewrite (Z.abs_eq n) by lia. rewrite (Z.sgn_pos n) by lia.
  change (Z.log2 1000000) with 19.
  assert (Hlog : Z.log2 n < 53).
  { apply Z.log2_lt_pow2; [lia|]. change (2 ^ 53) with 9007199254740992.
    change (2 ^ 33 * 1000000) with 8589934592000000 in Hn. lia. }
  pose proof (Z.log2_nonneg n) as Hlog0.
  set (e0 := Z.log2 n - 19 - 53).
  assert (He0 : e0 <= - 20) by (unfold e0; lia).
  assert (Hfinal : forall e, e <= - 20 ->
    exists k m,
      2 ^ 20 <= 2 ^ k /\
      Qmake (1 * round_half_even (n * 2 ^ Z.max 0 (- e)) (1000000 * 2 ^ Z.max 0 e)
               * 2 ^ Z.max 0 e)
            (Z.to_pos (2 ^ Z.max 0 (- e))) = Qmake m (Z.to_pos (2 ^ k)) /\
      - 1000000 <= 2 * (m * 1000000 - n * 2 ^ k) <= 1000000).
  { intros e He. exists (- e), (round_half_even (n * 2 ^ (- e)) 1000000).
    rewrite (Z.max_r 0 (- e)) by lia. rewrite (Z.max_l 0 e) by lia.
    change (2 ^ 0) with 1. rewrite !Z.mul_1_r, Z.mul_1_l.
    split; [apply Z.pow_le_mono_r; lia|]. split; [reflexivity|].
    exact (round_half_even_spec (n * 2 ^ (- e)) 1000000 ltac:(lia)). }
  destruct (n * 2 ^ Z.max 0 (- e0) <? 1000000 * 2 ^ 53 * 2 ^ Z.max 0 e0) eqn:Hc.
  - apply Hfinal. exact He0.
  - apply Hfinal. apply Z.ltb_ge in Hc.
    destruct (Z.eq_dec e0 (- 20)) as [Heq|Hne]; [|lia].
    exfalso. rewrite Heq in Hc.
    change (2 ^ Z.max 0 (- - 20)) with 1048576 in Hc.
    change (1000000 * 2 ^ 53 * 2 ^ Z.max 0 (- 20)) with (8589934592000000 * 1048576) in Hc.
    change (2 ^ 33 * 1000000) with 8589934592000000 in Hn. lia.
Qed.

(** Below the horizon distinct instants have distinct float time stamps, in
    the order of the instants. *)
Lemma true_divide_micro_lt n1 n2 :
  0 <= n1 -> n1 < n2 -> n2 < float_horizon ->
  (true_divide n1 1000000 < true_divide n2 1000000)%Q.
Proof.
  intros H1 H12 H2.
  destruct (true_divide_micro n2 ltac:(lia)) as (k2 & m2 & Hk2 & -> & Hm2).
  assert (Hp2 : 0 < 2 ^ k2) by (change (2 ^ 20) with 1048576 in Hk2; lia).
  destruct (Z.eq_dec n1 0) as [->|Hne].
  - unfold true_divide. simpl (0 =? 0). cbv beta iota.
    unfold Qlt. cbn [Qnum Qden]. rewrite Z2Pos.id by exact Hp2.
    change (2 ^ 20) with 1048576 in Hk2. nia.
  - destruct (true_divide_micro n1 ltac:(lia)) as (k1 & m1 & Hk1 & -> & Hm1).
    assert (Hp1 : 0 < 2 ^ k1) by (change (2 ^ 20) with 1048576 in Hk1; lia).
    unfold Qlt. cbn [Qnum Qden]. rewrite !Z2Pos.id by assumption.
    change (2 ^ 20) with 1048576 in Hk1, Hk2.
    set (P1 := 2 ^ k1) in *. set (P2 := 2 ^ k2) in *.
    assert (Ha : (2 * m1 * 1000000) * P2 <= (2 * n1 * P1 + 1000000) * P2)
      by (apply Z.mul_le_mono_nonneg_r; lia).
    assert (Hb : (2 * n2 * P2 - 1000000) * P1 <= (2 * m2 * 1000000) * P1)
      by (apply Z.mul_le_mono_nonneg_r; lia).
    assert (Hc : 1000000 * P2 < P1 * P2) by (apply Z.mul_lt_mono_pos_r; lia).
    assert (Hd : 1000000 * P1 < P2 * P1) by (apply Z.mul_lt_mono_pos_r; lia).
    assert (He : (n1 + 1) * (P1 * P2) <= n2 * (P1 * P2))
      by (apply Z.mul_le_mono_nonneg_r; nia).
    nia.
Qed.

Lemma posix_timestamp_lt a b :
  before_horizon a -> before_horizon b ->
  n_timestamp a < n_timestamp b ->
  (posix_timestamp a < posix_timestamp b)%Q.
Proof.
  unfold before_horizon, posix_timestamp. intros Ha Hb Hlt.
  apply true_divide_micro_lt; lia.
Qed.

(** ** Ordering of the listing *)

Lemma Qopp_le x y : (- x <= - y)%Q <-> (y <= x)%Q.
Proof. unfold Qle, Qopp. cbn [Qnum Qden]. lia. Qed.

Lemma key_leb_listed_before a b :
  key_leb (sort_key a) (sort_key b) = true <-> listed_before a b.
Proof.
  unfold key_leb, sort_key, listed_before. cbn [fst snd].
  rewrite orb_true_iff, andb_true_iff, Z.ltb_lt, Z.eqb_eq, Qle_bool_iff, Qopp_le.
  intuition lia.
Qed.

Lemma key_leb_false a b :
  key_leb (sort_key a) (sort_key b) = false -> listed_before b a.
Proof.
  unfold key_leb, sort_key, listed_before. cbn [fst snd].
  rewrite orb_false_iff, andb_false_iff, Z.ltb_ge, Z.eqb_neq.
  intros [Hrank [Hne|Hle]]; [left; lia|].
  destruct (Z.eq_dec (priority_order (n_priority a)) (priority_order (n_priority b)))
    as [Heq|Hne]; [|left; lia].
  right. split; [lia|].
  apply Qlt_le_weak, Qnot_le_lt. intros Hle'.
  apply Qopp_le, Qle_bool_iff in Hle'. congruence.
Qed.

Lemma listed_before_trans a b c :
  listed_before a b -> listed_before b c -> listed_before a c.
Proof.
  unfold listed_before. intros [Hab|[Hab Hab']] [Hbc|[Hbc Hbc']]; try (left; lia).
  right. split; [lia|]. exact (Qle_trans _ _ _ Hbc' Hab').
Qed.

(** Below the horizon the float time stamps order as the instants do. *)
Lemma listed_before_newest_first a b :
  before_horizon a -> before_horizon b -> listed_before a b -> newest_first a b.
Proof.
  intros Ha Hb [Hrank|[Hrank Hle]]; [left; exact Hrank|].
  right. split; [exact Hrank|].
  destruct (Z_le_gt_dec (n_timestamp b) (n_timestamp a)) as [H|H]; [exact H|].
  exfalso. apply (Qlt_not_le _ _ (posix_timestamp_lt a b Ha Hb ltac:(lia))). exact Hle.
Qed.

Lemma StronglySorted_weaken {A} (R R' : A -> A -> Prop) (P : A -> Prop) l :
  (forall a b, P a -> P b -> R a b -> R' a b) ->
  Forall P l -> StronglySorted R l -> StronglySorted R' l.
Proof.
  intros HR HP Hs. induction Hs as [|x l Hs IH Hx]; [constructor|].
  apply Forall_cons_iff in HP as [HPx HPl]. constructor; [exact (IH HPl)|].
  rewrite List.Forall_forall in *. intros y Hy. apply HR; auto.
Qed.

Lemma insert_by_key_perm x l : Permutation (insert_by_key x l) (x :: l).
Proof.
  induction l as [|y l IH]; simpl; [reflexivity|].
  destruct (key_leb (sort_key x) (sort_key y)); [reflexivity|].
  rewrite IH. apply perm_swap.
Qed.

Lemma sorted_by_key_perm l : Permutation (sorted_by_key l) l.
Proof.
  induction l as [|x l IH]; simpl; [reflexivity|].
  rewrite insert_by_key_perm. apply perm_skip, IH.
Qed.

Lemma insert_by_key_sorted x l :
  StronglySorted listed_before l -> StronglySorted listed_before (insert_by_key x l).
Proof.
  induction 1 as [|y l Hl IH Hy]; simpl.
  - repeat constructor.
  - destruct (key_leb (sort_key x) (sort_key y)) eqn:Hxy.
    + apply key_leb_listed_before in Hxy.
      constructor; [constructor; assumption|].
      constructor; [assumption|].
      eapply Forall_impl; [exact Hy|].
      intros z Hz. simpl in *. eapply listed_before_trans; eassumption.
    + apply key_leb_false in Hxy.
      constructor; [assumption|].
      rewrite insert_by_key_perm. constructor; assumption.
Qed.

Lemma sorted_by_key_sorted l : StronglySorted listed_before (sorted_by_key l).
Proof.
  induction l as [|x l IH]; simpl; [constructor|].
  apply insert_by_key_sorted, IH.
Qed.

Lemma filter_true {A} (l : list A) : List.filter (fun _ => true) l = l.
Proof. induction l as [|x l IH]; simpl; congruence. Qed.

Lemma filter_both {A} (p q : A -> bool) l :
  List.filter q (List.filter p l) = List.filter (fun x => p x && q x) l.
Proof.
  induction l as [|x l IH]; simpl; [reflexivity|].
  destruct (p x); simpl; [destruct (q x)|]; rewrite IH; reflexivity.
Qed.

Lemma recent_of_filters l limit c r pf :
  recent_of l limit c r pf =
  slice_to (sorted_by_key
              (List.filter (satisfies_filters c r (effective_priority_filter pf)) l)) limit.
Proof.
  unfold recent_of. f_equal. f_equal.
  transitivity
    (List.filter
       (fun n => match effective_priority_filter pf with
                 | Some ps => in_values (n_priority n) (map priority_value ps)
                 | None => true
                 end)
       (List.filter (fun n => if r then negb (n_read n) else true)
          (List.filter
             (fun n => match c with
                       | Some c0 => String.eqb (n_category n) (category_value c0)
                       | None => true
                       end) l))).
  - destruct c, r, pf as [[|p ps]|]; simpl; rewrite ?filter_true; reflexivity.
  - rewrite !filter_both. apply filter_ext. intros n.
    unfold satisfies_filters. rewrite andb_assoc. reflexivity.
Qed.

Lemma Forall_filter_sorted (P : Notification -> Prop) (f : Notification -> bool) l :
  Forall P l -> Forall P (sorted_by_key (List.filter f l)).
Proof.
  intros H. rewrite List.Forall_forall in *. intros x Hx.
  apply (Permutation_in _ (sorted_by_key_perm _)) in Hx.
  apply filter_In in Hx as [Hx _]. exact (H x Hx).
Qed.

(** C5 (as amended).  For a limit that is not negative,
    [get_recent_notifications] returns the first [limit] elements of an
    arrangement of exactly the user's notifications that satisfy the
    conjunction of the filters in effect (the category when given, unread
    when [unread_only], the priority among the given ones when the priority
    list is given and not empty; an empty priority list filters nothing),
    arranged by priority rank descending, urgent above high above medium
    above low, then by the float POSIX time stamp of the creation
    descending; when the user's notifications are created before the
    horizon of [2 ** 33] seconds after the epoch, that is by creation instant
    descending; the world is left as it was. *)
Theorem recent_filtered_sorted_truncated w u limit c r pf :
  0 <= limit ->
  exists ordered,
    get_recent_notifications u limit c r pf w = (Ok (firstn (Z.to_nat limit) ordered), w) /\
    Permutation ordered
      (List.filter (satisfies_filters c r (effective_priority_filter pf))
         (user_list (svc w) u)) /\
    StronglySorted listed_before ordered /\
    (Forall before_horizon (user_list (svc w) u) -> StronglySorted newest_first ordered) /\
    priority_order (priority_value LOW) < priority_order (priority_value MEDIUM)
      < priority_order (priority_value HIGH) /\
    priority_order (priority_value HIGH) < priority_order (priority_value URGENT).
Proof.
  intros Hlimit.
  exists (sorted_by_key
            (List.filter (satisfies_filters c r (effective_priority_filter pf))
               (user_list (svc w) u))).
  split; [|split; [apply sorted_by_key_perm|split; [apply sorted_by_key_sorted|split]]].
  - unfold get_recent_notifications. run_m. rewrite recent_of_filters.
    unfold slice_to. apply Z.leb_le in Hlimit. rewrite Hlimit. reflexivity.
  - intros Hbefore.
    apply (StronglySorted_weaken listed_before newest_first before_horizon).
    + exact listed_before_newest_first.
    + apply Forall_filter_sorted. exact Hbefore.
    + apply sorted_by_key_sorted.
  - vm_compute. repeat split; reflexivity.
Qed.


(** ** Finding a notification by id *)

Lemma find_id_Some i l k x :
  find_id i l = Some (k, x) ->
  n_id x = i /\
  exists l1 l2, l = (l1 ++ x :: l2)%list /\ length l1 = k /\ ~ In i (map n_id l1).
Proof.
  revert k. induction l as [|y l IH]; simpl; intros k H; [discriminate|].
  destruct (n_id y =? i) eqn:Hy.
  - injection H as <- <-. apply Z.eqb_eq in Hy. split; [exact Hy|].
    exists [], l. simpl. tauto.
  - destruct (find_id i l) as [[k' x']|] eqn:Hf; [|discriminate].
    injection H as <- <-. destruct (IH _ eq_refl) as (Hid & l1 & l2 & -> & Hlen & Hnot).
    split; [exact Hid|]. exists (y :: l1), l2. simpl. split; [reflexivity|].
    split; [congruence|]. apply Z.eqb_neq in Hy. tauto.
Qed.

Lemma find_id_Some_In i l k x : find_id i l = Some (k, x) -> In i (map n_id l).
Proof.
  intros H. destruct (find_id_Some _ _ _ _ H) as (Hid & l1 & l2 & -> & _ & _).
  rewrite map_app. apply in_or_app. right. left. exact Hid.
Qed.

Lemma find_id_None i l : find_id i l = None <-> ~ In i (map n_id l).
Proof.
  split.
  - induction l as [|y l IH]; simpl; [tauto|].
    destruct (n_id y =? i) eqn:Hy; [discriminate|].
    apply Z.eqb_neq in Hy.
    destruct (find_id i l) as [[k x]|]; [discriminate|].
    intros _ [H|H]; [congruence|]. exact (IH eq_refl H).
  - intros Hnot. destruct (find_id i l) as [[k x]|] eqn:Hf; [|reflexivity].
    exfalso. exact (Hnot (find_id_Some_In _ _ _ _ Hf)).
Qed.

Lemma find_id_app i l1 x l2 :
  ~ In i (map n_id l1) -> n_id x = i ->
  find_id i (l1 ++ x :: l2)%list = Some (length l1, x).
Proof.
  intros Hnot Hx. induction l1 as [|y l1 IH]; simpl in *.
  - apply Z.eqb_eq in Hx. rewrite Hx. reflexivity.
  - destruct (n_id y =? i) eqn:Hy; [apply Z.eqb_eq in Hy; tauto|].
    rewrite IH; [reflexivity|tauto].
Qed.

Lemma insert_middle {A} (l1 : list A) x y l2 :
  <[length l1 := y]> (l1 ++ x :: l2)%list = (l1 ++ y :: l2)%list.
Proof. induction l1 as [|z l1 IH]; simpl; [reflexivity|]. f_equal. exact IH. Qed.

Section Facts.

Variable clock : nat -> Z.
Variable listener : Callback -> Notification -> CallbackBehaviour.

(** ** Listener fan-out *)

Lemma recorded_nil w n : recorded w n [] = w.
Proof. unfold recorded. simpl. rewrite app_nil_r. destruct w; reflexivity. Qed.

Lemma recorded_app w n l1 l2 :
  recorded (recorded w n l1) n l2 = recorded w n (l1 ++ l2).
Proof. unfold recorded. simpl. rewrite map_app, app_assoc. reflexivity. Qed.

Lemma await_listener_eq n cb a w :
  listener cb n = ReturnsAwaitable a ->
  await_listener n cb a w = (listener_outcome listener n cb, recorded w n [cb]).
Proof. intros H. unfold listener_outcome. rewrite H. destruct a; reflexivity. Qed.

Lemma comprehension_awaitables n cbs w :
  forallb (returns_awaitable listener n) cbs = true ->
  comprehension (call_listener listener n) cbs w =
  (Ok (map (listener_task listener n) cbs), w).
Proof.
  induction cbs as [|cb cbs IH]; intros H; [reflexivity|].
  cbn [forallb] in H. apply andb_prop in H as [Hcb Hcbs].
  cbn [comprehension map]. unfold bind.
  unfold call_listener at 1, listener_task at 1. unfold returns_awaitable in Hcb.
  destruct (listener cb n); try discriminate.
  unfold ret at 1. rewrite (IH Hcbs). reflexivity.
Qed.

Lemma gather_listeners n cbs w :
  forallb (returns_awaitable listener n) cbs = true ->
  gather (awaitables (map (listener_task listener n) cbs)) w =
    (Ok (map (listener_outcome listener n) cbs), recorded w n cbs) /\
  length (awaitables (map (listener_task listener n) cbs)) = length cbs.
Proof.
  revert w. induction cbs as [|cb cbs IH]; intros w H.
  - split; [|reflexivity]. cbn. unfold ret. rewrite recorded_nil. reflexivity.
  - cbn [forallb] in H. apply andb_prop in H as [Hcb Hcbs].
    cbn [map]. unfold listener_task at 1 3. unfold returns_awaitable in Hcb.
    destruct (listener cb n) as [| |a] eqn:Hl; try discriminate.
    cbn [awaitables gather length]. rewrite (await_listener_eq _ _ _ _ Hl).
    destruct (IH (recorded w n [cb]) Hcbs) as [-> ->].
    rewrite recorded_app. split; reflexivity.
Qed.

Lemma notify_listeners_awaitables u n w :
  forallb (returns_awaitable listener n) (registered w u) = true ->
  _notify_listeners listener u n w =
  (if existsb is_pending (map (listener_outcome listener n) (registered w u))
   then Pending else Ok tt,
   recorded w n (registered w u)).
Proof.
  unfold _notify_listeners, registered. unfold bind at 1, gets.
  destruct (listeners (svc w) !! u) as [cbs|]; cbn [default]; cbv [id]; intros H.
  - unfold bind at 1. rewrite (comprehension_awaitables _ _ _ H). cbv beta iota.
    unfold gather_return_exceptions, gather_values, bind.
    destruct (gather_listeners n cbs w H) as [-> ->]. cbv beta iota.
    rewrite length_map, Nat.ltb_irrefl. unfold ret at 1.
    destruct (existsb is_pending (map (listener_outcome listener n) cbs)); reflexivity.
  - unfold ret. rewrite recorded_nil. reflexivity.
Qed.

Lemma finishes_returns_awaitable n cbs :
  forallb (finishes listener n) cbs = true ->
  forallb (returns_awaitable listener n) cbs = true /\
  existsb is_pending (map (listener_outcome listener n) cbs) = false.
Proof.
  induction cbs as [|cb cbs IH]; [split; reflexivity|].
  cbn [forallb existsb map]. intros H. apply andb_prop in H as [Hcb Hcbs].
  destruct (IH Hcbs) as [-> ->].
  unfold finishes in Hcb. unfold returns_awaitable, listener_outcome.
  destruct (listener cb n) as [| |[| |]]; try discriminate; split; reflexivity.
Qed.

Lemma notify_listeners_eq u n w :
  forallb (finishes listener n) (registered w u) = true ->
  _notify_listeners listener u n w = (Ok tt, recorded w n (registered w u)).
Proof.
  intros H. destruct (finishes_returns_awaitable _ _ H) as [Ha Hp].
  rewrite (notify_listeners_awaitables _ _ _ Ha), Hp. reflexivity.
Qed.

(** Whatever the callbacks do, the fan-out touches the trace only. *)

Lemma runs_ret {A} n cbs (a : A) : runs_listeners_only n cbs (ret a).
Proof. intros w. exists []. rewrite recorded_nil. split; [reflexivity|]. intros x []. Qed.

Lemma runs_raise {A} n cbs e : runs_listeners_only n cbs (@raise A e).
Proof. intros w. exists []. rewrite recorded_nil. split; [reflexivity|]. intros x []. Qed.

Lemma runs_pending {A} n cbs : runs_listeners_only n cbs (@pending A).
Proof. intros w. exists []. rewrite recorded_nil. split; [reflexivity|]. intros x []. Qed.

Lemma runs_bind {A B} n cbs (m : M A) (k : A -> M B) :
  runs_listeners_only n cbs m ->
  (forall w a, (m w).1 = Ok a -> runs_listeners_only n cbs (k a)) ->
  runs_listeners_only n cbs (bind m k).
Proof.
  intros Hm Hk w. unfold bind. destruct (Hm w) as (run1 & Hw1 & Hin1).
  pose proof (Hk w) as Hk'.
  destruct (m w) as [[a|e|] w1]; cbn [fst snd] in *.
  - destruct (Hk' a eq_refl w1) as (run2 & Hw2 & Hin2).
    exists (run1 ++ run2)%list. split; [|apply incl_app; assumption].
    rewrite Hw2, Hw1, recorded_app. reflexivity.
  - exists run1. split; assumption.
  - exists run1. split; assumption.
Qed.

Lemma runs_run_listener n cbs cb :
  In cb cbs -> runs_listeners_only n cbs (run_listener n cb).
Proof.
  intros Hcb w. exists [cb]. split; [reflexivity|].
  intros x [<-|[]]. exact Hcb.
Qed.

Lemma runs_await_listener n cbs cb a :
  In cb cbs -> runs_listeners_only n cbs (await_listener n cb a).
Proof.
  intros Hcb. unfold await_listener. apply runs_bind; [apply runs_run_listener, Hcb|].
  intros _ _ _. destruct a; [apply runs_ret|apply runs_raise|apply runs_pending].
Qed.

Lemma runs_comprehension n cbs l :
  incl l cbs ->
  runs_listeners_only n cbs (comprehension (call_listener listener n) l) /\
  forall w tasks,
    (comprehension (call_listener listener n) l w).1 = Ok tasks ->
    Forall (fun o => forall t, o = Some t -> runs_listeners_only n cbs t) tasks.
Proof.
  induction l as [|cb l IH]; intros Hincl.
  - split; [apply runs_ret|]. intros w tasks H. injection H as <-. constructor.
  - assert (Hcb : In cb cbs) by (apply Hincl; left; reflexivity).
    assert (Hl : incl l cbs) by (intros x Hx; apply Hincl; right; exact Hx).
    destruct (IH Hl) as [IHruns IHtasks].
    assert (Hcall : runs_listeners_only n cbs (call_listener listener n cb)).
    { unfold call_listener. destruct (listener cb n).
      - apply runs_bind; [apply runs_run_listener, Hcb|]. intros; apply runs_raise.
      - apply runs_bind; [apply runs_run_listener, Hcb|]. intros; apply runs_ret.
      - apply runs_ret. }
    split.
    + cbn [comprehension]. apply runs_bind; [exact Hcall|]. intros _ y _.
      apply runs_bind; [exact IHruns|]. intros; apply runs_ret.
    + intros w tasks. cbn [comprehension]. unfold bind.
      destruct (call_listener listener n cb w) as [[y|e|] w1] eqn:Hy;
        [|discriminate|discriminate].
      pose proof (IHtasks w1) as Htasks.
      destruct (comprehension (call_listener listener n) l w1) as [[ys|e|] w2];
        [|discriminate|discriminate].
      unfold ret. cbn [fst]. intros H. injection H as <-.
      constructor; [|exact (Htasks ys eq_refl)].
      intros t ->. unfold call_listener in Hy.
      destruct (listener cb n); try discriminate.
      unfold ret in Hy. injection Hy as <- _. apply runs_await_listener, Hcb.
Qed.

Lemma runs_gather {A} n cbs (ts : list (M A)) :
  Forall (runs_listeners_only n cbs) ts -> runs_listeners_only n cbs (gather ts).
Proof.
  induction 1 as [|t ts Ht _ IH]; [apply runs_ret|].
  intros w. cbn [gather]. destruct (Ht w) as (run1 & Hw1 & Hin1).
  destruct (t w) as [o w1]. cbn [snd] in Hw1.
  destruct (IH w1) as (run2 & Hw2 & Hin2).
  exists (run1 ++ run2)%list. split; [|apply incl_app; assumption].
  rewrite <- recorded_app, <- Hw1, <- Hw2.
  destruct (gather ts w1) as [[os|e|] w2]; reflexivity.
Qed.

Lemma runs_awaitables {A} n cbs (args : list (option (M A))) :
  Forall (fun o => forall t, o = Some t -> runs_listeners_only n cbs t) args ->
  Forall (runs_listeners_only n cbs) (awaitables args).
Proof.
  induction 1 as [|o args Ho _ IH]; [constructor|].
  destruct o as [t|]; cbn [awaitables]; constructor; [apply Ho; reflexivity|exact IH].
Qed.

Lemma runs_gather_return_exceptions {A} n cbs (args : list (option (M A))) :
  Forall (fun o => forall t, o = Some t -> runs_listeners_only n cbs t) args ->
  runs_listeners_only n cbs (gather_return_exceptions args).
Proof.
  intros H. unfold gather_return_exceptions, gather_values.
  apply runs_bind.
  - apply runs_bind; [apply runs_gather, runs_awaitables, H|].
    intros _ os _. destruct (_ <? _)%nat; [apply runs_raise|apply runs_ret].
  - intros _ os _. destruct (existsb is_pending os); [apply runs_pending|apply runs_ret].
Qed.

Lemma notify_listeners_frame u n w :
  exists run,
    (_notify_listeners listener u n w).2 = recorded w n run /\
    incl run (registered w u).
Proof.
  unfold _notify_listeners, registered. unfold bind at 1, gets.
  destruct (listeners (svc w) !! u) as [cbs|]; cbn [default].
  - destruct (runs_comprehension n cbs cbs (incl_refl _)) as [Hruns Htasks].
    apply (runs_bind n cbs _ _ Hruns). intros w0 tasks Hw0.
    apply runs_bind; [|intros; apply runs_ret].
    apply runs_gather_return_exceptions. exact (Htasks w0 tasks Hw0).
  - exists []. rewrite recorded_nil. split; [reflexivity|]. intros x [].
Qed.


(** ** Creation *)

Lemma create_eq u m l t c p d e w :
  prunable w u = true ->
  create_notification clock listener u m l t c p d e w =
  (returning (created clock w u m l t c p d e)
     (_notify_listeners listener u (created clock w u m l t c p d e)
        (appended clock w u m l t c p d e)).1,
   (_notify_listeners listener u (created clock w u m l t c p d e)
      (appended clock w u m l t c p d e)).2).
Proof.
  intros Haware. unfold prunable, create_notification, _cleanup_expired_notifications, user_list in *.
  run_m. fold (created clock w u m l t c p d e).
  destruct (notifications (svc w) !! u) as [old|] eqn:Hu; simpl in *.
  - rewrite Hu. simpl. rewrite (filter_outcome_aware _ _ Haware). simpl.
    rewrite lookup_insert_eq. simpl.
    unfold set_notifications, set_counter, appended, user_list. simpl.
    rewrite insert_insert_eq, Hu. simpl.
    destruct (_notify_listeners listener u _ _) as [[[]|e0|] w']; reflexivity.
  - rewrite lookup_insert_eq. simpl. rewrite lookup_insert_eq. simpl.
    unfold set_notifications, set_counter, appended, user_list. simpl.
    rewrite !insert_insert_eq, Hu. simpl.
    destruct (_notify_listeners listener u _ _) as [[[]|e0|] w']; reflexivity.
Qed.

Lemma create_world u m l t c p d e w :
  prunable w u = true ->
  exists run,
    (create_notification clock listener u m l t c p d e w).2 =
      recorded (appended clock w u m l t c p d e) (created clock w u m l t c p d e) run /\
    incl run (registered w u).
Proof.
  intros H. rewrite (create_eq _ _ _ _ _ _ _ _ _ H). cbn [snd].
  destruct (notify_listeners_frame u (created clock w u m l t c p d e)
              (appended clock w u m l t c p d e)) as (run & Hrun & Hincl).
  exists run. split; [exact Hrun|exact Hincl].
Qed.

Lemma create_ok u m l t c p d e w :
  prunable w u = true ->
  forallb (finishes listener (created clock w u m l t c p d e)) (registered w u) = true ->
  create_notification clock listener u m l t c p d e w =
  (Ok (created clock w u m l t c p d e),
   recorded (appended clock w u m l t c p d e) (created clock w u m l t c p d e)
     (registered w u)).
Proof.
  intros H Hfin. rewrite (create_eq _ _ _ _ _ _ _ _ _ H).
  rewrite notify_listeners_eq; [reflexivity|exact Hfin].
Qed.

Lemma create_raise u m l t c p d e w :
  prunable w u = false ->
  create_notification clock listener u m l t c p d e w =
  (Raise TypeError,
   {| svc := set_counter (notification_id_counter (svc w) + 1) (svc w);
      ticks := S (S (S (ticks w)));
      delivered := delivered w |}).
Proof.
  intros Hnaive. unfold prunable, create_notification, _cleanup_expired_notifications, user_list in *.
  run_m.
  destruct (notifications (svc w) !! u) as [old|] eqn:Hu; simpl in *; [|discriminate].
  rewrite Hu. simpl. rewrite (filter_outcome_naive _ _ Hnaive). reflexivity.
Qed.

(** The outcome of a creation: the failure of the pruning, or else what the
    fan-out comes to. *)
Lemma create_outcome u m l t c p d e w :
  (create_notification clock listener u m l t c p d e w).1 =
  if prunable w u
  then returning (created clock w u m l t c p d e)
         (_notify_listeners listener u (created clock w u m l t c p d e)
            (appended clock w u m l t c p d e)).1
  else Raise TypeError.
Proof.
  destruct (prunable w u) eqn:H.
  - rewrite (create_eq _ _ _ _ _ _ _ _ _ H). reflexivity.
  - rewrite (create_raise _ _ _ _ _ _ _ _ _ H). reflexivity.
Qed.

Lemma create_returned u m l t c p d e w n :
  (create_notification clock listener u m l t c p d e w).1 = Ok n ->
  n = created clock w u m l t c p d e /\ prunable w u = true.
Proof.
  rewrite create_outcome. destruct (prunable w u); [|discriminate].
  destruct (_notify_listeners listener u _ _).1; cbn [returning]; [|discriminate|discriminate].
  intros H. injection H as <-. split; reflexivity.
Qed.

(** The id that a creation returns, if it returns, is the counter. *)
Lemma create_returned_id u m l t c p d e w :
  match (create_notification clock listener u m l t c p d e w).1 with
  | Ok n => [n_id n]
  | _ => []
  end = [notification_id_counter (svc w)] \/
  match (create_notification clock listener u m l t c p d e w).1 with
  | Ok n => [n_id n]
  | _ => []
  end = [].
Proof.
  destruct (create_notification clock listener u m l t c p d e w).1 as [n|e0|] eqn:Hn;
    [left|right; reflexivity|right; reflexivity].
  destruct (create_returned _ _ _ _ _ _ _ _ _ _ Hn) as [-> _]. reflexivity.
Qed.

Lemma create_returns u m l t c p d e w :
  prunable w u = true ->
  forallb (finishes listener (created clock w u m l t c p d e)) (registered w u) = true ->
  (create_notification clock listener u m l t c p d e w).1 =
    Ok (created clock w u m l t c p d e).
Proof. intros H Hfin. rewrite (create_ok _ _ _ _ _ _ _ _ _ H Hfin). reflexivity. Qed.

Lemma create_counter u m l t c p d e w :
  notification_id_counter (svc (create_notification clock listener u m l t c p d e w).2) =
  notification_id_counter (svc w) + 1.
Proof.
  destruct (prunable w u) eqn:H.
  - destruct (create_world u m l t c p d e w H) as (run & -> & _). reflexivity.
  - rewrite (create_raise _ _ _ _ _ _ _ _ _ H). reflexivity.
Qed.

Lemma create_listeners u m l t c p d e w :
  listeners (svc (create_notification clock listener u m l t c p d e w).2) = listeners (svc w).
Proof.
  destruct (prunable w u) eqn:H.
  - destruct (create_world u m l t c p d e w H) as (run & -> & _). reflexivity.
  - rewrite (create_raise _ _ _ _ _ _ _ _ _ H). reflexivity.
Qed.

Lemma create_ticks u m l t c p d e w :
  ticks (create_notification clock listener u m l t c p d e w).2 = S (S (S (ticks w))).
Proof.
  destruct (prunable w u) eqn:H.
  - destruct (create_world u m l t c p d e w H) as (run & -> & _). reflexivity.
  - rewrite (create_raise _ _ _ _ _ _ _ _ _ H). reflexivity.
Qed.

Lemma create_notifications_ok u m l t c p d e w :
  prunable w u = true ->
  notifications (svc (create_notification clock listener u m l t c p d e w).2) =
  <[u := (List.filter (live_at (prune_instant clock w)) (user_list (svc w) u)
            ++ [created clock w u m l t c p d e])%list]> (notifications (svc w)).
Proof.
  intros H. destruct (create_world u m l t c p d e w H) as (run & -> & _). reflexivity.
Qed.

Lemma create_user_list_ok u m l t c p d e w :
  prunable w u = true ->
  user_list (svc (create_notification clock listener u m l t c p d e w).2) u =
  (List.filter (live_at (prune_instant clock w)) (user_list (svc w) u)
     ++ [created clock w u m l t c p d e])%list.
Proof.
  intros H. unfold user_list at 1. rewrite (create_notifications_ok _ _ _ _ _ _ _ _ _ H).
  rewrite lookup_insert_eq. reflexivity.
Qed.

Lemma create_user_list_raise u m l t c p d e w :
  prunable w u = false ->
  user_list (svc (create_notification clock listener u m l t c p d e w).2) u =
  user_list (svc w) u.
Proof.
  intros H. rewrite (create_raise _ _ _ _ _ _ _ _ _ H). reflexivity.
Qed.

Lemma create_other_user u m l t c p d e w u' :
  u' <> u ->
  notifications (svc (create_notification clock listener u m l t c p d e w).2) !! u' =
  notifications (svc w) !! u'.
Proof.
  intros Hne. destruct (prunable w u) eqn:H.
  - rewrite (create_notifications_ok _ _ _ _ _ _ _ _ _ H).
    apply lookup_insert_ne. congruence.
  - rewrite (create_raise _ _ _ _ _ _ _ _ _ H). reflexivity.
Qed.

(** C1 (as amended).  [create_notification] validates nothing.  For every
    message, the empty string included, every level string, and every
    category and priority of the enumerations: when the pruning of the
    user's list can run, the notification with the message and the level as
    given is appended to the user's pruned collection and the id counter
    advances by one, whatever the listeners do; the call comes to what the
    notifying of the user's listeners comes to, and it returns the
    notification when every registered callback returns an awaitable that
    finishes. *)
Theorem create_validates_nothing u m l t c p d e w :
  prunable w u = true ->
  exists n,
    n_message n = m /\ n_level n = l /\
    user_list (svc (create_notification clock listener u m l t c p d e w).2) u =
      (List.filter (live_at (prune_instant clock w)) (user_list (svc w) u) ++ [n])%list /\
    notification_id_counter (svc (create_notification clock listener u m l t c p d e w).2) =
      notification_id_counter (svc w) + 1 /\
    (create_notification clock listener u m l t c p d e w).1 =
      returning n (_notify_listeners listener u n (appended clock w u m l t c p d e)).1 /\
    (forallb (finishes listener n) (registered w u) = true ->
     (create_notification clock listener u m l t c p d e w).1 = Ok n).
Proof.
  intros H. exists (created clock w u m l t c p d e).
  rewrite create_counter, (create_user_list_ok _ _ _ _ _ _ _ _ _ H).
  split; [reflexivity|]. split; [reflexivity|]. split; [reflexivity|].
  split; [reflexivity|]. split.
  - rewrite create_outcome, H. reflexivity.
  - apply create_returns. exact H.
Qed.

(** C8 (as amended).  When the pruning of the user's list can run and every
    callback registered for the user returns an awaitable,
    [create_notification] runs every registered listener, in registration
    order, on the very notification it builds; [asyncio.gather] collects the
    outcome of each, an exception raised in a listener's coroutine included,
    so that every other listener is still run; the notification is in the
    user's stored collection; the creation waits for all the listeners and
    returns the notification when each of them finishes, by returning or by
    raising. *)
Theorem create_isolates_listener_failures u m l t c p d e w :
  prunable w u = true ->
  forallb (returns_awaitable listener (created clock w u m l t c p d e)) (registered w u)
    = true ->
  exists n,
    delivered (create_notification clock listener u m l t c p d e w).2 =
      (delivered w ++ map (fun cb => (cb, n)) (registered w u))%list /\
    In n (user_list (svc (create_notification clock listener u m l t c p d e w).2) u) /\
    (forall w0,
        (gather_values (map (listener_task listener n) (registered w u)) w0).1 =
        Ok (map (listener_outcome listener n) (registered w u))) /\
    (create_notification clock listener u m l t c p d e w).1 =
      (if existsb is_pending (map (listener_outcome listener n) (registered w u))
       then Pending else Ok n) /\
    (forallb (finishes listener n) (registered w u) = true ->
     (_notify_listeners listener u n (appended clock w u m l t c p d e)).1 = Ok tt /\
     (create_notification clock listener u m l t c p d e w).1 = Ok n).
Proof.
  intros H Hawait. exists (created clock w u m l t c p d e).
  set (n := created clock w u m l t c p d e) in *.
  assert (Hnotify :
    _notify_listeners listener u n (appended clock w u m l t c p d e) =
    (if existsb is_pending (map (listener_outcome listener n) (registered w u))
     then Pending else Ok tt,
     recorded (appended clock w u m l t c p d e) n (registered w u)))
    by exact (notify_listeners_awaitables u n (appended clock w u m l t c p d e) Hawait).
  split; [|split; [|split; [|split]]].
  - rewrite (create_eq _ _ _ _ _ _ _ _ _ H). fold n. rewrite Hnotify. reflexivity.
  - rewrite (create_user_list_ok _ _ _ _ _ _ _ _ _ H).
    apply in_or_app. right. left. reflexivity.
  - intros w0. unfold gather_values, bind.
    destruct (gather_listeners n (registered w u) w0 Hawait) as [-> ->].
    rewrite length_map, Nat.ltb_irrefl. reflexivity.
  - rewrite create_outcome, H. fold n. rewrite Hnotify. cbn [fst].
    destruct (existsb is_pending _); reflexivity.
  - intros Hfin. split.
    + rewrite notify_listeners_eq; [reflexivity|exact Hfin].
    + apply create_returns; assumption.
Qed.

(** C9.  When a creation omits both the title and the category (and the
    pruning of the user's list can run), the stored notification has the
    category ["system"] while its title is ["Notification "] followed by the
    level title, and not ["System "] followed by the level title; for the
    level ["info"] the title is ["Notification Information"].  The
    notification is the one that the creation returns when it returns, as it
    does when every registered callback returns an awaitable that
    finishes. *)
Theorem default_category_is_not_used_for_title u m l p d e w :
  prunable w u = true ->
  exists n,
    (forall n', (create_notification clock listener u m l None None p d e w).1 = Ok n' ->
                n' = n) /\
    (forallb (finishes listener n) (registered w u) = true ->
     (create_notification clock listener u m l None None p d e w).1 = Ok n) /\
    In n (user_list (svc (create_notification clock listener u m l None None p d e w).2) u) /\
    n_category n = "system" /\
    n_title n = ("Notification " ++ default "Notification" (level_titles l))%string /\
    n_title n <> ("System " ++ default "Notification" (level_titles l))%string /\
    (l = "info" -> n_title n = "Notification Information").
Proof.
  intros H. exists (created clock w u m l None None p d e).
  rewrite (create_user_list_ok _ _ _ _ _ _ _ _ _ H).
  split; [intros n' Hn'; exact (proj1 (create_returned _ _ _ _ _ _ _ _ _ _ Hn'))|].
  split; [apply create_returns; exact H|].
  split; [apply in_or_app; right; left; reflexivity|].
  split; [reflexivity|]. split; [reflexivity|]. split.
  - simpl. discriminate.
  - intros ->. reflexivity.
Qed.

(** ** Reading *)

Lemma slice_to_In {A} (l : list A) limit x : In x (slice_to l limit) -> In x l.
Proof.
  unfold slice_to. destruct (0 <=? limit); intros H;
    apply list_elem_of_In in H; apply list_elem_of_In;
    exact (subseteq_take _ _ _ H).
Qed.

Lemma recent_of_In l limit c r pf x : In x (recent_of l limit c r pf) -> In x l.
Proof.
  rewrite recent_of_filters. intros H. apply slice_to_In in H.
  apply (Permutation_in _ (sorted_by_key_perm _)) in H.
  apply filter_In in H. tauto.
Qed.

Lemma live_at_not_expired t x : live_at t x = true -> ~ expired_at t x.
Proof.
  unfold live_at, expired_at. intros Hlive (e & o & He & Ho & Hle).
  rewrite He, Ho in Hlive. apply Z.ltb_lt in Hlive. lia.
Qed.

(** C2 (as amended).  Expired notifications are pruned by
    [create_notification] only.  Right after a creation for a user whose
    pruning ran at the instant [t], the user's collection is the previously
    stored notifications that have no expiry or expire after [t], followed by
    the new notification; listing, unread count and statistics are computed
    from exactly that collection, so that no previously stored notification
    whose expiry had passed at [t] is returned or counted. *)
Theorem reads_after_create_see_pruned_collection u m l t c p d e w :
  prunable w u = true ->
  let w' := (create_notification clock listener u m l t c p d e w).2 in
  let kept := List.filter (live_at (prune_instant clock w)) (user_list (svc w) u) in
  let n := created clock w u m l t c p d e in
  user_list (svc w') u = (kept ++ [n])%list /\
  (forall x, In x (user_list (svc w) u) ->
             expired_at (prune_instant clock w) x -> ~ In x kept) /\
  (forall limit c0 r pf,
      (get_recent_notifications u limit c0 r pf w').1 =
        Ok (recent_of (kept ++ [n])%list limit c0 r pf) /\
      forall x, In x (recent_of (kept ++ [n])%list limit c0 r pf) ->
                x = n \/ (In x kept /\ ~ expired_at (prune_instant clock w) x)) /\
  (forall c0 pf,
      (get_unread_count u c0 pf w').1 = Ok (unread_of (kept ++ [n])%list c0 pf)) /\
  (get_notification_stats u w').1 = Ok (stats_of (kept ++ [n])%list).
Proof.
  intros H w' kept n.
  assert (Hl : user_list (svc w') u = (kept ++ [n])%list)
    by apply (create_user_list_ok _ _ _ _ _ _ _ _ _ H).
  split; [exact Hl|]. split; [|split; [|split]].
  - intros x _ Hexp Hin. apply filter_In in Hin as [_ Hlive].
    exact (live_at_not_expired _ _ Hlive Hexp).
  - intros limit c0 r pf. split.
    + unfold get_recent_notifications. run_m. rewrite Hl. reflexivity.
    + intros x Hx. apply recent_of_In in Hx. apply in_app_or in Hx as [Hx|[Hx|[]]].
      * right. split; [exact Hx|]. apply filter_In in Hx as [_ Hlive].
        exact (live_at_not_expired _ _ Hlive).
      * left. symmetry. exact Hx.
  - intros c0 pf. unfold get_unread_count. run_m. rewrite Hl. reflexivity.
  - unfold get_notification_stats. run_m. rewrite Hl. reflexivity.
Qed.


(** ** Marking as read *)

Lemma mark_as_read_eq u i w :
  mark_as_read clock u i w =
  match find_id i (user_list (svc w) u) with
  | None => (Ok false, w)
  | Some (k, x) =>
      if n_read x then (Ok true, w)
      else (Ok true,
            {| svc := set_notifications u
                        (<[k := set_read x (clock (ticks w))]> (user_list (svc w) u)) (svc w);
               ticks := S (ticks w);
               delivered := delivered w |})
  end.
Proof.
  unfold mark_as_read. run_m.
  destruct (find_id i (user_list (svc w) u)) as [[k x]|]; [|reflexivity].
  destruct (n_read x); reflexivity.
Qed.

Lemma mark_as_read_missing u i w :
  ~ In i (stored_ids w u) -> mark_as_read clock u i w = (Ok false, w).
Proof.
  unfold stored_ids. intros Hnot. apply find_id_None in Hnot.
  rewrite mark_as_read_eq, Hnot. reflexivity.
Qed.

Lemma mark_as_read_counter u i w :
  notification_id_counter (svc (mark_as_read clock u i w).2) =
  notification_id_counter (svc w).
Proof.
  rewrite mark_as_read_eq.
  destruct (find_id i (user_list (svc w) u)) as [[k x]|]; [|reflexivity].
  destruct (n_read x); reflexivity.
Qed.

Lemma mark_as_read_listeners u i w :
  listeners (svc (mark_as_read clock u i w).2) = listeners (svc w).
Proof.
  rewrite mark_as_read_eq.
  destruct (find_id i (user_list (svc w) u)) as [[k x]|]; [|reflexivity].
  destruct (n_read x); reflexivity.
Qed.

Lemma mark_as_read_other_user u i w u' :
  u' <> u ->
  notifications (svc (mark_as_read clock u i w).2) !! u' = notifications (svc w) !! u'.
Proof.
  intros Hne. rewrite mark_as_read_eq.
  destruct (find_id i (user_list (svc w) u)) as [[k x]|]; [|reflexivity].
  destruct (n_read x); [reflexivity|]. simpl. apply lookup_insert_ne. congruence.
Qed.

(** C6.  When the user's collection holds a notification with the id,
    [mark_as_read] returns true, read or not; on an unread one the call sets
    [read] and sets [read_at] to the instant of the call; a second call right
    after returns true again and changes nothing, [read_at] included.  When
    the collection holds no notification with the id the call returns false
    and changes nothing. *)
Theorem mark_as_read_is_idempotent u i w :
  (In i (stored_ids w u) <-> is_Some (stored w u i)) /\
  (forall x, stored w u i = Some x ->
     let r1 := mark_as_read clock u i w in
     let r2 := mark_as_read clock u i r1.2 in
     r1.1 = Ok true /\ r2.1 = Ok true /\ r2.2 = r1.2 /\
     exists x',
       stored r1.2 u i = Some x' /\ stored r2.2 u i = Some x' /\
       n_read x' = true /\
       (n_read x = false -> n_read_at x' = Some (clock (ticks w))) /\
       (n_read x = true -> r1.2 = w)) /\
  (~ In i (stored_ids w u) -> mark_as_read clock u i w = (Ok false, w)).
Proof.
  unfold stored, stored_ids. split; [|split].
  - destruct (find_id i (user_list (svc w) u)) as [[k x]|] eqn:Hf; simpl.
    + split; [eauto|]. intros _. exact (find_id_Some_In _ _ _ _ Hf).
    + split; [|intros [? [=]]]. intros Hin. exfalso.
      apply (proj1 (find_id_None _ _) Hf Hin).
  - intros x Hx. set (r1 := mark_as_read clock u i w).
    set (r2 := mark_as_read clock u i r1.2).
    destruct (find_id i (user_list (svc w) u)) as [[k y]|] eqn:Hf; [|discriminate].
    simpl in Hx. injection Hx as ->.
    destruct (find_id_Some _ _ _ _ Hf) as (Hid & l1 & l2 & Hl & Hlen & Hnot).
    destruct (n_read x) eqn:Hread.
    + assert (Hr1 : r1 = (Ok true, w)).
      { unfold r1. rewrite mark_as_read_eq, Hf, Hread. reflexivity. }
      assert (Hr2 : r2 = (Ok true, w)).
      { unfold r2. rewrite Hr1. simpl. rewrite mark_as_read_eq, Hf, Hread. reflexivity. }
      rewrite Hr1, Hr2. cbn [fst snd]. repeat split.
      exists x. rewrite Hf. simpl. repeat split; [exact Hread|discriminate].
    + set (x' := set_read x (clock (ticks w))).
      set (w' := {| svc := set_notifications u (l1 ++ x' :: l2)%list (svc w);
                    ticks := S (ticks w); delivered := delivered w |}).
      assert (Hr1 : r1 = (Ok true, w')).
      { unfold r1. rewrite mark_as_read_eq, Hf, Hread, Hl, <- Hlen, insert_middle.
        reflexivity. }
      assert (Hf' : find_id i (user_list (svc w') u) = Some (length l1, x')).
      { unfold user_list, w'. simpl. rewrite lookup_insert_eq. simpl.
        apply find_id_app; assumption. }
      assert (Hr2 : r2 = (Ok true, w')).
      { unfold r2. rewrite Hr1. simpl. rewrite mark_as_read_eq, Hf'. reflexivity. }
      rewrite Hr1, Hr2. cbn [fst snd]. repeat split.
      exists x'. rewrite Hf'. simpl. repeat split. discriminate.
  - apply mark_as_read_missing.
Qed.

(** C10.  [mark_as_read] leaves the listener registrations, the id counter
    and every other user's collection as they were; in the user's own
    collection it either changes nothing, or it replaces the first
    notification with the id, until then unread, by a record that has [read]
    set and [read_at] set to the instant of the call and agrees with it on
    every other field, every other notification of the list staying in
    place. *)
Theorem mark_as_read_changes_read_fields_only u i w :
  listeners (svc (mark_as_read clock u i w).2) = listeners (svc w) /\
  notification_id_counter (svc (mark_as_read clock u i w).2) =
    notification_id_counter (svc w) /\
  (forall u', u' <> u ->
     notifications (svc (mark_as_read clock u i w).2) !! u' = notifications (svc w) !! u') /\
  (svc (mark_as_read clock u i w).2 = svc w \/
   exists l1 x x' l2,
     user_list (svc w) u = (l1 ++ x :: l2)%list /\
     user_list (svc (mark_as_read clock u i w).2) u = (l1 ++ x' :: l2)%list /\
     n_id x = i /\ ~ In i (map n_id l1) /\ n_read x = false /\
     n_read x' = true /\ n_read_at x' = Some (clock (ticks w)) /\
     n_id x' = n_id x /\ n_user_id x' = n_user_id x /\ n_title x' = n_title x /\
     n_message x' = n_message x /\ n_level x' = n_level x /\
     n_category x' = n_category x /\ n_priority x' = n_priority x /\
     n_data x' = n_data x /\ n_timestamp x' = n_timestamp x /\
     n_created_at x' = n_created_at x /\ n_expires_at x' = n_expires_at x).
Proof.
  split; [apply mark_as_read_listeners|]. split; [apply mark_as_read_counter|].
  split; [intros u'; apply mark_as_read_other_user|].
  rewrite mark_as_read_eq.
  destruct (find_id i (user_list (svc w) u)) as [[k x]|] eqn:Hf; [|left; reflexivity].
  destruct (n_read x) eqn:Hread; [left; reflexivity|].
  destruct (find_id_Some _ _ _ _ Hf) as (Hid & l1 & l2 & Hl & Hlen & Hnot).
  cbn [fst snd svc]. right. exists l1, x, (set_read x (clock (ticks w))), l2.
  split; [exact Hl|]. split.
  - unfold user_list at 1. simpl. rewrite lookup_insert_eq. simpl.
    rewrite Hl, <- Hlen. apply insert_middle.
  - repeat split; assumption.
Qed.

(** ** Effects of the other operations *)

Lemma mark_all_loop_eq c l w :
  exists l' k t',
    mark_all_loop clock c l w =
      (Ok (l', k), {| svc := svc w; ticks := t'; delivered := delivered w |}) /\
    map n_id l' = map n_id l.
Proof.
  revert w. induction l as [|x l IH]; intros w; simpl.
  - exists [], 0, (ticks w). run_m. destruct w; split; reflexivity.
  - destruct (negb (n_read x) &&
              match c with
              | Some c0 => String.eqb (n_category x) (category_value c0)
              | None => true
              end).
    + run_m.
      destruct (IH {| svc := svc w; ticks := S (ticks w); delivered := delivered w |})
        as (l' & k & t' & -> & Hids).
      simpl. do 3 eexists. split; [reflexivity|]. simpl. congruence.
    + run_m. destruct (IH w) as (l' & k & t' & -> & Hids).
      simpl. do 3 eexists. split; [reflexivity|]. simpl. congruence.
Qed.

Lemma mark_all_as_read_eq u c w :
  (mark_all_as_read clock u c w).2 = w \/
  exists l l' t',
    notifications (svc w) !! u = Some l /\ map n_id l' = map n_id l /\
    (mark_all_as_read clock u c w).2 =
      {| svc := set_notifications u l' (svc w); ticks := t'; delivered := delivered w |}.
Proof.
  unfold mark_all_as_read. run_m.
  destruct (notifications (svc w) !! u) as [l|] eqn:Hu; [|left; reflexivity].
  right. destruct (mark_all_loop_eq c l w) as (l' & k & t' & -> & Hids).
  simpl. exists l, l', t'. repeat split. exact Hids.
Qed.

Lemma delete_notification_eq u i w :
  (delete_notification u i w).2 = w \/
  exists l,
    notifications (svc w) !! u = Some l /\
    (delete_notification u i w).2 =
      {| svc := set_notifications u (List.filter (fun n => negb (n_id n =? i)) l) (svc w);
         ticks := ticks w; delivered := delivered w |}.
Proof.
  unfold delete_notification. run_m.
  destruct (notifications (svc w) !! u) as [l|] eqn:Hu; [|left; reflexivity].
  right. exists l. split; reflexivity.
Qed.

Lemma add_listener_service u cb w :
  notifications (svc (add_listener u cb w).2) = notifications (svc w) /\
  notification_id_counter (svc (add_listener u cb w).2) = notification_id_counter (svc w).
Proof.
  unfold add_listener. run_m.
  destruct (listeners (svc w) !! u); split; reflexivity.
Qed.

Lemma remove_listener_service u cb w :
  notifications (svc (remove_listener u cb w).2) = notifications (svc w) /\
  notification_id_counter (svc (remove_listener u cb w).2) = notification_id_counter (svc w).
Proof.
  unfold remove_listener. run_m.
  destruct (listeners (svc w) !! u); split; reflexivity.
Qed.

(** ** Gathered creations *)

Lemma gather_cons {A} (t : M A) ts w :
  gather (t :: ts) w =
  match gather ts (t w).2 with
  | (Ok os, w2) => (Ok ((t w).1 :: os), w2)
  | (Raise e, w2) => (Raise e, w2)
  | (Pending, w2) => (Pending, w2)
  end.
Proof. simpl. destruct (t w). reflexivity. Qed.

Lemma gather_returns {A} (ts : list (M A)) w :
  exists os, gather ts w = (Ok os, (gather ts w).2) /\ length os = length ts.
Proof.
  revert w. induction ts as [|t ts IH]; intros w.
  - exists []. split; reflexivity.
  - rewrite gather_cons. destruct (IH (t w).2) as (os & -> & Hlen).
    exists ((t w).1 :: os). simpl. split; [reflexivity|]. congruence.
Qed.

Lemma gather_cons_world {A} (t : M A) ts w :
  (gather (t :: ts) w).2 = (gather ts (t w).2).2.
Proof.
  rewrite gather_cons. destruct (gather_returns ts (t w).2) as (os & -> & _). reflexivity.
Qed.

Lemma gather_cons_outcomes {A} (t : M A) ts w os :
  (gather ts (t w).2).1 = Ok os -> (gather (t :: ts) w).1 = Ok ((t w).1 :: os).
Proof.
  rewrite gather_cons.
  destruct (gather ts (t w).2) as [[os'|e|] w2]; simpl; [|discriminate|discriminate].
  intros [= ->]. reflexivity.
Qed.

Lemma broadcast_tasks_cons u us m l t c p d :
  broadcast_tasks clock listener (u :: us) m l t c p d =
  create_notification clock listener u m l t c p d None
    :: broadcast_tasks clock listener us m l t c p d.
Proof. reflexivity. Qed.

Lemma broadcast_world us m l t c p d w :
  (broadcast_notification clock listener us m l t c p d w).2 =
  (gather (broadcast_tasks clock listener us m l t c p d) w).2.
Proof.
  unfold broadcast_notification, gather_propagate. run_m.
  destruct (gather_returns (broadcast_tasks clock listener us m l t c p d) w) as (os & -> & _).
  simpl. destruct (all_results os); reflexivity.
Qed.

Lemma broadcast_outcome us m l t c p d w os :
  (gather (broadcast_tasks clock listener us m l t c p d) w).1 = Ok os ->
  (broadcast_notification clock listener us m l t c p d w).1 =
  returning tt (all_results os).
Proof.
  unfold broadcast_notification, gather_propagate. run_m.
  destruct (gather (broadcast_tasks clock listener us m l t c p d) w) as [[os'|e|] w2];
    simpl; [|discriminate|discriminate].
  intros [= ->]. destruct (all_results os); reflexivity.
Qed.

Lemma filter_live_keeps t l x :
  In x l -> n_expires_at x = None -> In x (List.filter (live_at t) l).
Proof.
  intros Hin Hexp. apply filter_In. split; [exact Hin|].
  unfold live_at. rewrite Hexp. reflexivity.
Qed.

Lemma forallb_filter {A} (p q : A -> bool) l :
  forallb p l = true -> forallb p (List.filter q l) = true.
Proof.
  induction l as [|x l IH]; simpl; [reflexivity|].
  intros H. apply andb_prop in H as [Hx Hl]. destruct (q x); simpl; [rewrite Hx|]; auto.
Qed.

Lemma create_keeps_unexpiring u m l t c p d e w u' x :
  In x (user_list (svc w) u') -> n_expires_at x = None ->
  In x (user_list (svc (create_notification clock listener u m l t c p d e w).2) u').
Proof.
  intros Hin Hexp. destruct (Z.eq_dec u' u) as [->|Hne].
  - destruct (prunable w u) eqn:H.
    + rewrite (create_user_list_ok _ _ _ _ _ _ _ _ _ H).
      apply in_or_app. left. apply filter_live_keeps; assumption.
    + rewrite (create_user_list_raise _ _ _ _ _ _ _ _ _ H). exact Hin.
  - unfold user_list in *. rewrite create_other_user; assumption.
Qed.

Lemma create_prunable u m l t c p d w u' :
  prunable (create_notification clock listener u m l t c p d None w).2 u' = prunable w u'.
Proof.
  destruct (Z.eq_dec u' u) as [->|Hne].
  - unfold prunable at 1. destruct (prunable w u) eqn:H.
    + rewrite (create_user_list_ok _ _ _ _ _ _ _ _ _ H), forallb_app. simpl.
      rewrite forallb_filter; [reflexivity|exact H].
    + rewrite (create_user_list_raise _ _ _ _ _ _ _ _ _ H). exact H.
  - unfold prunable, user_list. rewrite create_other_user; [reflexivity|assumption].
Qed.

Lemma create_registered u m l t c p d e w u' :
  registered (create_notification clock listener u m l t c p d e w).2 u' = registered w u'.
Proof. unfold registered. rewrite create_listeners. reflexivity. Qed.

Lemma broadcast_keeps_unexpiring us m l t c p d w u' x :
  In x (user_list (svc w) u') -> n_expires_at x = None ->
  In x (user_list (svc (gather (broadcast_tasks clock listener us m l t c p d) w).2) u').
Proof.
  revert w. induction us as [|u us IH]; intros w Hin Hexp; [exact Hin|].
  rewrite broadcast_tasks_cons, gather_cons_world.
  apply IH; [|exact Hexp]. apply create_keeps_unexpiring; assumption.
Qed.

Lemma broadcast_outcomes us m l t c p d w :
  exists os,
    (gather (broadcast_tasks clock listener us m l t c p d) w).1 = Ok os /\
    length os = length us /\
    forall k u, us !! k = Some u ->
      (prunable w u = false -> os !! k = Some (Raise TypeError)) /\
      (prunable w u = true ->
       exists n,
         n_user_id n = u /\ n_message n = m /\
         In n (user_list (svc (gather (broadcast_tasks clock listener us m l t c p d) w).2) u) /\
         (forall n', os !! k = Some (Ok n') -> n' = n) /\
         (forallb (finishes listener n) (registered w u) = true ->
          os !! k = Some (Ok n))).
Proof.
  revert w. induction us as [|u0 us IH]; intros w.
  - exists []. repeat split; discriminate.
  - destruct (IH (create_notification clock listener u0 m l t c p d None w).2)
      as (os & Hos & Hlen & Hk).
    exists ((create_notification clock listener u0 m l t c p d None w).1 :: os).
    rewrite broadcast_tasks_cons, gather_cons_world.
    split; [apply gather_cons_outcomes; exact Hos|].
    split; [simpl; congruence|].
    intros [|k] u Hu.
    + injection Hu as ->. cbn [lookup list_lookup].
      split; intros H.
      * rewrite create_outcome, H. reflexivity.
      * exists (created clock w u m l t c p d None).
        split; [reflexivity|]. split; [reflexivity|]. split; [|split].
        -- apply (broadcast_keeps_unexpiring us m l t c p d); [|reflexivity].
           rewrite (create_user_list_ok _ _ _ _ _ _ _ _ _ H).
           apply in_or_app. right. left. reflexivity.
        -- intros n' Hn'. injection Hn' as Hn'.
           exact (proj1 (create_returned _ _ _ _ _ _ _ _ _ _ Hn')).
        -- intros Hfin. f_equal. apply create_returns; assumption.
    + change ((u0 :: us) !! S k) with (us !! k) in Hu.
      specialize (Hk k u Hu). rewrite create_prunable, create_registered in Hk. exact Hk.
Qed.

(** C3.  [broadcast_notification] runs one creation per element of
    [user_ids], each to its outcome, and none is skipped when another one
    raises: when it is over, returned or raised, every user id whose own
    creation returned a notification has that notification in its stored
    collection.  The creation for a user id appends its notification
    exactly when the pruning of that user's list can run, whatever happens
    for the other user ids and whatever the listeners do; it raises
    [TypeError] when the pruning cannot run, and it returns the notification
    when the pruning can run and every callback registered for the user
    returns an awaitable that finishes.  The broadcast raises exactly when
    one of the creations raised. *)
Theorem broadcast_creates_for_every_user us m l t c p d w :
  exists os,
    (gather (broadcast_tasks clock listener us m l t c p d) w).1 = Ok os /\
    length os = length us /\
    (broadcast_notification clock listener us m l t c p d w).1 =
      returning tt (all_results os) /\
    forall k u, us !! k = Some u ->
      (forall n, os !! k = Some (Ok n) ->
         n_user_id n = u /\ n_message n = m /\
         In n (user_list (svc (broadcast_notification clock listener us m l t c p d w).2) u)) /\
      (prunable w u = true ->
       exists n,
         n_user_id n = u /\ n_message n = m /\
         In n (user_list (svc (broadcast_notification clock listener us m l t c p d w).2) u) /\
         (forallb (finishes listener n) (registered w u) = true ->
          os !! k = Some (Ok n))) /\
      (prunable w u = false -> os !! k = Some (Raise TypeError)).
Proof.
  destruct (broadcast_outcomes us m l t c p d w) as (os & Hos & Hlen & Hk).
  exists os. split; [exact Hos|]. split; [exact Hlen|].
  split; [apply broadcast_outcome; exact Hos|].
  intros k u Hu. destruct (Hk k u Hu) as [Hfalse Htrue].
  rewrite broadcast_world. split; [|split].
  - intros n Hn. destruct (prunable w u) eqn:H.
    + destruct (Htrue eq_refl) as (n' & Hu' & Hm' & Hin & Hsame & _).
      rewrite (Hsame n Hn). repeat split; assumption.
    + rewrite (Hfalse eq_refl) in Hn. discriminate.
  - intros H. destruct (Htrue H) as (n & Hu' & Hm' & Hin & _ & Hfin).
    exists n. repeat split; assumption.
  - exact Hfalse.
Qed.

(** ** Identifiers *)

Lemma broadcast_ids us m l t c p d w os :
  (gather (broadcast_tasks clock listener us m l t c p d) w).1 = Ok os ->
  StronglySorted Z.lt (returned_ids os) /\
  Forall (fun i => notification_id_counter (svc w) <= i) (returned_ids os) /\
  notification_id_counter (svc (gather (broadcast_tasks clock listener us m l t c p d) w).2) =
    notification_id_counter (svc w) + Z.of_nat (length us) /\
  Forall (fun i => i < notification_id_counter (svc w) + Z.of_nat (length us))
    (returned_ids os).
Proof.
  revert w os. induction us as [|u us IH]; intros w os.
  - simpl. intros [= <-]. simpl. repeat split; try constructor. lia.
  - rewrite broadcast_tasks_cons, gather_cons_world.
    set (t0 := create_notification clock listener u m l t c p d None).
    destruct (gather_returns (broadcast_tasks clock listener us m l t c p d) (t0 w).2)
      as (os' & Hos' & _).
    rewrite (gather_cons_outcomes t0 _ w os') by (rewrite Hos'; reflexivity).
    intros [= <-].
    destruct (IH (t0 w).2 os') as (Hsorted & Hlow & Hcounter & Hhigh);
      [rewrite Hos'; reflexivity|].
    unfold t0 in *. rewrite create_counter in *.
    assert (Hlen : Z.of_nat (length (u :: us)) = 1 + Z.of_nat (length us))
      by (simpl length; lia).
    rewrite Hlen. split; [|split; [|split]].
    + unfold returned_ids. simpl.
      destruct (create_returned_id u m l t c p d None w) as [-> | ->]; simpl;
        [|exact Hsorted].
      constructor; [exact Hsorted|].
      eapply Forall_impl; [exact Hlow|]. simpl. intros i Hi. lia.
    + unfold returned_ids. simpl.
      destruct (create_returned_id u m l t c p d None w) as [-> | ->]; simpl.
      * constructor; [lia|]. eapply Forall_impl; [exact Hlow|]. simpl. intros i Hi. lia.
      * eapply Forall_impl; [exact Hlow|]. simpl. intros i Hi. lia.
    + lia.
    + unfold returned_ids. simpl.
      destruct (create_returned_id u m l t c p d None w) as [-> | ->]; simpl.
      * constructor; [lia|]. eapply Forall_impl; [exact Hhigh|]. simpl. intros i Hi. lia.
      * eapply Forall_impl; [exact Hhigh|]. simpl. intros i Hi. lia.
Qed.

Lemma exec_counter op w :
  notification_id_counter (svc w) <= notification_id_counter (svc (exec clock listener op w)).
Proof.
  destruct op; simpl.
  - rewrite create_counter. lia.
  - reflexivity.
  - rewrite mark_as_read_counter. reflexivity.
  - destruct (mark_all_as_read_eq user_id category w) as [->|(l & l' & t' & _ & _ & ->)];
      reflexivity.
  - destruct (delete_notification_eq user_id notification_id w) as [->|(l & _ & ->)];
      reflexivity.
  - reflexivity.
  - rewrite broadcast_world.
    destruct (gather_returns
                (broadcast_tasks clock listener user_ids message level title category priority data)
                w) as (os & Hos & _).
    destruct (broadcast_ids user_ids message level title category priority data w os)
      as (_ & _ & -> & _); [rewrite Hos; reflexivity|]. lia.
  - destruct (add_listener_service user_id callback w) as [_ ->]. reflexivity.
  - destruct (remove_listener_service user_id callback w) as [_ ->]. reflexivity.
  - reflexivity.
Qed.

Lemma created_ids_bounds op w :
  StronglySorted Z.lt (created_ids clock listener op w) /\
  Forall (fun i => notification_id_counter (svc w) <= i <
                   notification_id_counter (svc (exec clock listener op w)))
    (created_ids clock listener op w).
Proof.
  destruct op; simpl; try (split; constructor).
  - unfold returned_ids. simpl. rewrite create_counter.
    destruct (create_returned_id user_id message level title category priority data
                expires_at w) as [-> | ->];
      simpl; split; repeat constructor; simpl; lia.
  - rewrite broadcast_world.
    destruct (gather_returns
                (broadcast_tasks clock listener user_ids message level title category priority data)
                w) as (os & Hos & _).
    destruct (broadcast_ids user_ids message level title category priority data w os)
      as (Hsorted & Hlow & Hcounter & Hhigh); [rewrite Hos; reflexivity|].
    rewrite Hos. simpl. split; [exact Hsorted|]. rewrite Hcounter.
    apply List.Forall_forall. intros i Hi.
    rewrite List.Forall_forall in Hlow, Hhigh. split; [apply Hlow|apply Hhigh]; exact Hi.
Qed.

Lemma run_counter ops w :
  notification_id_counter (svc w) <= notification_id_counter (svc (run clock listener ops w).2).
Proof.
  revert w. induction ops as [|op ops IH]; intros w; simpl; [lia|].
  specialize (IH (exec clock listener op w)). pose proof (exec_counter op w). lia.
Qed.

Lemma run_ids_bounds ops w :
  StronglySorted Z.lt (run clock listener ops w).1 /\
  Forall (fun i => notification_id_counter (svc w) <= i <
                   notification_id_counter (svc (run clock listener ops w).2))
    (run clock listener ops w).1.
Proof.
  revert w. induction ops as [|op ops IH]; intros w; simpl; [split; constructor|].
  destruct (IH (exec clock listener op w)) as [Hsorted Hbounds].
  destruct (created_ids_bounds op w) as [Hs Hb].
  pose proof (exec_counter op w) as Hc.
  pose proof (run_counter ops (exec clock listener op w)) as Hr.
  rewrite List.Forall_forall in Hb, Hbounds. split.
  - induction Hs as [|i ids Hs IHs Hi]; simpl; [exact Hsorted|].
    constructor.
    + apply IHs. intros j Hj. apply Hb. right. exact Hj.
    + apply Forall_app. split; [exact Hi|].
      apply List.Forall_forall. intros j Hj.
      specialize (Hb i (or_introl eq_refl)). specialize (Hbounds j Hj). lia.
  - apply List.Forall_forall. intros i Hi. apply in_app_or in Hi as [Hi|Hi].
    + specialize (Hb i Hi). lia.
    + specialize (Hbounds i Hi). lia.
Qed.

Lemma strictly_sorted_NoDup l : StronglySorted Z.lt l -> List.NoDup l.
Proof.
  induction 1 as [|i l Hl IH Hi]; constructor; [|exact IH].
  intros Hin. rewrite List.Forall_forall in Hi. specialize (Hi i Hin). lia.
Qed.

(** C4.  For every sequence of calls of the service, deletions included,
    started in any world: the ids that its creations return are strictly
    increasing in the order of the calls, no id is returned twice, and each
    is at least the counter at the start and below the counter at the end,
    a counter that no call decreases. *)
Theorem created_ids_strictly_increase ops w :
  StronglySorted Z.lt (run clock listener ops w).1 /\
  List.NoDup (run clock listener ops w).1 /\
  Forall (fun i => notification_id_counter (svc w) <= i <
                   notification_id_counter (svc (run clock listener ops w).2))
    (run clock listener ops w).1 /\
  notification_id_counter (svc w) <= notification_id_counter (svc (run clock listener ops w).2).
Proof.
  destruct (run_ids_bounds ops w) as [Hsorted Hbounds].
  split; [exact Hsorted|]. split; [apply strictly_sorted_NoDup; exact Hsorted|].
  split; [exact Hbounds|apply run_counter].
Qed.

(** ** Isolation of the users *)

Lemma create_stored_ids u m l t c p d e w u' i :
  In i (stored_ids (create_notification clock listener u m l t c p d e w).2 u') ->
  In i (stored_ids w u') \/ (u' = u /\ i = notification_id_counter (svc w)).
Proof.
  unfold stored_ids. destruct (Z.eq_dec u' u) as [->|Hne].
  - destruct (prunable w u) eqn:H.
    + rewrite (create_user_list_ok _ _ _ _ _ _ _ _ _ H), map_app.
      intros Hin. apply in_app_or in Hin as [Hin|[Hin|[]]].
      * left. apply in_map_iff in Hin as (x & <- & Hx). apply filter_In in Hx as [Hx _].
        apply in_map. exact Hx.
      * right. split; [reflexivity|]. symmetry. exact Hin.
    + rewrite (create_user_list_raise _ _ _ _ _ _ _ _ _ H). tauto.
  - unfold user_list. rewrite create_other_user by assumption. tauto.
Qed.

Lemma create_ids_consistent u m l t c p d e w :
  ids_consistent w ->
  ids_consistent (create_notification clock listener u m l t c p d e w).2.
Proof.
  intros [Hbelow Huser]. split.
  - intros u' i Hi. rewrite create_counter.
    apply create_stored_ids in Hi as [Hi|[_ ->]]; [|lia].
    specialize (Hbelow _ _ Hi). lia.
  - intros u1 u2 i H1 H2.
    apply create_stored_ids in H1 as [H1|[-> ->]];
      apply create_stored_ids in H2 as [H2|[-> H2]].
    + exact (Huser _ _ _ H1 H2).
    + subst i. specialize (Hbelow _ _ H1). lia.
    + specialize (Hbelow _ _ H2). lia.
    + reflexivity.
Qed.

Lemma broadcast_ids_consistent us m l t c p d w :
  ids_consistent w ->
  ids_consistent (gather (broadcast_tasks clock listener us m l t c p d) w).2.
Proof.
  revert w. induction us as [|u us IH]; intros w H; [exact H|].
  rewrite broadcast_tasks_cons, gather_cons_world.
  apply IH, create_ids_consistent, H.
Qed.

Lemma broadcast_other_user us m l t c p d w u' :
  ~ In u' us ->
  notifications (svc (gather (broadcast_tasks clock listener us m l t c p d) w).2) !! u' =
  notifications (svc w) !! u'.
Proof.
  revert w. induction us as [|u us IH]; intros w Hnot; [reflexivity|].
  rewrite broadcast_tasks_cons, gather_cons_world.
  simpl in Hnot. rewrite IH by tauto.
  apply create_other_user. intros ->. tauto.
Qed.

Lemma ids_consistent_shrink w w' :
  notification_id_counter (svc w') = notification_id_counter (svc w) ->
  (forall u i, In i (stored_ids w' u) -> In i (stored_ids w u)) ->
  ids_consistent w -> ids_consistent w'.
Proof.
  intros Hc Hsub [Hbelow Huser]. split.
  - intros u i Hi. rewrite Hc. eauto.
  - intros u1 u2 i H1 H2. eauto.
Qed.

Lemma stored_ids_set u l w t' dl u' :
  stored_ids {| svc := set_notifications u l (svc w); ticks := t'; delivered := dl |} u' =
  if decide (u = u') then map n_id l else stored_ids w u'.
Proof.
  unfold stored_ids, user_list. simpl. rewrite lookup_insert.
  destruct (decide (u = u')); reflexivity.
Qed.

Lemma stored_ids_lookup w u l :
  notifications (svc w) !! u = Some l -> stored_ids w u = map n_id l.
Proof. unfold stored_ids, user_list. intros ->. reflexivity. Qed.

Lemma exec_ids_consistent op w :
  ids_consistent w -> ids_consistent (exec clock listener op w).
Proof.
  destruct op; simpl; intros H.
  - apply create_ids_consistent, H.
  - exact H.
  - rewrite mark_as_read_eq.
    destruct (find_id notification_id (user_list (svc w) user_id)) as [[k x]|] eqn:Hf;
      [|exact H].
    destruct (n_read x); [exact H|]. cbn [snd].
    destruct (find_id_Some _ _ _ _ Hf) as (_ & l1 & l2 & Hl & Hlen & _).
    revert H. apply ids_consistent_shrink; [reflexivity|].
    intros u i. rewrite stored_ids_set. destruct (decide (user_id = u)) as [<-|]; [|tauto].
    unfold stored_ids. rewrite Hl, <- Hlen, insert_middle, !map_app. simpl. tauto.
  - destruct (mark_all_as_read_eq user_id category w)
      as [->|(l & l' & t' & Hl & Hids & ->)]; [exact H|].
    revert H. apply ids_consistent_shrink; [reflexivity|].
    intros u i. rewrite stored_ids_set. destruct (decide (user_id = u)) as [<-|]; [|tauto].
    rewrite (stored_ids_lookup _ _ _ Hl), Hids. tauto.
  - destruct (delete_notification_eq user_id notification_id w) as [->|(l & Hl & ->)];
      [exact H|].
    revert H. apply ids_consistent_shrink; [reflexivity|].
    intros u i. rewrite stored_ids_set. destruct (decide (user_id = u)) as [<-|]; [|tauto].
    rewrite (stored_ids_lookup _ _ _ Hl). intros Hi.
    apply in_map_iff in Hi as (x & <- & Hx). apply filter_In in Hx as [Hx _].
    apply in_map. exact Hx.
  - exact H.
  - rewrite broadcast_world. apply broadcast_ids_consistent, H.
  - destruct (add_listener_service user_id callback w) as [Hn Hc].
    revert H. apply ids_consistent_shrink; [exact Hc|].
    intros u i. unfold stored_ids, user_list. rewrite Hn. tauto.
  - destruct (remove_listener_service user_id callback w) as [Hn Hc].
    revert H. apply ids_consistent_shrink; [exact Hc|].
    intros u i. unfold stored_ids, user_list. rewrite Hn. tauto.
  - exact H.
Qed.

Lemma reachable_ids_consistent w : reachable clock listener w -> ids_consistent w.
Proof.
  induction 1 as [|w op Hw IH].
  - split; intros; simpl in *; contradiction.
  - apply exec_ids_consistent, IH.
Qed.

Lemma exec_other_user op w u' :
  ~ In u' (op_users op) ->
  notifications (svc (exec clock listener op w)) !! u' = notifications (svc w) !! u'.
Proof.
  destruct op; simpl; intros Hnot;
    try assert (Hne : u' <> user_id) by (intros Heq; apply Hnot; left; congruence).
  - apply create_other_user. exact Hne.
  - reflexivity.
  - apply mark_as_read_other_user. exact Hne.
  - destruct (mark_all_as_read_eq user_id category w)
      as [->|(l & l' & t' & _ & _ & ->)]; [reflexivity|].
    simpl. apply lookup_insert_ne. congruence.
  - destruct (delete_notification_eq user_id notification_id w) as [->|(l & _ & ->)];
      [reflexivity|].
    simpl. apply lookup_insert_ne. congruence.
  - reflexivity.
  - rewrite broadcast_world. apply broadcast_other_user. exact Hnot.
  - destruct (add_listener_service user_id callback w) as [-> _]. reflexivity.
  - destruct (remove_listener_service user_id callback w) as [-> _]. reflexivity.
  - reflexivity.
Qed.

(** C7.  In every world that the service reaches, for distinct users [u1]
    and [u2] and an id stored for [u2], [mark_as_read] for [u1] returns false
    and changes nothing, the collection of [u2] included; and in every world
    each operation leaves the collection of every user it is not invoked for
    as it was. *)
Theorem users_are_isolated :
  (forall w u1 u2 i,
     reachable clock listener w -> u1 <> u2 -> In i (stored_ids w u2) ->
     mark_as_read clock u1 i w = (Ok false, w)) /\
  (forall op w u',
     ~ In u' (op_users op) ->
     notifications (svc (exec clock listener op w)) !! u' = notifications (svc w) !! u').
Proof.
  split.
  - intros w u1 u2 i Hw Hne Hi.
    apply mark_as_read_missing. intros Hi1.
    destruct (reachable_ids_consistent w Hw) as [_ Huser].
    exact (Hne (Huser _ _ _ Hi1 Hi)).
  - intros op w u'. apply exec_other_user.
Qed.

(** ** Bulk marking *)

Lemma mark_all_loop_spec c l w :
  exists l',
    mark_all_loop clock c l w =
      (Ok (l', Z.of_nat (length (List.filter (selected c) l))),
       {| svc := svc w;
          ticks := (ticks w + length (List.filter (selected c) l))%nat;
          delivered := delivered w |}) /\
    Forall2 (bulk_marked clock c (ticks w)
               (ticks w + length (List.filter (selected c) l))%nat) l l'.
Proof.
  revert w. induction l as [|x l IH]; intros w.
  - exists []. simpl. run_m. rewrite Nat.add_0_r. destruct w; split; [reflexivity|constructor].
  - cbn [mark_all_loop List.filter]. fold (selected c x).
    destruct (selected c x) eqn:Hsel.
    + run_m.
      destruct (IH {| svc := svc w; ticks := S (ticks w); delivered := delivered w |})
        as (l' & -> & Hl'). simpl in *.
      exists (set_read x (clock (ticks w)) :: l'). split.
      * f_equal; [f_equal; f_equal; lia|f_equal; lia].
      * constructor.
        -- unfold bulk_marked. rewrite Hsel. exists (ticks w). split; [lia|reflexivity].
        -- eapply Forall2_impl; [exact Hl'|]. intros y y'. unfold bulk_marked.
           destruct (selected c y); [|tauto].
           intros (k & Hk & ->). exists k. split; [lia|reflexivity].
    + run_m. destruct (IH w) as (l' & -> & Hl'). simpl.
      exists (x :: l'). split; [reflexivity|].
      constructor; [|exact Hl']. unfold bulk_marked. rewrite Hsel. reflexivity.
Qed.

Lemma unread_of_selected l c :
  unread_of l c None = Z.of_nat (length (List.filter (selected c) l)).
Proof.
  unfold unread_of. f_equal. f_equal.
  destruct c as [c0|]; [rewrite filter_both; reflexivity|].
  apply filter_ext. intros n. unfold selected. rewrite andb_true_r. reflexivity.
Qed.

Lemma bulk_marked_none_selected c t0 t1 l l' :
  Forall2 (bulk_marked clock c t0 t1) l l' -> List.filter (selected c) l' = [].
Proof.
  induction 1 as [|x x' l l' Hx Hl IH]; [reflexivity|].
  simpl. rewrite IH. unfold bulk_marked in Hx.
  destruct (selected c x) eqn:Hsel.
  - destruct Hx as (k & _ & ->). reflexivity.
  - subst x'. rewrite Hsel. reflexivity.
Qed.

Lemma mark_all_as_read_run u c w :
  exists l',
    mark_all_as_read clock u c w =
      (Ok (Z.of_nat (length (List.filter (selected c) (user_list (svc w) u)))),
       match notifications (svc w) !! u with
       | None => w
       | Some l =>
           {| svc := set_notifications u l' (svc w);
              ticks := (ticks w + length (List.filter (selected c) l))%nat;
              delivered := delivered w |}
       end) /\
    Forall2 (bulk_marked clock c (ticks w)
               (ticks w + length (List.filter (selected c) (user_list (svc w) u)))%nat)
      (user_list (svc w) u) l'.
Proof.
  unfold mark_all_as_read, user_list. run_m.
  destruct (notifications (svc w) !! u) as [l|] eqn:Hu; simpl.
  - destruct (mark_all_loop_spec c l w) as (l' & -> & Hl'). exists l'. split; [reflexivity|exact Hl'].
  - exists []. split; [reflexivity|constructor].
Qed.

Lemma mark_all_as_read_user_list u c w l' :
  (mark_all_as_read clock u c w).2 =
    match notifications (svc w) !! u with
    | None => w
    | Some l =>
        {| svc := set_notifications u l' (svc w);
           ticks := (ticks w + length (List.filter (selected c) l))%nat;
           delivered := delivered w |}
    end ->
  Forall2 (bulk_marked clock c (ticks w)
             (ticks w + length (List.filter (selected c) (user_list (svc w) u)))%nat)
    (user_list (svc w) u) l' ->
  user_list (svc (mark_all_as_read clock u c w).2) u = l' /\
  ticks (mark_all_as_read clock u c w).2 =
    (ticks w + length (List.filter (selected c) (user_list (svc w) u)))%nat.
Proof.
  intros -> Hl'. unfold user_list in *.
  destruct (notifications (svc w) !! u) as [l|] eqn:Hu; simpl in *.
  - rewrite lookup_insert_eq. split; reflexivity.
  - rewrite Hu. inversion Hl'. split; [reflexivity|simpl; lia].
Qed.

(** X1.  [mark_all_as_read] returns the number of the user's unread
    notifications of the category (of all categories when none is given),
    which is what [get_unread_count] gave before the call; after the call
    that count is zero, and a second call returns zero. *)
Theorem mark_all_as_read_returns_unread_count u c w :
  (mark_all_as_read clock u c w).1 = (get_unread_count u c None w).1 /\
  (get_unread_count u c None (mark_all_as_read clock u c w).2).1 = Ok 0 /\
  (mark_all_as_read clock u c (mark_all_as_read clock u c w).2).1 = Ok 0.
Proof.
  destruct (mark_all_as_read_run u c w) as (l' & Hrun & Hl').
  destruct (mark_all_as_read_user_list u c w l') as [Hlist _];
    [rewrite Hrun; reflexivity|exact Hl'|].
  pose proof (bulk_marked_none_selected _ _ _ _ _ Hl') as Hnone.
  split; [|split].
  - rewrite Hrun. unfold get_unread_count. run_m. rewrite unread_of_selected. reflexivity.
  - unfold get_unread_count. run_m. rewrite Hlist, unread_of_selected, Hnone. reflexivity.
  - destruct (mark_all_as_read_run u c (mark_all_as_read clock u c w).2) as (l'' & -> & _).
    cbn [fst]. rewrite Hlist, Hnone. reflexivity.
Qed.

(** X2.  [mark_all_as_read] keeps every notification of the user in its
    place: one that is already read, or of another category than the given
    one, is unchanged; each other one has [read] set and [read_at] set to a
    clock reading taken during the call, its other fields unchanged.  The
    other users' collections, the id counter, the listeners and the trace of
    listener invocations are unchanged. *)
Theorem mark_all_as_read_marks_in_place u c w :
  Forall2 (bulk_marked clock c (ticks w) (ticks (mark_all_as_read clock u c w).2))
    (user_list (svc w) u) (user_list (svc (mark_all_as_read clock u c w).2) u) /\
  (forall u', u' <> u ->
     notifications (svc (mark_all_as_read clock u c w).2) !! u' =
       notifications (svc w) !! u') /\
  notification_id_counter (svc (mark_all_as_read clock u c w).2) =
    notification_id_counter (svc w) /\
  listeners (svc (mark_all_as_read clock u c w).2) = listeners (svc w) /\
  delivered (mark_all_as_read clock u c w).2 = delivered w.
Proof.
  destruct (mark_all_as_read_run u c w) as (l' & Hrun & Hl').
  destruct (mark_all_as_read_user_list u c w l') as [Hlist Hticks];
    [rewrite Hrun; reflexivity|exact Hl'|].
  split; [rewrite Hlist, Hticks; exact Hl'|].
  rewrite Hrun. cbn [snd].
  destruct (notifications (svc w) !! u) as [l|]; simpl; repeat split; try reflexivity.
  intros u' Hne. apply lookup_insert_ne. congruence.
Qed.

(** ** Deletion *)

Lemma filter_length_lt {A} (p : A -> bool) l :
  (length (List.filter p l) <? length l)%nat = existsb (fun x => negb (p x)) l.
Proof.
  induction l as [|x l IH]; [reflexivity|].
  simpl. pose proof (List.filter_length_le p l) as Hle.
  destruct (p x); simpl.
  - rewrite <- IH. destruct (Nat.ltb_spec (length (List.filter p l)) (length l));
      destruct (Nat.ltb_spec (S (length (List.filter p l))) (S (length l)));
      try reflexivity; lia.
  - apply Nat.ltb_lt. lia.
Qed.

Lemma existsb_id_In i l :
  existsb (fun n => negb (negb (n_id n =? i))) l = true <-> In i (map n_id l).
Proof.
  rewrite existsb_exists, in_map_iff. split.
  - intros (x & Hx & Hid). rewrite negb_involutive in Hid. apply Z.eqb_eq in Hid. eauto.
  - intros (x & Hid & Hx). exists x. rewrite negb_involutive. split; [exact Hx|].
    apply Z.eqb_eq. exact Hid.
Qed.

Lemma filter_id_absent i l :
  ~ In i (map n_id l) -> List.filter (fun n => negb (n_id n =? i)) l = l.
Proof.
  induction l as [|x l IH]; simpl; [reflexivity|].
  intros Hnot. destruct (n_id x =? i) eqn:Hx; simpl.
  - apply Z.eqb_eq in Hx. tauto.
  - rewrite IH; [reflexivity|tauto].
Qed.

Lemma filter_id_removed i l :
  ~ In i (map n_id (List.filter (fun n => negb (n_id n =? i)) l)).
Proof.
  intros Hin. apply in_map_iff in Hin as (x & Hid & Hx).
  apply filter_In in Hx as [_ Hx]. apply negb_true_iff, Z.eqb_neq in Hx. congruence.
Qed.

Lemma set_notifications_same u l s :
  notifications s !! u = Some l -> set_notifications u l s = s.
Proof.
  intros H. unfold set_notifications. rewrite (insert_id _ _ _ H). destruct s; reflexivity.
Qed.

Lemma delete_notification_run u i w :
  delete_notification u i w =
  match notifications (svc w) !! u with
  | None => (Ok false, w)
  | Some l =>
      (Ok (existsb (fun n => negb (negb (n_id n =? i))) l),
       {| svc := set_notifications u (List.filter (fun n => negb (n_id n =? i)) l) (svc w);
          ticks := ticks w; delivered := delivered w |})
  end.
Proof.
  unfold delete_notification. run_m.
  destruct (notifications (svc w) !! u) as [l|]; [|reflexivity].
  rewrite filter_length_lt. reflexivity.
Qed.

Lemma delete_notification_user_list u i w :
  user_list (svc (delete_notification u i w).2) u =
  List.filter (fun n => negb (n_id n =? i)) (user_list (svc w) u).
Proof.
  rewrite delete_notification_run. unfold user_list.
  destruct (notifications (svc w) !! u) as [l|] eqn:Hu; simpl.
  - rewrite lookup_insert_eq. reflexivity.
  - rewrite Hu. reflexivity.
Qed.

Lemma delete_notification_absent u i w :
  ~ In i (stored_ids w u) -> delete_notification u i w = (Ok false, w).
Proof.
  unfold stored_ids, user_list. intros Hnot. rewrite delete_notification_run.
  destruct (notifications (svc w) !! u) as [l|] eqn:Hu; [|reflexivity]. simpl in Hnot.
  rewrite (filter_id_absent _ _ Hnot), (set_notifications_same _ _ _ Hu).
  destruct (existsb _ l) eqn:He.
  - apply existsb_id_In in He. contradiction.
  - destruct w; reflexivity.
Qed.

Lemma delete_notification_present u i w :
  In i (stored_ids w u) -> (delete_notification u i w).1 = Ok true.
Proof.
  unfold stored_ids, user_list. intros Hin. rewrite delete_notification_run.
  destruct (notifications (svc w) !! u) as [l|] eqn:Hu; [|contradiction]. simpl in *.
  apply existsb_id_In in Hin. rewrite Hin. reflexivity.
Qed.

(** X3.  [delete_notification] returns true exactly when the id is stored
    for the user; it removes every notification of the user with that id and
    keeps the others in their order; when it returns false the world is
    unchanged.  The other users' collections, the id counter and the
    listeners are unchanged in every case. *)
Theorem delete_notification_removes_the_id u i w :
  (In i (stored_ids w u) -> (delete_notification u i w).1 = Ok true) /\
  (~ In i (stored_ids w u) -> delete_notification u i w = (Ok false, w)) /\
  user_list (svc (delete_notification u i w).2) u =
    List.filter (fun n => negb (n_id n =? i)) (user_list (svc w) u) /\
  ~ In i (stored_ids (delete_notification u i w).2 u) /\
  (forall u', u' <> u ->
     notifications (svc (delete_notification u i w).2) !! u' = notifications (svc w) !! u') /\
  notification_id_counter (svc (delete_notification u i w).2) =
    notification_id_counter (svc w) /\
  listeners (svc (delete_notification u i w).2) = listeners (svc w).
Proof.
  split; [apply delete_notification_present|].
  split; [apply delete_notification_absent|].
  split; [apply delete_notification_user_list|].
  split; [unfold stored_ids; rewrite delete_notification_user_list; apply filter_id_removed|].
  rewrite delete_notification_run.
  destruct (notifications (svc w) !! u) as [l|]; simpl; repeat split; try reflexivity.
  intros u' Hne. apply lookup_insert_ne. congruence.
Qed.

(** X4.  After [delete_notification] for a user and an id, whatever it
    returned, a second deletion of the id returns false and changes nothing,
    and [mark_as_read] for the id returns false and changes nothing. *)
Theorem deleted_id_is_gone u i w :
  delete_notification u i (delete_notification u i w).2 =
    (Ok false, (delete_notification u i w).2) /\
  mark_as_read clock u i (delete_notification u i w).2 =
    (Ok false, (delete_notification u i w).2).
Proof.
  assert (Hgone : ~ In i (stored_ids (delete_notification u i w).2 u)).
  { unfold stored_ids. rewrite delete_notification_user_list. apply filter_id_removed. }
  split; [apply delete_notification_absent|apply mark_as_read_missing]; exact Hgone.
Qed.

(** ** Counting and listing *)

Lemma unread_of_filters l c pf :
  unread_of l c pf =
  Z.of_nat (length (List.filter (satisfies_filters c true (effective_priority_filter pf)) l)).
Proof.
  unfold unread_of. f_equal. f_equal.
  transitivity
    (List.filter
       (fun n => match effective_priority_filter pf with
                 | Some ps => in_values (n_priority n) (map priority_value ps)
                 | None => true
                 end)
       (List.filter
          (fun n => match c with
                    | Some c0 => String.eqb (n_category n) (category_value c0)
                    | None => true
                    end)
          (List.filter (fun n => negb (n_read n)) l))).
  - destruct c, pf as [[|p ps]|]; simpl; rewrite ?filter_true; reflexivity.
  - rewrite !filter_both. apply filter_ext. intros n. unfold satisfies_filters.
    destruct (negb (n_read n)); simpl; rewrite ?andb_true_r, ?andb_false_r; reflexivity.
Qed.

Lemma slice_to_all {A} (l : list A) limit :
  Z.of_nat (length l) <= limit -> slice_to l limit = l.
Proof.
  intros H. unfold slice_to. assert (Hpos : 0 <= limit) by lia.
  apply Z.leb_le in Hpos. rewrite Hpos. apply firstn_all2. lia.
Qed.

Lemma sorted_by_key_length l : length (sorted_by_key l) = length l.
Proof. apply Permutation_length, sorted_by_key_perm. Qed.

(** X5.  [get_unread_count] counts what [get_recent_notifications] lists
    with [unread_only] and the same category and priority filters: for a
    limit that is at least the number of the user's notifications, the count
    is the length of that listing. *)
Theorem unread_count_is_length_of_unread_listing u limit c pf w :
  Z.of_nat (length (user_list (svc w) u)) <= limit ->
  exists listing,
    (get_recent_notifications u limit c true pf w).1 = Ok listing /\
    (get_unread_count u c pf w).1 = Ok (Z.of_nat (length listing)).
Proof.
  intros Hlimit. eexists. split; [reflexivity|].
  unfold get_unread_count, get_recent_notifications. run_m.
  rewrite unread_of_filters, recent_of_filters, slice_to_all, sorted_by_key_length;
    [reflexivity|].
  rewrite sorted_by_key_length.
  pose proof (List.filter_length_le
                (satisfies_filters c true (effective_priority_filter pf))
                (user_list (svc w) u)).
  lia.
Qed.

(** X6.  For a limit that is not negative, [get_recent_notifications]
    returns as many notifications as satisfy the filters in effect, up to the
    limit: the length of the listing is the smaller of the two numbers. *)
Theorem recent_length_is_bounded_by_limit u limit c r pf w :
  0 <= limit ->
  exists listing,
    (get_recent_notifications u limit c r pf w).1 = Ok listing /\
    length listing =
      Nat.min (Z.to_nat limit)
        (length (List.filter (satisfies_filters c r (effective_priority_filter pf))
                   (user_list (svc w) u))).
Proof.
  intros Hlimit. eexists. split; [reflexivity|].
  rewrite recent_of_filters. unfold slice_to.
  apply Z.leb_le in Hlimit. rewrite Hlimit.
  rewrite length_firstn, sorted_by_key_length. reflexivity.
Qed.

Lemma satisfies_filters_read c pf x t :
  satisfies_filters c true pf (set_read x t) = false.
Proof.
  unfold satisfies_filters. simpl. rewrite andb_false_r. reflexivity.
Qed.

Lemma unread_of_replace l1 x t l2 c pf :
  unread_of (l1 ++ set_read x t :: l2) c pf =
  unread_of (l1 ++ x :: l2) c pf -
  (if satisfies_filters c true (effective_priority_filter pf) x then 1 else 0).
Proof.
  rewrite !unread_of_filters, !List.filter_app, !length_app. simpl.
  rewrite satisfies_filters_read.
  destruct (satisfies_filters c true (effective_priority_filter pf) x); simpl; lia.
Qed.

(** X7.  When [mark_as_read] finds a notification for the id, the unread
    count of the user, under any category and priority filter, drops by one
    if the notification found was unread and matches the filter, and is
    unchanged otherwise; when it finds none, the count is unchanged. *)
Theorem mark_as_read_lowers_unread_count u i c pf w :
  (forall x, stored w u i = Some x ->
     (get_unread_count u c pf (mark_as_read clock u i w).2).1 =
       Ok (unread_of (user_list (svc w) u) c pf -
           (if satisfies_filters c true (effective_priority_filter pf) x then 1 else 0))) /\
  (stored w u i = None ->
     (get_unread_count u c pf (mark_as_read clock u i w).2).1 =
       (get_unread_count u c pf w).1).
Proof.
  unfold stored. rewrite mark_as_read_eq.
  destruct (find_id i (user_list (svc w) u)) as [[k y]|] eqn:Hf; simpl;
    split; try discriminate; try reflexivity.
  intros x [= ->].
  destruct (find_id_Some _ _ _ _ Hf) as (_ & l1 & l2 & Hl & Hlen & _).
  unfold get_unread_count. run_m.
  destruct (n_read x) eqn:Hread.
  - simpl. unfold satisfies_filters. rewrite Hread. simpl.
    rewrite andb_false_r. simpl. f_equal. lia.
  - simpl. unfold user_list at 1. simpl. rewrite lookup_insert_eq. simpl.
    rewrite Hl, <- Hlen, insert_middle, unread_of_replace. reflexivity.
Qed.

(** ** Statistics *)

Lemma count_fold_lookup (f : Notification -> string) l (acc : gmap string Z) k :
  fold_left (fun acc n => count_key acc (f n)) l acc !! k =
  if occurrences f k l =? 0 then acc !! k
  else Some (default 0 (acc !! k) + occurrences f k l).
Proof.
  revert acc. unfold occurrences. induction l as [|x l IH]; intros acc; [reflexivity|].
  cbn [fold_left List.filter]. rewrite IH. unfold count_key.
  set (c := length (List.filter (fun n => String.eqb (f n) k) l)).
  destruct (String.eqb_spec (f x) k) as [Heq|Hne].
  - rewrite Heq, lookup_insert_eq. cbn [length default]. fold c.
    destruct (Z.eqb_spec (Z.of_nat c) 0); destruct (Z.eqb_spec (Z.of_nat (S c)) 0);
      try lia; f_equal; cbv [id]; lia.
  - rewrite lookup_insert_ne by congruence. reflexivity.
Qed.

(** X8.  [get_notification_stats] never changes the world; its [total] is
    the number of notifications stored for the user, its [unread] is what
    [get_unread_count] without filters returns, and its [categories] and
    [priorities] map each category and each priority string to the number of
    the user's notifications that carry it, leaving out the strings that none
    carries. *)
Theorem stats_count_the_collection u w :
  exists s,
    get_notification_stats u w = (Ok s, w) /\
    total s = Z.of_nat (length (user_list (svc w) u)) /\
    Ok (unread s) = (get_unread_count u None None w).1 /\
    (forall k, categories s !! k =
               count_entry (occurrences n_category k (user_list (svc w) u))) /\
    (forall k, priorities s !! k =
               count_entry (occurrences n_priority k (user_list (svc w) u))).
Proof.
  exists (stats_of (user_list (svc w) u)). split; [reflexivity|].
  split; [reflexivity|]. split; [reflexivity|].
  split; intros k; unfold stats_of; simpl; rewrite count_fold_lookup, lookup_empty;
    unfold count_entry; destruct (_ =? 0); reflexivity.
Qed.

(** ** Listener registration *)

Lemma add_listener_run u cb w :
  add_listener u cb w =
  (Ok tt,
   {| svc := set_listeners u (registered w u ++ [cb])%list (svc w);
      ticks := ticks w; delivered := delivered w |}).
Proof.
  unfold add_listener, registered. run_m.
  destruct (listeners (svc w) !! u) as [cbs|] eqn:Hu; simpl.
  - rewrite Hu. reflexivity.
  - rewrite lookup_insert_eq. unfold set_listeners. simpl.
    rewrite insert_insert_eq. reflexivity.
Qed.

Lemma remove_listener_run u cb w :
  remove_listener u cb w =
  (Ok tt,
   match listeners (svc w) !! u with
   | Some cbs =>
       {| svc := set_listeners u (List.filter (fun cb' => negb (Nat.eqb cb' cb)) cbs) (svc w);
          ticks := ticks w; delivered := delivered w |}
   | None => w
   end).
Proof.
  unfold remove_listener. run_m.
  destruct (listeners (svc w) !! u); reflexivity.
Qed.

Lemma registered_add u cb w u' :
  registered (add_listener u cb w).2 u' =
  if decide (u = u') then (registered w u ++ [cb])%list else registered w u'.
Proof.
  rewrite add_listener_run. unfold registered at 1. simpl.
  rewrite lookup_insert. destruct (decide (u = u')); reflexivity.
Qed.

Lemma registered_remove u cb w u' :
  registered (remove_listener u cb w).2 u' =
  if decide (u = u')
  then List.filter (fun cb' => negb (Nat.eqb cb' cb)) (registered w u)
  else registered w u'.
Proof.
  unfold registered, remove_listener. run_m. unfold Callback.
  destruct (decide (u = u')) as [<-|Hne];
    match goal with
    | |- context [match ?o with Some _ => _ | None => _ end] => destruct o eqn:Hu
    end;
    simpl; rewrite ?lookup_insert_eq, ?lookup_insert_ne, ?Hu by exact Hne; reflexivity.
Qed.

Lemma filter_callback_absent cb cbs :
  ~ In cb cbs -> List.filter (fun cb' => negb (Nat.eqb cb' cb)) cbs = cbs.
Proof.
  induction cbs as [|x cbs IH]; simpl; [reflexivity|].
  intros Hnot. destruct (Nat.eqb_spec x cb) as [->|Hne]; simpl.
  - exfalso. apply Hnot. left. reflexivity.
  - rewrite IH; [reflexivity|]. intros Hin. apply Hnot. right. exact Hin.
Qed.

Lemma filter_callback_removed cb cbs :
  ~ In cb (List.filter (fun cb' => negb (Nat.eqb cb' cb)) cbs).
Proof.
  intros Hin. apply filter_In in Hin as [_ Hne].
  rewrite Nat.eqb_refl in Hne. discriminate.
Qed.

(** X9.  [add_listener] appends the callback to the user's listeners, also
    when it is registered already; [remove_listener] removes every
    registration of the callback for the user and keeps the others in their
    order; removing a callback that is not registered leaves the user's
    listeners as they were, and removing right after adding gives back the
    listeners from before the addition when the callback was not among them.
    Neither touches the listeners of another user. *)
Theorem listener_registration u cb w :
  registered (add_listener u cb w).2 u = (registered w u ++ [cb])%list /\
  registered (remove_listener u cb w).2 u =
    List.filter (fun cb' => negb (Nat.eqb cb' cb)) (registered w u) /\
  ~ In cb (registered (remove_listener u cb w).2 u) /\
  (~ In cb (registered w u) ->
     registered (remove_listener u cb w).2 u = registered w u /\
     registered (remove_listener u cb (add_listener u cb w).2).2 u = registered w u) /\
  (forall u', u' <> u ->
     registered (add_listener u cb w).2 u' = registered w u' /\
     registered (remove_listener u cb w).2 u' = registered w u').
Proof.
  split; [|split; [|split; [|split]]].
  - rewrite registered_add. destruct (decide (u = u)); [reflexivity|congruence].
  - rewrite registered_remove. destruct (decide (u = u)); [reflexivity|congruence].
  - rewrite registered_remove. destruct (decide (u = u)); [|congruence].
    apply filter_callback_removed.
  - intros Hnot. rewrite !registered_remove, registered_add.
    destruct (decide (u = u)); [|congruence]. split.
    + apply filter_callback_absent. exact Hnot.
    + rewrite List.filter_app. simpl. rewrite Nat.eqb_refl. simpl.
      rewrite app_nil_r. apply filter_callback_absent. exact Hnot.
  - intros u' Hne. rewrite registered_add, registered_remove.
    destruct (decide (u = u')); [congruence|]. split; reflexivity.
Qed.

Lemma prunable_same_notifications w w' u :
  notifications (svc w') = notifications (svc w) -> prunable w' u = prunable w u.
Proof. unfold prunable, user_list. intros ->. reflexivity. Qed.

Lemma create_delivered_awaitables u m l t c p d e w :
  prunable w u = true ->
  forallb (returns_awaitable listener (created clock w u m l t c p d e)) (registered w u)
    = true ->
  delivered (create_notification clock listener u m l t c p d e w).2 =
    (delivered w ++ map (fun cb => (cb, created clock w u m l t c p d e))
                      (registered w u))%list.
Proof.
  intros H Hawait. rewrite (create_eq _ _ _ _ _ _ _ _ _ H).
  rewrite (notify_listeners_awaitables u (created clock w u m l t c p d e)
             (appended clock w u m l t c p d e) Hawait).
  reflexivity.
Qed.

Lemma created_same w w' u m l t c p d e :
  notification_id_counter (svc w') = notification_id_counter (svc w) ->
  ticks w' = ticks w ->
  created clock w' u m l t c p d e = created clock w u m l t c p d e.
Proof. unfold created. intros -> ->. reflexivity. Qed.

Lemma add_listener_frame u cb w :
  notification_id_counter (svc (add_listener u cb w).2) = notification_id_counter (svc w) /\
  ticks (add_listener u cb w).2 = ticks w /\
  delivered (add_listener u cb w).2 = delivered w.
Proof. rewrite add_listener_run. repeat split; reflexivity. Qed.

Lemma remove_listener_frame u cb w :
  notification_id_counter (svc (remove_listener u cb w).2) = notification_id_counter (svc w) /\
  ticks (remove_listener u cb w).2 = ticks w /\
  delivered (remove_listener u cb w).2 = delivered w.
Proof.
  rewrite remove_listener_run. destruct (listeners (svc w) !! u); repeat split; reflexivity.
Qed.

(** X10.  When the pruning of the user's list can run and every callback
    registered for the user is a coroutine function (calling it returns an
    awaitable), a creation for the user right after [add_listener] runs
    the added callback last, after the listeners
    registered before, on the notification it builds, and returns that
    notification when they all finish.  A creation right after
    [remove_listener] never runs the removed callback, whatever the
    callbacks do: it runs none but the user's other listeners, and all of
    them, in their order, when they are coroutine functions. *)
Theorem creation_follows_the_registration u cb m l t c p d e w :
  prunable w u = true ->
  let n := created clock w u m l t c p d e in
  (forallb (returns_awaitable listener n) (registered w u ++ [cb]) = true ->
   delivered (create_notification clock listener u m l t c p d e (add_listener u cb w).2).2 =
     (delivered w ++ map (fun cb' => (cb', n)) (registered w u) ++ [(cb, n)])%list /\
   (forallb (finishes listener n) (registered w u ++ [cb]) = true ->
    (create_notification clock listener u m l t c p d e (add_listener u cb w).2).1 = Ok n)) /\
  (exists run,
     delivered (create_notification clock listener u m l t c p d e (remove_listener u cb w).2).2 =
       (delivered w ++ map (fun cb' => (cb', n)) run)%list /\
     incl run (List.filter (fun cb' => negb (Nat.eqb cb' cb)) (registered w u)) /\
     ~ In cb run) /\
  (forallb (returns_awaitable listener n)
     (List.filter (fun cb' => negb (Nat.eqb cb' cb)) (registered w u)) = true ->
   delivered (create_notification clock listener u m l t c p d e (remove_listener u cb w).2).2 =
     (delivered w ++
      map (fun cb' => (cb', n))
        (List.filter (fun cb' => negb (Nat.eqb cb' cb)) (registered w u)))%list).
Proof.
  intros H n.
  destruct (add_listener_frame u cb w) as (Hca & Hta & Hda).
  destruct (remove_listener_frame u cb w) as (Hcr & Htr & Hdr).
  assert (Hna : created clock (add_listener u cb w).2 u m l t c p d e = n)
    by (apply created_same; assumption).
  assert (Hnr : created clock (remove_listener u cb w).2 u m l t c p d e = n)
    by (apply created_same; assumption).
  assert (Hra : registered (add_listener u cb w).2 u = (registered w u ++ [cb])%list).
  { rewrite registered_add. destruct (decide (u = u)); [reflexivity|congruence]. }
  assert (Hrr : registered (remove_listener u cb w).2 u =
                List.filter (fun cb' => negb (Nat.eqb cb' cb)) (registered w u)).
  { rewrite registered_remove. destruct (decide (u = u)); [reflexivity|congruence]. }
  assert (H1 : prunable (add_listener u cb w).2 u = true).
  { rewrite (prunable_same_notifications w); [exact H|]. apply add_listener_service. }
  assert (H2 : prunable (remove_listener u cb w).2 u = true).
  { rewrite (prunable_same_notifications w); [exact H|]. apply remove_listener_service. }
  split; [|split].
  - intros Hawait. split.
    + rewrite create_delivered_awaitables; [|exact H1|rewrite Hna, Hra; exact Hawait].
      rewrite Hna, Hra, Hda, map_app. reflexivity.
    + intros Hfin. rewrite <- Hna. apply create_returns; [exact H1|].
      rewrite Hna, Hra. exact Hfin.
  - destruct (create_world u m l t c p d e _ H2) as (run & Hrun & Hincl).
    rewrite Hrr in Hincl. exists run. split; [|split].
    + rewrite Hrun, Hnr. cbn [delivered recorded appended]. rewrite Hdr. reflexivity.
    + exact Hincl.
    + intros Hin. exact (filter_callback_removed _ _ (Hincl _ Hin)).
  - intros Hawait.
    rewrite create_delivered_awaitables; [|exact H2|rewrite Hnr, Hrr; exact Hawait].
    rewrite Hnr, Hrr, Hdr. reflexivity.
Qed.

(** ** Well-kept collections *)

Lemma well_kept_weaken c c' u l : c <= c' -> well_kept c u l -> well_kept c' u l.
Proof.
  intros Hc [Hs Hf]. split; [exact Hs|].
  eapply Forall_impl; [exact Hf|]. intros n (Hid & Hrest). split; [lia|exact Hrest].
Qed.

Lemma sorted_ids_filter (p : Notification -> bool) l :
  StronglySorted Z.lt (map n_id l) -> StronglySorted Z.lt (map n_id (List.filter p l)).
Proof.
  induction l as [|x l IH]; simpl; intros Hs; [constructor|].
  apply StronglySorted_inv in Hs as [Hl Hx].
  destruct (p x); simpl; [|exact (IH Hl)].
  constructor; [exact (IH Hl)|].
  rewrite List.Forall_forall in *. intros i Hi. apply Hx.
  apply in_map_iff in Hi as (y & <- & Hy). apply filter_In in Hy as [Hy _].
  apply in_map. exact Hy.
Qed.

Lemma well_kept_filter (p : Notification -> bool) c u l :
  well_kept c u l -> well_kept c u (List.filter p l).
Proof.
  intros [Hs Hf]. split; [apply sorted_ids_filter; exact Hs|].
  rewrite List.Forall_forall in *. intros n Hn. apply filter_In in Hn as [Hn _]. exact (Hf n Hn).
Qed.

Lemma sorted_ids_snoc l x :
  StronglySorted Z.lt (map n_id l) ->
  Forall (fun n => n_id n < n_id x) l ->
  StronglySorted Z.lt (map n_id (l ++ [x])).
Proof.
  induction l as [|y l IH]; simpl; intros Hs Hlt; [repeat constructor|].
  apply StronglySorted_inv in Hs as [Hl Hy].
  apply Forall_cons_1 in Hlt as [Hyx Hlt].
  constructor; [exact (IH Hl Hlt)|].
  rewrite map_app. apply Forall_app. split; [exact Hy|]. repeat constructor. exact Hyx.
Qed.

Lemma title_or_not_empty t l c : title_or t (_generate_title l c) <> "".
Proof.
  destruct t as [[|a s]|]; simpl; try discriminate;
    destruct c as [[]|]; discriminate.
Qed.

Lemma well_kept_created w u m l t c p d e old :
  1 <= notification_id_counter (svc w) ->
  well_kept (notification_id_counter (svc w)) u old ->
  well_kept (notification_id_counter (svc w) + 1) u
    (old ++ [created clock w u m l t c p d e]).
Proof.
  intros Hc [Hs Hf]. split.
  - apply sorted_ids_snoc; [exact Hs|].
    eapply Forall_impl; [exact Hf|]. intros n (Hid & _). simpl. lia.
  - apply Forall_app. split.
    + eapply Forall_impl; [exact Hf|]. intros n (Hid & Hrest). split; [lia|exact Hrest].
    + repeat constructor; simpl; try lia; try discriminate.
      * destruct c as [c0|]; [exists c0|exists SYSTEM]; reflexivity.
      * exists p. reflexivity.
      * apply title_or_not_empty.
Qed.

Lemma user_list_lookup w w' u :
  notifications (svc w') !! u = notifications (svc w) !! u ->
  user_list (svc w') u = user_list (svc w) u.
Proof. unfold user_list. intros ->. reflexivity. Qed.

Lemma create_well_formed u m l t c p d e w :
  well_formed w -> well_formed (create_notification clock listener u m l t c p d e w).2.
Proof.
  intros [Hc Hw]. split; [rewrite create_counter; lia|].
  intros u'. rewrite create_counter. destruct (Z.eq_dec u' u) as [->|Hne].
  - destruct (prunable w u) eqn:H.
    + rewrite (create_user_list_ok _ _ _ _ _ _ _ _ _ H).
      apply well_kept_created; [exact Hc|]. apply well_kept_filter, Hw.
    + rewrite (create_user_list_raise _ _ _ _ _ _ _ _ _ H).
      apply (well_kept_weaken (notification_id_counter (svc w))); [lia|apply Hw].
  - rewrite (user_list_lookup w) by (apply create_other_user; exact Hne).
    apply (well_kept_weaken (notification_id_counter (svc w))); [lia|apply Hw].
Qed.

Lemma broadcast_well_formed us m l t c p d w :
  well_formed w -> well_formed (gather (broadcast_tasks clock listener us m l t c p d) w).2.
Proof.
  revert w. induction us as [|u us IH]; intros w H; [exact H|].
  rewrite broadcast_tasks_cons, gather_cons_world.
  apply IH, create_well_formed, H.
Qed.

Lemma well_kept_set_read c u x t :
  well_kept_notification c u x -> well_kept_notification c u (set_read x t).
Proof.
  intros (Hid & Hu & _ & Hc & Hp & Ht). repeat split; try assumption; simpl; try lia;
    discriminate.
Qed.

Lemma well_kept_bulk_marked cat t0 t1 c u l l' :
  Forall2 (bulk_marked clock cat t0 t1) l l' -> well_kept c u l -> well_kept c u l'.
Proof.
  intros HF [Hs Hf].
  assert (Hids : map n_id l' = map n_id l).
  { clear Hs Hf. induction HF as [|x x' l l' Hx _ IH]; [reflexivity|].
    simpl. rewrite IH. f_equal. unfold bulk_marked in Hx.
    destruct (selected cat x); [destruct Hx as (k & _ & ->)|subst x']; reflexivity. }
  split; [rewrite Hids; exact Hs|].
  clear Hs Hids. induction HF as [|x x' l l' Hx _ IH]; [constructor|].
  apply Forall_cons_1 in Hf as [Hx0 Hf]. constructor; [|exact (IH Hf)].
  unfold bulk_marked in Hx.
  destruct (selected cat x); [destruct Hx as (k & _ & ->)|subst x'];
    [apply well_kept_set_read|]; exact Hx0.
Qed.

Lemma well_formed_set u l' w t' dl :
  well_formed w ->
  well_kept (notification_id_counter (svc w)) u l' ->
  well_formed {| svc := set_notifications u l' (svc w); ticks := t'; delivered := dl |}.
Proof.
  intros [Hc Hw] Hl'. split; [exact Hc|]. intros u'. simpl.
  unfold user_list. simpl. rewrite lookup_insert.
  destruct (decide (u = u')) as [<-|]; [exact Hl'|apply Hw].
Qed.

Lemma well_formed_same w w' :
  notifications (svc w') = notifications (svc w) ->
  notification_id_counter (svc w') = notification_id_counter (svc w) ->
  well_formed w -> well_formed w'.
Proof.
  unfold well_formed, user_list. intros -> ->. exact (fun H => H).
Qed.

Lemma exec_well_formed op w : well_formed w -> well_formed (exec clock listener op w).
Proof.
  destruct op; simpl; intros H.
  - apply create_well_formed, H.
  - exact H.
  - rewrite mark_as_read_eq.
    destruct (find_id notification_id (user_list (svc w) user_id)) as [[k x]|] eqn:Hf;
      [|exact H].
    destruct (n_read x); [exact H|]. cbn [snd].
    destruct (find_id_Some _ _ _ _ Hf) as (_ & l1 & l2 & Hl & Hlen & _).
    apply well_formed_set; [exact H|].
    destruct H as [_ Hw]. specialize (Hw user_id). rewrite Hl in *.
    rewrite <- Hlen, insert_middle. destruct Hw as [Hs Hall]. split.
    + rewrite map_app in *. exact Hs.
    + apply Forall_app in Hall as [H1 H2]. apply Forall_cons_1 in H2 as [Hx H2].
      apply Forall_app. split; [exact H1|]. constructor; [|exact H2].
      apply well_kept_set_read, Hx.
  - destruct (mark_all_as_read_run user_id category w) as (l' & -> & Hl'). cbn [snd].
    destruct (notifications (svc w) !! user_id) as [l0|] eqn:Hu; [|exact H].
    apply well_formed_set; [exact H|].
    eapply well_kept_bulk_marked; [exact Hl'|]. apply H.
  - rewrite delete_notification_run.
    destruct (notifications (svc w) !! user_id) as [l0|] eqn:Hu; [|exact H]. cbn [snd].
    apply well_formed_set; [exact H|].
    destruct H as [_ Hw]. specialize (Hw user_id). unfold user_list in Hw.
    rewrite Hu in Hw. apply well_kept_filter, Hw.
  - exact H.
  - rewrite broadcast_world. apply broadcast_well_formed, H.
  - revert H. apply well_formed_same; apply add_listener_service.
  - revert H. apply well_formed_same; apply remove_listener_service.
  - exact H.
Qed.

Lemma reachable_well_formed w : reachable clock listener w -> well_formed w.
Proof.
  induction 1 as [|w op _ IH]; [|apply exec_well_formed, IH].
  split; [simpl; lia|]. intros u. split; constructor.
Qed.

(** X11.  In every world that the service reaches, every stored
    notification has [read_at] set exactly when [read] is true. *)
Theorem read_at_is_set_exactly_when_read w u n :
  reachable clock listener w ->
  In n (user_list (svc w) u) ->
  (n_read_at n = None <-> n_read n = false).
Proof.
  intros Hw Hn. destruct (reachable_well_formed w Hw) as [_ Hkept].
  destruct (Hkept u) as [_ Hall]. rewrite List.Forall_forall in Hall.
  apply (Hall n Hn).
Qed.

(** X12.  In every world that the service reaches, the ids stored for a
    user increase strictly along the user's list, so that no id is stored
    twice; every stored notification is stored under its own [user_id], and
    its id is at least 1 and below the counter. *)
Theorem stored_ids_are_unique_and_owned w u :
  reachable clock listener w ->
  StronglySorted Z.lt (stored_ids w u) /\
  List.NoDup (stored_ids w u) /\
  (forall n, In n (user_list (svc w) u) ->
             n_user_id n = u /\ 1 <= n_id n < notification_id_counter (svc w)).
Proof.
  intros Hw. destruct (reachable_well_formed w Hw) as [_ Hkept].
  destruct (Hkept u) as [Hsorted Hall]. rewrite List.Forall_forall in Hall.
  split; [exact Hsorted|]. split; [apply strictly_sorted_NoDup; exact Hsorted|].
  intros n Hn. destruct (Hall n Hn) as (Hid & Hu & _). split; assumption.
Qed.

(** X13.  In every world that the service reaches, the category and the
    priority of every stored notification are values of the enumerations,
    so that the fallback rank of the listing order is never used: the rank
    of a stored priority is its position among low, medium, high, urgent. *)
Theorem stored_enums_are_enumerated w u n :
  reachable clock listener w ->
  In n (user_list (svc w) u) ->
  (exists c, n_category n = category_value c) /\
  (exists p, n_priority n = priority_value p /\
             priority_order (n_priority n) =
               match p with LOW => 0 | MEDIUM => 1 | HIGH => 2 | URGENT => 3 end).
Proof.
  intros Hw Hn. destruct (reachable_well_formed w Hw) as [_ Hkept].
  destruct (Hkept u) as [_ Hall]. rewrite List.Forall_forall in Hall.
  destruct (Hall n Hn) as (_ & _ & _ & Hc & (p & Hp) & _).
  split; [exact Hc|]. exists p. split; [exact Hp|]. rewrite Hp. destruct p; reflexivity.
Qed.

Lemma filter_unique_id i l :
  List.NoDup (map n_id l) -> In i (map n_id l) ->
  S (length (List.filter (fun n => negb (n_id n =? i)) l)) = length l.
Proof.
  induction l as [|x l IH]; simpl; intros Hnd Hin; [contradiction|].
  apply NoDup_cons_iff in Hnd as [Hx Hnd].
  destruct (Z.eqb_spec (n_id x) i) as [Heq|Hne]; simpl.
  - rewrite filter_id_absent; [lia|]. rewrite <- Heq. exact Hx.
  - destruct Hin as [Hin|Hin]; [contradiction|]. rewrite <- (IH Hnd Hin). lia.
Qed.

(** X14.  In every world that the service reaches, a deletion that returns
    true removes exactly one notification: the [total] of the user's
    statistics drops by one. *)
Theorem delete_removes_exactly_one u i w :
  reachable clock listener w ->
  (delete_notification u i w).1 = Ok true ->
  exists s s',
    (get_notification_stats u w).1 = Ok s /\
    (get_notification_stats u (delete_notification u i w).2).1 = Ok s' /\
    total s' = total s - 1.
Proof.
  intros Hw Hdel.
  assert (Hin : In i (stored_ids w u)).
  { destruct (in_dec Z.eq_dec i (stored_ids w u)) as [Hin|Hnot]; [exact Hin|].
    rewrite (delete_notification_absent _ _ _ Hnot) in Hdel. discriminate. }
  destruct (reachable_well_formed w Hw) as [_ Hkept].
  destruct (Hkept u) as [Hsorted _]. apply strictly_sorted_NoDup in Hsorted.
  do 2 eexists. split; [reflexivity|]. split; [reflexivity|].
  cbn [total stats_of]. rewrite delete_notification_user_list.
  pose proof (filter_unique_id i _ Hsorted Hin). lia.
Qed.

(** ** Failing creations *)

(** X15.  When the user's list holds a notification whose expiry is a naive
    datetime, [create_notification] for that user raises [TypeError] from
    its pruning step, for any arguments: nothing is appended or pruned, no
    listener is awaited and the listeners stay registered, but the id
    counter has advanced by one (and three clock readings were taken); the
    user's list still cannot be pruned afterwards. *)
Theorem failed_creation_consumes_an_id u m l t c p d e w :
  prunable w u = false ->
  (create_notification clock listener u m l t c p d e w).1 = Raise TypeError /\
  notifications (svc (create_notification clock listener u m l t c p d e w).2) =
    notifications (svc w) /\
  listeners (svc (create_notification clock listener u m l t c p d e w).2) =
    listeners (svc w) /\
  delivered (create_notification clock listener u m l t c p d e w).2 = delivered w /\
  notification_id_counter (svc (create_notification clock listener u m l t c p d e w).2) =
    notification_id_counter (svc w) + 1 /\
  ticks (create_notification clock listener u m l t c p d e w).2 = S (S (S (ticks w))) /\
  prunable (create_notification clock listener u m l t c p d e w).2 u = false.
Proof.
  intros H. rewrite (create_raise _ _ _ _ _ _ _ _ _ H). repeat split. exact H.
Qed.

Lemma forallb_snoc {A} (p : A -> bool) l x :
  forallb p (l ++ [x]) = forallb p l && p x.
Proof. rewrite forallb_app. simpl. rewrite andb_true_r. reflexivity. Qed.

(** X16.  A creation whose [expires_at] is a naive datetime is accepted when
    the user's list can be pruned: the notification is stored, and returned
    when the listeners finish.  As long as that notification is stored for
    the user, the list cannot be pruned and every creation for the user
    raises [TypeError] and leaves the notification stored; so does the very
    next creation.  Deleting the notification makes the list prunable
    again. *)
Theorem naive_expiry_is_accepted_then_blocks u m l t c p d e w :
  prunable w u = true ->
  dt_offset e = None ->
  exists n,
    (forall n', (create_notification clock listener u m l t c p d (Some e) w).1 = Ok n' ->
                n' = n) /\
    (forallb (finishes listener n) (registered w u) = true ->
     (create_notification clock listener u m l t c p d (Some e) w).1 = Ok n) /\
    n_expires_at n = Some e /\
    In n (user_list (svc (create_notification clock listener u m l t c p d (Some e) w).2) u) /\
    (forall w', In n (user_list (svc w') u) ->
       forall m' l' t' c' p' d' e',
         (create_notification clock listener u m' l' t' c' p' d' e' w').1 = Raise TypeError /\
         In n (user_list
                 (svc (create_notification clock listener u m' l' t' c' p' d' e' w').2) u)) /\
    (forall m' l' t' c' p' d' e',
      (create_notification clock listener u m' l' t' c' p' d' e'
         (create_notification clock listener u m l t c p d (Some e) w).2).1 = Raise TypeError) /\
    (delete_notification u (n_id n)
       (create_notification clock listener u m l t c p d (Some e) w).2).1 = Ok true /\
    prunable
      (delete_notification u (n_id n)
         (create_notification clock listener u m l t c p d (Some e) w).2).2 u = true.
Proof.
  intros H He. exists (created clock w u m l t c p d (Some e)).
  set (n := created clock w u m l t c p d (Some e)).
  pose proof (create_user_list_ok u m l t c p d (Some e) w H) as Hlist. fold n in Hlist.
  assert (Hstored :
    In n (user_list (svc (create_notification clock listener u m l t c p d (Some e) w).2) u))
    by (rewrite Hlist; apply in_or_app; right; left; reflexivity).
  assert (Hblocks : forall w', In n (user_list (svc w') u) -> prunable w' u = false).
  { intros w' Hin. unfold prunable.
    destruct (forallb aware_expiry (user_list (svc w') u)) eqn:Hall; [|reflexivity].
    rewrite forallb_forall in Hall. specialize (Hall n Hin).
    unfold aware_expiry, n in Hall. simpl in Hall. rewrite He in Hall. discriminate. }
  split; [intros n' Hn'; exact (proj1 (create_returned _ _ _ _ _ _ _ _ _ _ Hn'))|].
  split; [apply create_returns; exact H|].
  split; [reflexivity|]. split; [exact Hstored|]. split; [|split; [|split]].
  - intros w' Hin m' l' t' c' p' d' e'.
    rewrite (create_raise _ _ _ _ _ _ _ _ _ (Hblocks w' Hin)). split; [reflexivity|exact Hin].
  - intros m' l' t' c' p' d' e'.
    rewrite (create_raise _ _ _ _ _ _ _ _ _ (Hblocks _ Hstored)). reflexivity.
  - apply delete_notification_present. unfold stored_ids. apply in_map. exact Hstored.
  - unfold prunable. rewrite delete_notification_user_list, Hlist.
    rewrite List.filter_app. cbn [List.filter]. rewrite Z.eqb_refl. cbn [negb].
    rewrite app_nil_r. apply forallb_filter, forallb_filter. exact H.
Qed.

(** ** The default category *)

Lemma recent_of_complete l limit c r pf x :
  Z.of_nat (length l) <= limit ->
  In x l ->
  satisfies_filters c r (effective_priority_filter pf) x = true ->
  In x (recent_of l limit c r pf).
Proof.
  intros Hlimit Hx Hsat. rewrite recent_of_filters, slice_to_all.
  - apply (Permutation_in _ (Permutation_sym (sorted_by_key_perm _))).
    apply filter_In. split; assumption.
  - rewrite sorted_by_key_length.
    pose proof (List.filter_length_le
                  (satisfies_filters c r (effective_priority_filter pf)) l).
    lia.
Qed.

(** X17.  A notification created without a category is stored under
    ["system"] and is from then on treated as one of the category [SYSTEM]:
    a listing with the category filter [SYSTEM] and a limit that is at least
    the number of the user's notifications returns it, and
    [mark_all_as_read] for [SYSTEM] marks it.  It is the notification that
    the creation returns when it returns, as it does when every registered
    callback returns an awaitable that finishes. *)
Theorem default_category_is_system u m l t p d e w limit :
  prunable w u = true ->
  Z.of_nat (length (user_list
                      (svc (create_notification clock listener u m l t None p d e w).2) u))
    <= limit ->
  exists n listing,
    (forall n', (create_notification clock listener u m l t None p d e w).1 = Ok n' ->
                n' = n) /\
    (forallb (finishes listener n) (registered w u) = true ->
     (create_notification clock listener u m l t None p d e w).1 = Ok n) /\
    In n (user_list (svc (create_notification clock listener u m l t None p d e w).2) u) /\
    (get_recent_notifications u limit (Some SYSTEM) false None
       (create_notification clock listener u m l t None p d e w).2).1 = Ok listing /\
    In n listing /\
    selected (Some SYSTEM) n = true.
Proof.
  intros H Hlimit. exists (created clock w u m l t None p d e). eexists.
  assert (Hstored :
    In (created clock w u m l t None p d e)
       (user_list (svc (create_notification clock listener u m l t None p d e w).2) u)).
  { rewrite (create_user_list_ok _ _ _ _ _ _ _ _ _ H).
    apply in_or_app. right. left. reflexivity. }
  split; [intros n' Hn'; exact (proj1 (create_returned _ _ _ _ _ _ _ _ _ _ Hn'))|].
  split; [apply create_returns; exact H|].
  split; [exact Hstored|]. split; [reflexivity|].
  split; [|reflexivity].
  apply recent_of_complete; [exact Hlimit|exact Hstored|reflexivity].
Qed.

(** ** Broadcast ids *)

Lemma broadcast_kth_id us m l t c p d w :
  exists os,
    (gather (broadcast_tasks clock listener us m l t c p d) w).1 = Ok os /\
    forall k n, os !! k = Some (Ok n) ->
      n_id n = notification_id_counter (svc w) + Z.of_nat k /\
      n_message n = m /\ n_level n = l /\
      n_title n = title_or t (_generate_title l c) /\
      n_priority n = priority_value p /\ n_expires_at n = None.
Proof.
  revert w. induction us as [|u us IH]; intros w.
  - exists []. split; [reflexivity|]. intros k n Hk. destruct k; discriminate.
  - destruct (IH (create_notification clock listener u m l t c p d None w).2)
      as (os & Hos & Hk).
    exists ((create_notification clock listener u m l t c p d None w).1 :: os).
    rewrite broadcast_tasks_cons.
    split; [apply gather_cons_outcomes; exact Hos|].
    intros [|k] n Hn.
    + cbn [lookup list_lookup] in Hn. injection Hn as Hn.
      destruct (create_returned _ _ _ _ _ _ _ _ _ _ Hn) as [-> _].
      simpl. repeat split. lia.
    + change ((create_notification clock listener u m l t c p d None w).1 :: os) with
        ([(create_notification clock listener u m l t c p d None w).1] ++ os)%list in Hn.
      rewrite lookup_app_r in Hn by (simpl; lia). simpl in Hn.
      rewrite Nat.sub_0_r in Hn. destruct (Hk k n Hn) as (Hid & Hrest).
      split; [|exact Hrest]. rewrite Hid, create_counter. lia.
Qed.

(** X18.  In a broadcast the creation for the [k]-th element of [user_ids]
    uses the id counter plus [k], whether the creations before it returned
    or raised, and the notifications created carry the same message, level,
    title and priority and no expiry; after the broadcast the counter has
    advanced by the length of [user_ids], failed creations included. *)
Theorem broadcast_numbers_its_creations us m l t c p d w :
  exists os,
    (gather (broadcast_tasks clock listener us m l t c p d) w).1 = Ok os /\
    (forall k n, os !! k = Some (Ok n) ->
       n_id n = notification_id_counter (svc w) + Z.of_nat k /\
       n_message n = m /\ n_level n = l /\
       n_title n = title_or t (_generate_title l c) /\
       n_priority n = priority_value p /\ n_expires_at n = None) /\
    notification_id_counter (svc (broadcast_notification clock listener us m l t c p d w).2) =
      notification_id_counter (svc w) + Z.of_nat (length us).
Proof.
  destruct (broadcast_kth_id us m l t c p d w) as (os & Hos & Hk).
  exists os. split; [exact Hos|]. split; [exact Hk|].
  rewrite broadcast_world.
  destruct (broadcast_ids us m l t c p d w os Hos) as (_ & _ & Hc & _). exact Hc.
Qed.

(** ** Ties of the listing order *)

Lemma ties_key_leb a x y :
  ties_with a x = true -> ties_with a y = true ->
  key_leb (sort_key x) (sort_key y) = true.
Proof.
  unfold ties_with, key_leb, sort_key. cbn [fst snd].
  rewrite !andb_true_iff, !Z.eqb_eq, !Qeq_bool_iff. intros [Hp Ht] [Hp' Ht'].
  apply orb_true_iff. right. apply andb_true_iff. rewrite Z.eqb_eq, Qle_bool_iff.
  split; [lia|]. apply Qopp_le. rewrite Ht, Ht'. apply Qle_refl.
Qed.

Lemma insert_by_key_ties a x l :
  List.filter (ties_with a) (insert_by_key x l) = List.filter (ties_with a) (x :: l).
Proof.
  induction l as [|y l IH]; [reflexivity|].
  cbn [insert_by_key]. destruct (key_leb (sort_key x) (sort_key y)) eqn:Hxy; [reflexivity|].
  cbn [List.filter] in *. rewrite IH.
  destruct (ties_with a x) eqn:Hx, (ties_with a y) eqn:Hy; try reflexivity.
  rewrite (ties_key_leb a x y Hx Hy) in Hxy. discriminate.
Qed.

Lemma sorted_by_key_ties a l :
  List.filter (ties_with a) (sorted_by_key l) = List.filter (ties_with a) l.
Proof.
  induction l as [|x l IH]; [reflexivity|].
  cbn [sorted_by_key]. rewrite insert_by_key_ties. cbn [List.filter]. rewrite IH. reflexivity.
Qed.

(** X19.  The listing order is stable: for a limit that is at least the
    number of the user's notifications, the notifications of the listing
    that tie with a given one (same priority rank, same float time stamp)
    stand in the order in which they are stored. *)
Theorem listing_keeps_ties_in_storage_order u limit c r pf w a :
  Z.of_nat (length (user_list (svc w) u)) <= limit ->
  exists listing,
    (get_recent_notifications u limit c r pf w).1 = Ok listing /\
    List.filter (ties_with a) listing =
      List.filter (ties_with a)
        (List.filter (satisfies_filters c r (effective_priority_filter pf))
           (user_list (svc w) u)).
Proof.
  intros Hlimit. eexists. split; [reflexivity|].
  rewrite recent_of_filters, slice_to_all, sorted_by_key_ties; [reflexivity|].
  rewrite sorted_by_key_length.
  pose proof (List.filter_length_le
                (satisfies_filters c r (effective_priority_filter pf))
                (user_list (svc w) u)).
  lia.
Qed.

(** X23.  In every world that the service reaches, no stored notification
    has an empty title; and the notification that a creation appends there
    has the explicit title as given when that title is not empty, and the
    derived title, which is never empty, when the title is omitted or
    empty. *)
Theorem stored_title_is_never_empty w u :
  reachable clock listener w ->
  (forall n, In n (user_list (svc w) u) -> n_title n <> "") /\
  (forall m l t c p d e,
      prunable w u = true ->
      exists n,
        user_list (svc (create_notification clock listener u m l t c p d e w).2) u =
          (List.filter (live_at (prune_instant clock w)) (user_list (svc w) u) ++ [n])%list /\
        n_message n = m /\
        n_title n <> "" /\
        (forall s, t = Some s -> s <> "" -> n_title n = s) /\
        (t = None \/ t = Some "" -> n_title n = _generate_title l c) /\
        _generate_title l c <> "").
Proof.
  intros Hw. split.
  - intros n Hn. destruct (reachable_well_formed w Hw) as [_ Hkept].
    destruct (Hkept u) as [_ Hall]. rewrite List.Forall_forall in Hall.
    apply (Hall n Hn).
  - intros m l t c p d e H. exists (created clock w u m l t c p d e).
    split; [apply create_user_list_ok; exact H|]. split; [reflexivity|].
    split; [apply title_or_not_empty|]. split; [|split].
    + intros s -> Hs. cbn [created notification_of n_title].
      destruct s as [|a s]; [congruence|reflexivity].
    + intros [-> | ->]; reflexivity.
    + exact (title_or_not_empty None l c).
Qed.

(** X24.  In every world that the service reaches, every notification that
    [get_recent_notifications] returns for a user is stored for that user
    and carries that user's id, whatever the limit and the filters. *)
Theorem listing_returns_own_notifications u limit c r pf w n :
  reachable clock listener w ->
  In n (recent_of (user_list (svc w) u) limit c r pf) ->
  (get_recent_notifications u limit c r pf w).1 =
    Ok (recent_of (user_list (svc w) u) limit c r pf) /\
  In n (user_list (svc w) u) /\ n_user_id n = u.
Proof.
  intros Hw Hn. split; [reflexivity|].
  apply recent_of_In in Hn. split; [exact Hn|].
  destruct (reachable_well_formed w Hw) as [_ Hkept].
  destruct (Hkept u) as [_ Hall]. rewrite List.Forall_forall in Hall.
  apply (Hall n Hn).
Qed.

Lemma bulk_marked_all_read t0 t1 l l' :
  Forall2 (bulk_marked clock None t0 t1) l l' -> forallb n_read l' = true.
Proof.
  induction 1 as [|x x' l l' Hx _ IH]; [reflexivity|].
  simpl. rewrite IH, andb_true_r. unfold bulk_marked, selected in Hx.
  rewrite andb_true_r in Hx. destruct (n_read x) eqn:Hread; simpl in Hx.
  - subst x'. exact Hread.
  - destruct Hx as (k & _ & ->). reflexivity.
Qed.

Lemma filter_unread_none c pf l :
  forallb n_read l = true -> List.filter (satisfies_filters c true pf) l = [].
Proof.
  induction l as [|x l IH]; [reflexivity|].
  simpl. intros H. apply andb_prop in H as [Hx Hl]. rewrite (IH Hl).
  unfold satisfies_filters. rewrite Hx. simpl. rewrite andb_false_r. reflexivity.
Qed.

(** X25.  After [mark_all_as_read] without a category nothing is unread:
    every listing of the user with [unread_only] is empty and every unread
    count is zero, whatever the limit and the other filters. *)
Theorem nothing_is_unread_after_mark_all u limit c pf w :
  (get_recent_notifications u limit c true pf (mark_all_as_read clock u None w).2).1 = Ok [] /\
  (get_unread_count u c pf (mark_all_as_read clock u None w).2).1 = Ok 0.
Proof.
  destruct (mark_all_as_read_run u None w) as (l' & Hrun & Hl').
  destruct (mark_all_as_read_user_list u None w l') as [Hlist _];
    [rewrite Hrun; reflexivity|exact Hl'|].
  pose proof (bulk_marked_all_read _ _ _ _ Hl') as Hread.
  unfold get_recent_notifications, get_unread_count. run_m. rewrite Hlist.
  rewrite recent_of_filters, unread_of_filters, !(filter_unread_none _ _ _ Hread).
  split; [|reflexivity]. unfold slice_to. simpl. destruct (0 <=? limit); rewrite firstn_nil;
    reflexivity.
Qed.

End Facts.

(** * Properties of the connection manager *)

Section ConnectionFacts.

Variable accept_raises : WebSocket -> bool.
Variable send_raises : WebSocket -> gmap string PyVal -> bool.

Lemma first_connection_filter_same ws conns :
  first_connection ws
    (List.filter (fun conn => negb (Nat.eqb (conn_websocket conn) ws)) conns) = None.
Proof.
  induction conns as [|c conns IH]; [reflexivity|].
  simpl. destruct (Nat.eqb (conn_websocket c) ws) eqn:Hc; simpl; [exact IH|].
  rewrite Hc. exact IH.
Qed.

Lemma first_connection_filter_other ws ws' conns :
  ws' <> ws ->
  first_connection ws'
    (List.filter (fun conn => negb (Nat.eqb (conn_websocket conn) ws)) conns) =
  first_connection ws' conns.
Proof.
  intros Hne. induction conns as [|c conns IH]; [reflexivity|].
  simpl. destruct (Nat.eqb_spec (conn_websocket c) ws) as [Hc|Hc]; simpl.
  - destruct (Nat.eqb_spec (conn_websocket c) ws') as [Hc'|_]; [congruence|exact IH].
  - destruct (Nat.eqb (conn_websocket c) ws'); [reflexivity|exact IH].
Qed.

Lemma first_connection_none_filter ws conns :
  first_connection ws conns = None ->
  List.filter (fun conn => negb (Nat.eqb (conn_websocket conn) ws)) conns = conns.
Proof.
  induction conns as [|c conns IH]; [reflexivity|].
  simpl. destruct (Nat.eqb (conn_websocket c) ws); [discriminate|].
  intros H. simpl. rewrite (IH H). reflexivity.
Qed.

Lemma first_connection_app ws conns conns' :
  first_connection ws (conns ++ conns') =
  match first_connection ws conns with
  | Some c => Some c
  | None => first_connection ws conns'
  end.
Proof.
  induction conns as [|c conns IH]; [reflexivity|].
  simpl. destruct (Nat.eqb (conn_websocket c) ws); [reflexivity|exact IH].
Qed.

(** X20.  After [disconnect] no connection is found for the websocket, the
    connection found for any other websocket is the one found before, and the
    trace of sends is untouched; disconnecting a websocket that has no
    connection changes nothing. *)
Theorem disconnect_removes_the_websocket ws s :
  get_connection ws (disconnect ws s) = None /\
  (forall ws', ws' <> ws ->
     get_connection ws' (disconnect ws s) = get_connection ws' s) /\
  sends (disconnect ws s) = sends s /\
  (get_connection ws s = None -> disconnect ws s = s).
Proof.
  unfold get_connection, disconnect. simpl.
  split; [apply first_connection_filter_same|].
  split; [intros ws'; apply first_connection_filter_other|].
  split; [reflexivity|].
  intros H. rewrite (first_connection_none_filter _ _ H). destruct s; reflexivity.
Qed.

(** X21.  [connect] registers nothing when the accept raises.  When the
    accept returns, a websocket that had no connection gets one with the
    given user id and no subscriptions, and disconnecting it right away gives
    back the manager from before; a websocket that had a connection already
    keeps being found under that earlier connection; and the connection found
    for any other websocket is unchanged. *)
Theorem connect_registers_the_websocket ws u s :
  (accept_raises ws = true -> connect accept_raises ws u s = (Propagated, s)) /\
  (accept_raises ws = false ->
     (connect accept_raises ws u s).1 = Returned /\
     (get_connection ws s = None ->
        get_connection ws (connect accept_raises ws u s).2 =
          Some {| conn_websocket := ws; conn_user_id := u; conn_subscriptions := [] |} /\
        disconnect ws (connect accept_raises ws u s).2 = s) /\
     (forall c, get_connection ws s = Some c ->
        get_connection ws (connect accept_raises ws u s).2 = Some c) /\
     (forall ws', ws' <> ws ->
        get_connection ws' (connect accept_raises ws u s).2 = get_connection ws' s)).
Proof.
  unfold connect, get_connection, disconnect. split; intros ->; [reflexivity|].
  cbn [fst snd active_connections sends]. split; [reflexivity|]. split; [|split].
  - intros Hnone. rewrite first_connection_app, Hnone. simpl. rewrite Nat.eqb_refl.
    split; [reflexivity|].
    rewrite List.filter_app, (first_connection_none_filter _ _ Hnone). simpl.
    rewrite Nat.eqb_refl. simpl. rewrite app_nil_r. destruct s; reflexivity.
  - intros c Hc. rewrite first_connection_app, Hc. reflexivity.
  - intros ws' Hne. rewrite first_connection_app.
    destruct (first_connection ws' (active_connections s)); [reflexivity|].
    simpl. destruct (Nat.eqb_spec ws ws'); [congruence|reflexivity].
Qed.

Lemma send_loop_spec u msg conns sent trace :
  send_loop send_raises u msg conns sent trace =
  (sent || existsb (fun c => (conn_user_id c =? u) &&
                             negb (send_raises (conn_websocket c) msg)) conns,
   (trace ++ map (fun c => (conn_websocket c, msg))
               (List.filter (fun c => conn_user_id c =? u) conns))%list).
Proof.
  revert sent trace. induction conns as [|c conns IH]; intros sent trace.
  - simpl. rewrite orb_false_r, app_nil_r. reflexivity.
  - cbn [send_loop existsb List.filter]. destruct (conn_user_id c =? u).
    + destruct (send_raises (conn_websocket c) msg); rewrite IH; simpl;
        rewrite <- app_assoc; simpl; [reflexivity|].
      rewrite orb_true_r. reflexivity.
    + rewrite IH. reflexivity.
Qed.

(** X22.  [broadcast_to_user] attempts one send on every connection of the
    user, in the order of the connections, whether earlier sends raised or
    not, and none on a connection of another user; it returns true exactly
    when one of these sends returned; it leaves the connections as they
    were, and [send_to_user] makes the same sends. *)
Theorem broadcast_to_user_reaches_every_connection u msg s :
  sends (broadcast_to_user send_raises u msg s).2 =
    (sends s ++ map (fun c => (conn_websocket c, msg))
                  (List.filter (fun c => conn_user_id c =? u) (active_connections s)))%list /\
  ((broadcast_to_user send_raises u msg s).1 = true <->
   exists c, In c (active_connections s) /\ conn_user_id c = u /\
             send_raises (conn_websocket c) msg = false) /\
  active_connections (broadcast_to_user send_raises u msg s).2 = active_connections s /\
  send_to_user send_raises u msg s = (broadcast_to_user send_raises u msg s).2.
Proof.
  unfold broadcast_to_user, send_to_user. cbn [fst snd sends active_connections].
  rewrite send_loop_spec. cbn [fst snd]. split; [reflexivity|].
  split; [|split; reflexivity].
  rewrite orb_false_l, existsb_exists. split.
  - intros (c & Hc & Hsend). apply andb_true_iff in Hsend as [Hu Hs].
    exists c. split; [exact Hc|]. split; [apply Z.eqb_eq; exact Hu|].
    apply negb_true_iff. exact Hs.
  - intros (c & Hc & Hu & Hs). exists c. split; [exact Hc|].
    apply andb_true_iff. split; [apply Z.eqb_eq; exact Hu|]. rewrite Hs. reflexivity.
Qed.

End ConnectionFacts.

(** ** Instances on sample worlds *)

(** The derived titles of the two sample calls. *)
Example generate_title_samples :
  _generate_title "error" (Some RISK) = "Risk Error" /\
  _generate_title "warning" (Some TRADE) = "Trade Warning".
Proof. split; reflexivity. Qed.

(** Once a naive expiry is stored for a user, the next creation for that
    user raises in its pruning step, after the counter has advanced. *)
Example create_after_naive_expiry_raises :
  (create_notification clock0 quiet 1 "x" "info" None None MEDIUM None None world_naive).1
    = Raise TypeError /\
  notification_id_counter (svc world_naive) = 2 /\
  notification_id_counter
    (svc (create_notification clock0 quiet 1 "x" "info" None None MEDIUM None None
            world_naive).2) = 3.
Proof. vm_compute. repeat split; reflexivity. Qed.

Lemma recent_filtered_sorted_truncated_witness :
  0 <= 1 /\
  Forall before_horizon (user_list (svc world_pair) 1) /\
  exists ordered,
    get_recent_notifications 1 1 None true (Some [MEDIUM]) world_pair =
      (Ok (firstn (Z.to_nat 1) ordered), world_pair) /\
    length ordered = 2%nat /\
    StronglySorted listed_before ordered /\
    StronglySorted newest_first ordered.
Proof.
  assert (Hbefore : Forall before_horizon (user_list (svc world_pair) 1)).
  { apply List.Forall_forall. intros x Hx. vm_compute in Hx.
    destruct Hx as [<-|[<-|[]]]; vm_compute; split; (discriminate || reflexivity). }
  split; [lia|]. split; [exact Hbefore|].
  destruct (recent_filtered_sorted_truncated world_pair 1 1 None true (Some [MEDIUM]))
    as (ordered & Hrecent & Hperm & Hsorted & Hnewest & _); [lia|].
  exists ordered. split; [exact Hrecent|]. split; [|split; [exact Hsorted|]].
  - rewrite (Permutation_length Hperm). reflexivity.
  - exact (Hnewest Hbefore).
Defined.

(** C5 (as stated) fails.  With the empty list as priority filter the
    listing returns a notification whose priority is not contained in the
    given list.  And two notifications of the same priority created one
    microsecond apart after the horizon have the same float time stamp:
    the listing returns the older one first. *)
Lemma recent_departs_on_empty_priority_list_and_float_time_stamps :
  (exists n,
     (get_recent_notifications 1 50 None false (Some []) world_one).1 = Ok [n] /\
     satisfies_filters None false (Some []) n = false) /\
  (reachable clock_far quiet world_far /\
   exists older newer,
     user_list (svc world_far) 1 = [older; newer] /\
     n_priority older = n_priority newer /\
     n_timestamp older = 8600000000000001 /\
     n_timestamp newer = 8600000000000002 /\
     Qeq_bool (posix_timestamp older) (posix_timestamp newer) = true /\
     (get_recent_notifications 1 50 None false None world_far).1 = Ok [older; newer]).
Proof.
  split; [eexists; split; vm_compute; reflexivity|].
  split; [unfold world_far; cbn [run snd]; repeat apply reachable_exec; apply reachable_init|].
  do 2 eexists. split; [vm_compute; reflexivity|]. repeat split; vm_compute; reflexivity.
Qed.

Lemma reads_after_create_see_pruned_collection_witness :
  prunable world_expired 1 = true /\
  (get_notification_stats 1
     (create_notification clock0 quiet 1 "new" "info" None None MEDIUM None None
        world_expired).2).1 =
  Ok (stats_of
        (List.filter (live_at (prune_instant clock0 world_expired))
           (user_list (svc world_expired) 1)
         ++ [created clock0 world_expired 1 "new" "info" None None MEDIUM None None])%list).
Proof.
  split; [reflexivity|].
  apply (reads_after_create_see_pruned_collection clock0 quiet
           1 "new" "info" None None MEDIUM None None world_expired).
  reflexivity.
Defined.

(** C2 (as stated) fails: a notification created with an expiry that has
    already passed is stored after the pruning of its own creation; it is
    then listed, counted as unread and counted in the statistics. *)
Lemma expired_notification_is_listed_and_counted :
  reachable clock0 quiet world_expired /\
  exists n,
    expired_at (clock0 (ticks world_expired)) n /\
    In n (user_list (svc world_expired) 1) /\
    (get_recent_notifications 1 50 None false None world_expired).1 = Ok [n] /\
    (get_unread_count 1 None None world_expired).1 = Ok 1 /\
    (get_notification_stats 1 world_expired).1 = Ok (stats_of [n]) /\
    total (stats_of [n]) = 1.
Proof.
  split; [apply reachable_exec, reachable_init|].
  eexists. split; [|split; [left; reflexivity|repeat split; reflexivity]].
  exists (utc 5), 0. repeat split; try reflexivity. vm_compute. discriminate.
Qed.

Lemma create_validates_nothing_witness :
  prunable world_listeners 1 = true /\
  exists n,
    n_message n = "" /\ n_level n = "loud" /\
    user_list
      (svc (create_notification clock0 first_raises_on_call 1 "" "loud" None None MEDIUM
              None None world_listeners).2) 1 = [n] /\
    (create_notification clock0 first_raises_on_call 1 "" "loud" None None MEDIUM None None
       world_listeners).1 = Raise (CallbackFailure 1%nat).
Proof.
  split; [reflexivity|].
  destruct (create_validates_nothing clock0 first_raises_on_call
              1 "" "loud" None None MEDIUM None None world_listeners eq_refl)
    as (n & Hm & Hl & Hlist & _ & Hout & _).
  exists n. split; [exact Hm|]. split; [exact Hl|]. split; [exact Hlist|].
  rewrite Hout. vm_compute. reflexivity.
Defined.

(** C1 (as stated) fails: a creation with the empty message and a level
    outside the four levels returns the notification, appends it to the
    user's collection and advances the id counter. *)
Lemma create_accepts_empty_message_and_unknown_level :
  level_titles "loud" = None /\
  exists n,
    (create_notification clock0 quiet 1 "" "loud" None None MEDIUM None None init_world).1
      = Ok n /\
    n_message n = "" /\ n_level n = "loud" /\
    user_list (svc init_world) 1 = [] /\
    user_list (svc (exec clock0 quiet
                      (OpCreate 1 "" "loud" None None MEDIUM None None) init_world)) 1 = [n] /\
    notification_id_counter (svc init_world) = 1 /\
    notification_id_counter
      (svc (exec clock0 quiet (OpCreate 1 "" "loud" None None MEDIUM None None) init_world)) = 2.
Proof.
  split; [reflexivity|]. eexists. split; [vm_compute; reflexivity|].
  repeat split; vm_compute; reflexivity.
Qed.

Lemma create_isolates_listener_failures_witness :
  prunable world_listeners 1 = true /\
  registered world_listeners 1 = [1%nat; 2%nat] /\
  forallb
    (returns_awaitable first_raises
       (created clock0 world_listeners 1 "x" "info" None None MEDIUM None None))
    (registered world_listeners 1) = true /\
  exists n,
    listener_outcome first_raises n 1%nat = Raise (CallbackFailure 1%nat) /\
    (create_notification clock0 first_raises 1 "x" "info" None None MEDIUM None None
       world_listeners).1 = Ok n /\
    delivered (create_notification clock0 first_raises 1 "x" "info" None None MEDIUM None None
                 world_listeners).2 = [(1%nat, n); (2%nat, n)].
Proof.
  split; [reflexivity|]. split; [reflexivity|]. split; [reflexivity|].
  destruct (create_isolates_listener_failures clock0 first_raises
              1 "x" "info" None None MEDIUM None None world_listeners eq_refl eq_refl)
    as (n & Hd & _ & _ & _ & Hfin).
  exists n. split; [reflexivity|]. split; [|exact Hd].
  apply Hfin. reflexivity.
Defined.

(** C8 (as stated) fails.  In a world that the service reaches, with the
    listeners 1 and 2 registered for a user whose list holds a naive expiry,
    a creation raises [TypeError] and runs no listener.  With the same
    listeners and a list that can be pruned, when listener 1 is a plain
    function that raises, the creation raises that exception after the
    append and listener 2 is never run; when listener 1 is a plain function
    that returns [None], the creation raises [TypeError] after the append
    and listener 2 is never run. *)
Lemma create_fails_with_its_listeners :
  (reachable clock0 quiet world_blocked /\
   registered world_blocked 1 = [1%nat; 2%nat] /\
   (create_notification clock0 quiet 1 "x" "info" None None MEDIUM None None
      world_blocked).1 = Raise TypeError /\
   delivered (create_notification clock0 quiet 1 "x" "info" None None MEDIUM None None
                world_blocked).2 = delivered world_blocked) /\
  (reachable clock0 first_raises_on_call world_listeners /\
   registered world_listeners 1 = [1%nat; 2%nat] /\
   prunable world_listeners 1 = true /\
   exists n,
     first_raises_on_call 1%nat n = RaisesWhenCalled /\
     (create_notification clock0 first_raises_on_call 1 "x" "info" None None MEDIUM None
        None world_listeners).1 = Raise (CallbackFailure 1%nat) /\
     delivered (create_notification clock0 first_raises_on_call 1 "x" "info" None None
                  MEDIUM None None world_listeners).2 = [(1%nat, n)] /\
     user_list (svc (create_notification clock0 first_raises_on_call 1 "x" "info" None None
                       MEDIUM None None world_listeners).2) 1 = [n]) /\
  (reachable clock0 first_is_plain world_listeners /\
   exists n,
     first_is_plain 1%nat n = ReturnsNoAwaitable /\
     (create_notification clock0 first_is_plain 1 "x" "info" None None MEDIUM None
        None world_listeners).1 = Raise TypeError /\
     delivered (create_notification clock0 first_is_plain 1 "x" "info" None None
                  MEDIUM None None world_listeners).2 = [(1%nat, n)] /\
     user_list (svc (create_notification clock0 first_is_plain 1 "x" "info" None None
                       MEDIUM None None world_listeners).2) 1 = [n]).
Proof.
  split; [|split].
  - split; [unfold world_blocked; repeat apply reachable_exec; apply reachable_init|].
    repeat split; vm_compute; reflexivity.
  - split.
    { change world_listeners with
        (exec clock0 first_raises_on_call (OpAddListener 1 2%nat)
           (exec clock0 first_raises_on_call (OpAddListener 1 1%nat) init_world)).
      repeat apply reachable_exec. apply reachable_init. }
    split; [reflexivity|]. split; [reflexivity|].
    eexists. split; [reflexivity|]. repeat split; vm_compute; reflexivity.
  - split.
    { change world_listeners with
        (exec clock0 first_is_plain (OpAddListener 1 2%nat)
           (exec clock0 first_is_plain (OpAddListener 1 1%nat) init_world)).
      repeat apply reachable_exec. apply reachable_init. }
    eexists. split; [reflexivity|]. repeat split; vm_compute; reflexivity.
Qed.

Lemma default_category_is_not_used_for_title_witness :
  prunable init_world 1 = true /\
  exists n,
    (create_notification clock0 quiet 1 "x" "info" None None MEDIUM None None init_world).1
      = Ok n /\
    n_category n = "system" /\ n_title n = "Notification Information".
Proof.
  split; [reflexivity|].
  destruct (default_category_is_not_used_for_title clock0 quiet
              1 "x" "info" MEDIUM None None init_world eq_refl)
    as (n & _ & Hn & _ & Hc & _ & _ & Ht).
  exists n. split; [exact (Hn eq_refl)|]. split; [exact Hc|]. apply Ht. reflexivity.
Defined.

Lemma mark_as_read_is_idempotent_witness :
  exists x,
    stored world_unread 1 1 = Some x /\ n_read x = false /\
    (mark_as_read clock0 1 1 world_unread).1 = Ok true /\
    (mark_as_read clock0 1 1 (mark_as_read clock0 1 1 world_unread).2).2 =
      (mark_as_read clock0 1 1 world_unread).2 /\
    ~ In 7 (stored_ids world_unread 1) /\
    mark_as_read clock0 1 7 world_unread = (Ok false, world_unread).
Proof.
  destruct (mark_as_read_is_idempotent clock0 1 1 world_unread) as (_ & Hfound & _).
  destruct (mark_as_read_is_idempotent clock0 1 7 world_unread) as (_ & _ & Hmissing).
  assert (Hnot : ~ In 7 (stored_ids world_unread 1)).
  { vm_compute. intros [H|[]]. discriminate. }
  eexists. split; [reflexivity|]. split; [reflexivity|].
  destruct (Hfound _ eq_refl) as (H1 & _ & H2 & _).
  split; [exact H1|]. split; [exact H2|]. split; [exact Hnot|]. exact (Hmissing Hnot).
Defined.

Lemma broadcast_creates_for_every_user_witness :
  prunable world_naive 1 = false /\ prunable world_naive 2 = true /\
  (broadcast_notification clock0 quiet [1; 2] "all" "info" None None MEDIUM None
     world_naive).1 = Raise TypeError /\
  exists n,
    n_user_id n = 2 /\ n_message n = "all" /\
    In n (user_list
            (svc (broadcast_notification clock0 quiet [1; 2] "all" "info" None None MEDIUM None
                    world_naive).2) 2).
Proof.
  split; [reflexivity|]. split; [reflexivity|]. split; [vm_compute; reflexivity|].
  destruct (broadcast_creates_for_every_user clock0 quiet
              [1; 2] "all" "info" None None MEDIUM None world_naive)
    as (os & _ & _ & _ & Hk).
  destruct (Hk 1%nat 2 eq_refl) as (_ & Hok & _).
  destruct (Hok eq_refl) as (n & Hu & Hm & Hin & _).
  exists n. split; [exact Hu|]. split; [exact Hm|exact Hin].
Defined.

(** After the notification 1 is deleted the next creation returns the id 2. *)
Example ids_are_not_reused_after_delete :
  (run clock0 quiet
     [OpCreate 1 "a" "info" None None MEDIUM None None;
      OpDelete 1 1;
      OpCreate 1 "b" "info" None None MEDIUM None None] init_world).1 = [1; 2].
Proof. vm_compute. reflexivity. Qed.

Lemma users_are_isolated_witness :
  reachable clock0 first_raises world_two /\
  1 <> 2 /\ In 2 (stored_ids world_two 2) /\
  mark_as_read clock0 1 2 world_two = (Ok false, world_two) /\
  notifications (svc (exec clock0 first_raises (OpDelete 1 1) world_two)) !! 2 =
    notifications (svc world_two) !! 2.
Proof.
  destruct (users_are_isolated clock0 first_raises) as [Hmark Hframe].
  assert (Hreach : reachable clock0 first_raises world_two).
  { unfold world_two, world_unread, world_listeners.
    repeat apply reachable_exec. apply reachable_init. }
  assert (Hne : 1 <> 2) by lia.
  assert (Hin : In 2 (stored_ids world_two 2)) by (vm_compute; left; reflexivity).
  split; [exact Hreach|]. split; [exact Hne|]. split; [exact Hin|]. split.
  - exact (Hmark world_two 1 2 2 Hreach Hne Hin).
  - apply (Hframe (OpDelete 1 1) world_two 2). simpl. intros [H|[]]. lia.
Defined.

Lemma mark_as_read_changes_read_fields_only_witness :
  listeners (svc (mark_as_read clock0 1 1 world_two).2) = listeners (svc world_two) /\
  notification_id_counter (svc (mark_as_read clock0 1 1 world_two).2) =
    notification_id_counter (svc world_two) /\
  notifications (svc (mark_as_read clock0 1 1 world_two).2) !! 2 =
    notifications (svc world_two) !! 2.
Proof.
  destruct (mark_as_read_changes_read_fields_only clock0 1 1 world_two)
    as (Hl & Hc & Hother & _).
  split; [exact Hl|]. split; [exact Hc|]. apply Hother. lia.
Defined.

(** Three unread notifications for user 1, the second of the category risk. *)
Example mark_all_as_read_by_category :
  let w := (run clock0 quiet
              [OpCreate 1 "a" "info" None None MEDIUM None None;
               OpCreate 1 "b" "info" None (Some RISK) HIGH None None;
               OpCreate 1 "c" "info" None (Some TRADE) LOW None None] init_world).2 in
  (mark_all_as_read clock0 1 (Some RISK) w).1 = Ok 1 /\
  (mark_all_as_read clock0 1 None (mark_all_as_read clock0 1 (Some RISK) w).2).1 = Ok 2 /\
  map n_read (user_list (svc (mark_all_as_read clock0 1 (Some RISK) w).2) 1)
    = [false; true; false].
Proof. vm_compute. repeat split; reflexivity. Qed.

Lemma reachable_world_two : reachable clock0 first_raises world_two.
Proof.
  unfold world_two, world_unread, world_listeners.
  repeat apply reachable_exec. apply reachable_init.
Qed.

Lemma mark_all_as_read_marks_in_place_witness :
  2 <> 1 /\
  notifications (svc (mark_all_as_read clock0 1 (Some RISK) world_mixed).2) !! 2 =
    notifications (svc world_mixed) !! 2 /\
  map n_read (user_list (svc (mark_all_as_read clock0 1 (Some RISK) world_mixed).2) 1) =
    [false; true; false].
Proof.
  destruct (mark_all_as_read_marks_in_place clock0 1 (Some RISK) world_mixed)
    as (_ & Hother & _).
  assert (Hne : 2 <> 1) by lia.
  split; [exact Hne|]. split; [exact (Hother 2 Hne)|]. vm_compute. reflexivity.
Defined.

Lemma delete_notification_removes_the_id_witness :
  In 2 (stored_ids world_mixed 1) /\
  (delete_notification 1 2 world_mixed).1 = Ok true /\
  ~ In 9 (stored_ids world_mixed 1) /\
  delete_notification 1 9 world_mixed = (Ok false, world_mixed).
Proof.
  destruct (delete_notification_removes_the_id 1 2 world_mixed) as (Hpresent & _).
  destruct (delete_notification_removes_the_id 1 9 world_mixed) as (_ & Habsent & _).
  assert (Hin : In 2 (stored_ids world_mixed 1)) by (vm_compute; right; left; reflexivity).
  assert (Hnot : ~ In 9 (stored_ids world_mixed 1)).
  { vm_compute. intros [H|[H|[H|[]]]]; discriminate. }
  split; [exact Hin|]. split; [exact (Hpresent Hin)|]. split; [exact Hnot|exact (Habsent Hnot)].
Defined.

Lemma unread_count_is_length_of_unread_listing_witness :
  Z.of_nat (length (user_list (svc world_mixed) 1)) <= 10 /\
  exists listing,
    (get_recent_notifications 1 10 None true (Some [HIGH; LOW]) world_mixed).1 = Ok listing /\
    (get_unread_count 1 None (Some [HIGH; LOW]) world_mixed).1 =
      Ok (Z.of_nat (length listing)).
Proof.
  assert (H : Z.of_nat (length (user_list (svc world_mixed) 1)) <= 10)
    by (vm_compute; discriminate).
  split; [exact H|].
  exact (unread_count_is_length_of_unread_listing 1 10 None (Some [HIGH; LOW]) world_mixed H).
Defined.

Lemma recent_length_is_bounded_by_limit_witness :
  0 <= 2 /\
  exists listing,
    (get_recent_notifications 1 2 None false None world_mixed).1 = Ok listing /\
    length listing = 2%nat.
Proof.
  split; [lia|].
  destruct (recent_length_is_bounded_by_limit 1 2 None false None world_mixed)
    as (listing & Hl & Hlen); [lia|].
  exists listing. split; [exact Hl|]. rewrite Hlen. vm_compute. reflexivity.
Defined.

Lemma mark_as_read_lowers_unread_count_witness :
  exists x,
    stored world_mixed 1 2 = Some x /\
    (get_unread_count 1 (Some RISK) None (mark_as_read clock0 1 2 world_mixed).2).1 =
      Ok (unread_of (user_list (svc world_mixed) 1) (Some RISK) None -
          (if satisfies_filters (Some RISK) true (effective_priority_filter None) x
           then 1 else 0)) /\
    unread_of (user_list (svc world_mixed) 1) (Some RISK) None = 1 /\
    satisfies_filters (Some RISK) true (effective_priority_filter None) x = true.
Proof.
  destruct (mark_as_read_lowers_unread_count clock0 1 2 (Some RISK) None world_mixed)
    as [Hfound _].
  eexists. split; [reflexivity|]. split; [apply Hfound; reflexivity|].
  split; reflexivity.
Defined.

Lemma listener_registration_witness :
  ~ In 5%nat (registered world_listeners 1) /\
  registered (remove_listener 1 5%nat (add_listener 1 5%nat world_listeners).2).2 1 =
    registered world_listeners 1 /\
  2 <> 1 /\
  registered (add_listener 1 5%nat world_listeners).2 2 = registered world_listeners 2.
Proof.
  destruct (listener_registration 1 5%nat world_listeners) as (_ & _ & _ & Hround & Hother).
  assert (Hnot : ~ In 5%nat (registered world_listeners 1)).
  { vm_compute. intros [H|[H|[]]]; discriminate. }
  assert (Hne : 2 <> 1) by lia.
  split; [exact Hnot|]. split; [exact (proj2 (Hround Hnot))|].
  split; [exact Hne|exact (proj1 (Hother 2 Hne))].
Defined.

Lemma creation_follows_the_registration_witness :
  prunable world_listeners 1 = true /\
  exists n,
    (create_notification clock0 first_raises 1 "x" "info" None None MEDIUM None None
       (add_listener 1 5%nat world_listeners).2).1 = Ok n /\
    delivered (create_notification clock0 first_raises 1 "x" "info" None None MEDIUM None None
                 (add_listener 1 5%nat world_listeners).2).2 =
      [(1%nat, n); (2%nat, n); (5%nat, n)] /\
    ~ In (1%nat, n)
        (delivered (create_notification clock0 first_raises_on_call 1 "x" "info" None None
                      MEDIUM None None (remove_listener 1 1%nat world_listeners).2).2).
Proof.
  split; [reflexivity|].
  destruct (creation_follows_the_registration clock0 first_raises
              1 5%nat "x" "info" None None MEDIUM None None world_listeners eq_refl)
    as (Hadd & _ & _).
  destruct (Hadd eq_refl) as [Hd Hok].
  destruct (creation_follows_the_registration clock0 first_raises_on_call
              1 1%nat "x" "info" None None MEDIUM None None world_listeners eq_refl)
    as (_ & (run & Hrun & _ & Hnot) & _).
  eexists. split; [exact (Hok eq_refl)|]. split; [exact Hd|].
  rewrite Hrun. intros Hin. apply Hnot.
  apply in_map_iff in Hin as (cb & Hcb & Hin). injection Hcb as ->. exact Hin.
Defined.

Lemma read_at_is_set_exactly_when_read_witness :
  exists n,
    user_list (svc (mark_as_read clock0 1 1 world_two).2) 1 = [n] /\
    n_read n = true /\
    (n_read_at n = None <-> n_read n = false).
Proof.
  assert (H : exists n,
             user_list (svc (mark_as_read clock0 1 1 world_two).2) 1 = [n] /\
             n_read n = true)
    by (vm_compute; eexists; split; reflexivity).
  destruct H as (n & Hn & Hread). exists n. split; [exact Hn|]. split; [exact Hread|].
  apply (read_at_is_set_exactly_when_read clock0 first_raises
           (mark_as_read clock0 1 1 world_two).2 1).
  - apply (reachable_exec clock0 first_raises world_two (OpMarkRead 1 1)).
    exact reachable_world_two.
  - rewrite Hn. left. reflexivity.
Defined.

Lemma stored_ids_are_unique_and_owned_witness :
  reachable clock0 first_raises world_two /\ List.NoDup (stored_ids world_two 1).
Proof.
  split; [exact reachable_world_two|].
  apply (stored_ids_are_unique_and_owned clock0 first_raises world_two 1).
  exact reachable_world_two.
Defined.

Lemma stored_enums_are_enumerated_witness :
  exists n,
    user_list (svc world_two) 2 = [n] /\
    exists c, n_category n = category_value c.
Proof.
  assert (H : exists n, user_list (svc world_two) 2 = [n])
    by (vm_compute; eexists; reflexivity).
  destruct H as (n & Hn). exists n. split; [exact Hn|].
  apply (stored_enums_are_enumerated clock0 first_raises world_two 2).
  - exact reachable_world_two.
  - rewrite Hn. left. reflexivity.
Defined.

Lemma delete_removes_exactly_one_witness :
  (delete_notification 1 1 world_two).1 = Ok true /\
  exists s s',
    (get_notification_stats 1 world_two).1 = Ok s /\
    (get_notification_stats 1 (delete_notification 1 1 world_two).2).1 = Ok s' /\
    total s' = total s - 1.
Proof.
  split; [reflexivity|].
  apply (delete_removes_exactly_one clock0 first_raises 1 1 world_two).
  - exact reachable_world_two.
  - reflexivity.
Defined.

Lemma failed_creation_consumes_an_id_witness :
  prunable world_naive 1 = false /\
  (create_notification clock0 quiet 1 "x" "info" None None MEDIUM None None world_naive).1 =
    Raise TypeError /\
  notification_id_counter
    (svc (create_notification clock0 quiet 1 "x" "info" None None MEDIUM None None
            world_naive).2) = notification_id_counter (svc world_naive) + 1.
Proof.
  split; [reflexivity|].
  destruct (failed_creation_consumes_an_id clock0 quiet
              1 "x" "info" None None MEDIUM None None world_naive eq_refl)
    as (Hraise & _ & _ & _ & Hc & _).
  split; assumption.
Defined.

Lemma naive_expiry_is_accepted_then_blocks_witness :
  prunable init_world 1 = true /\
  exists n,
    (create_notification clock0 quiet 1 "n" "info" None None MEDIUM None
       (Some {| dt_wall := 5000; dt_offset := None |}) init_world).1 = Ok n /\
    (create_notification clock0 quiet 1 "later" "info" None None MEDIUM None None
       (create_notification clock0 quiet 1 "n" "info" None None MEDIUM None
          (Some {| dt_wall := 5000; dt_offset := None |}) init_world).2).1 = Raise TypeError /\
    prunable
      (delete_notification 1 (n_id n)
         (create_notification clock0 quiet 1 "n" "info" None None MEDIUM None
            (Some {| dt_wall := 5000; dt_offset := None |}) init_world).2).2 1 = true.
Proof.
  split; [reflexivity|].
  destruct (naive_expiry_is_accepted_then_blocks clock0 quiet
              1 "n" "info" None None MEDIUM None {| dt_wall := 5000; dt_offset := None |}
              init_world eq_refl eq_refl)
    as (n & _ & Hn & _ & _ & _ & Hlater & _ & Hfree).
  exists n. split; [exact (Hn eq_refl)|]. split; [apply Hlater|exact Hfree].
Defined.

Lemma default_category_is_system_witness :
  prunable world_mixed 1 = true /\
  exists n listing,
    (create_notification clock0 quiet 1 "d" "info" None None MEDIUM None None world_mixed).1
      = Ok n /\
    (get_recent_notifications 1 10 (Some SYSTEM) false None
       (create_notification clock0 quiet 1 "d" "info" None None MEDIUM None None
          world_mixed).2).1 = Ok listing /\
    In n listing.
Proof.
  split; [reflexivity|].
  destruct (default_category_is_system clock0 quiet
              1 "d" "info" None MEDIUM None None world_mixed 10 eq_refl)
    as (n & listing & _ & Hn & _ & Hl & Hin & _); [vm_compute; discriminate|].
  exists n, listing. split; [exact (Hn eq_refl)|]. split; assumption.
Defined.

Lemma broadcast_numbers_its_creations_witness :
  notification_id_counter
    (svc (broadcast_notification clock0 quiet [1; 2] "all" "info" None None MEDIUM None
            world_naive).2) = notification_id_counter (svc world_naive) + 2 /\
  exists n,
    n_user_id n = 2 /\ n_id n = notification_id_counter (svc world_naive) + 1.
Proof.
  destruct (broadcast_numbers_its_creations clock0 quiet
              [1; 2] "all" "info" None None MEDIUM None world_naive)
    as (os & Hos & Hk & Hc).
  split; [exact Hc|].
  vm_compute in Hos. injection Hos as <-.
  eexists. split; [|exact (proj1 (Hk 1%nat _ eq_refl))]. reflexivity.
Defined.

Lemma listing_keeps_ties_in_storage_order_witness :
  Z.of_nat (length (user_list (svc world_far) 1)) <= 10 /\
  exists a listing,
    In a (user_list (svc world_far) 1) /\
    (get_recent_notifications 1 10 None false None world_far).1 = Ok listing /\
    List.filter (ties_with a) listing =
      List.filter (ties_with a)
        (List.filter (satisfies_filters None false (effective_priority_filter None))
           (user_list (svc world_far) 1)) /\
    map n_id (List.filter (ties_with a) listing) = [1; 2].
Proof.
  assert (H : Z.of_nat (length (user_list (svc world_far) 1)) <= 10)
    by (vm_compute; discriminate).
  split; [exact H|].
  exists (created clock_far init_world 1 "older" "info" None None MEDIUM None None).
  destruct (listing_keeps_ties_in_storage_order 1 10 None false None world_far
              (created clock_far init_world 1 "older" "info" None None MEDIUM None None) H)
    as (listing & Hl & Hties).
  exists listing. split; [vm_compute; left; reflexivity|]. split; [exact Hl|].
  split; [exact Hties|]. rewrite Hties. vm_compute. reflexivity.
Defined.

Lemma disconnect_removes_the_websocket_witness :
  get_connection 2%nat (disconnect 2%nat manager_three) = None /\
  3%nat <> 2%nat /\
  get_connection 3%nat (disconnect 2%nat manager_three) = get_connection 3%nat manager_three /\
  get_connection 9%nat manager_three = None /\
  disconnect 9%nat manager_three = manager_three.
Proof.
  destruct (disconnect_removes_the_websocket 2%nat manager_three) as (Hgone & Hother & _).
  destruct (disconnect_removes_the_websocket 9%nat manager_three) as (_ & _ & _ & Hsame).
  assert (Hne : 3%nat <> 2%nat) by lia.
  split; [exact Hgone|]. split; [exact Hne|]. split; [exact (Hother 3%nat Hne)|].
  split; [reflexivity|exact (Hsame eq_refl)].
Defined.

Lemma connect_registers_the_websocket_witness :
  accept_all 4%nat = false /\
  get_connection 4%nat manager_three = None /\
  get_connection 4%nat (connect accept_all 4%nat 7 manager_three).2 =
    Some {| conn_websocket := 4%nat; conn_user_id := 7; conn_subscriptions := [] |} /\
  disconnect 4%nat (connect accept_all 4%nat 7 manager_three).2 = manager_three.
Proof.
  destruct (connect_registers_the_websocket accept_all 4%nat 7 manager_three) as [_ Hok].
  destruct (Hok eq_refl) as (_ & Hfresh & _).
  split; [reflexivity|]. split; [reflexivity|]. exact (Hfresh eq_refl).
Defined.

Lemma broadcast_to_user_reaches_every_connection_witness :
  (broadcast_to_user second_send_raises 5 ∅ manager_three).1 = true /\
  sends (broadcast_to_user second_send_raises 5 ∅ manager_three).2 =
    [(1%nat, ∅); (2%nat, ∅)].
Proof.
  destruct (broadcast_to_user_reaches_every_connection second_send_raises 5 ∅ manager_three)
    as (Hsends & Hflag & _).
  split.
  - apply Hflag. eexists. split; [left; reflexivity|]. split; reflexivity.
  - rewrite Hsends. reflexivity.
Defined.

Lemma stored_title_is_never_empty_witness :
  reachable clock0 first_raises world_two /\
  (exists n, user_list (svc world_two) 2 = [n] /\ n_title n <> "") /\
  (exists n,
     user_list (svc (create_notification clock0 first_raises 2 "m" "info" (Some "Mine")
                       (Some BOT) LOW None None world_two).2) 2 =
       (List.filter (live_at (prune_instant clock0 world_two)) (user_list (svc world_two) 2)
          ++ [n])%list /\
     n_title n = "Mine") /\
  (exists n,
     user_list (svc (create_notification clock0 first_raises 2 "m" "info" (Some "")
                       (Some BOT) LOW None None world_two).2) 2 =
       (List.filter (live_at (prune_instant clock0 world_two)) (user_list (svc world_two) 2)
          ++ [n])%list /\
     n_title n = "Bot Information").
Proof.
  destruct (stored_title_is_never_empty clock0 first_raises world_two 2 reachable_world_two)
    as [Hstored Hcreate].
  split; [exact reachable_world_two|]. split; [|split].
  - assert (H : exists n, user_list (svc world_two) 2 = [n])
      by (vm_compute; eexists; reflexivity).
    destruct H as (n & Hn). exists n. split; [exact Hn|].
    apply Hstored. rewrite Hn. left. reflexivity.
  - destruct (Hcreate "m" "info" (Some "Mine") (Some BOT) LOW None None eq_refl)
      as (n & Hlist & _ & _ & Hgiven & _).
    exists n. split; [exact Hlist|]. apply Hgiven; [reflexivity|discriminate].
  - destruct (Hcreate "m" "info" (Some "") (Some BOT) LOW None None eq_refl)
      as (n & Hlist & _ & _ & _ & Hderived & _).
    exists n. split; [exact Hlist|]. rewrite Hderived; [reflexivity|right; reflexivity].
Defined.

Lemma listing_returns_own_notifications_witness :
  exists n,
    In n (recent_of (user_list (svc world_two) 2) 5 None false None) /\
    n_user_id n = 2.
Proof.
  assert (H : exists n, recent_of (user_list (svc world_two) 2) 5 None false None = [n])
    by (vm_compute; eexists; reflexivity).
  destruct H as (n & Hn).
  assert (Hin : In n (recent_of (user_list (svc world_two) 2) 5 None false None))
    by (rewrite Hn; left; reflexivity).
  exists n. split; [exact Hin|].
  apply (listing_returns_own_notifications clock0 first_raises 2 5 None false None world_two n
           reachable_world_two Hin).
Defined.
